(** * views/system_info.py: the diagnostics page of the HUD

    A shallow embedding of [views/system_info.py] (Python 2) and the
    properties of its polling timers, colour mapping and status
    aggregation.

    Conventions of the embedding:
    - Python floats are idealised as exact rationals ([Q]).
    - An exception is a value of [exn]; only instances of [Exception] are
      modelled (interpreter-exit signals are outside the model).
    - Calls that leave the module (shell, sockets, the thermal file, the
      Aithre sensor, the font and the framebuffer) are answered by an
      environment [env] and recorded in a trace of [event]s.
    - [task_timer.start()] / [task_timer.stop()] only feed a profiler and
      are left out. *)

From Stdlib Require Import ZArith QArith Qround Lqa String Ascii List Bool Lia.
From Stdlib Require Import DecimalString.
Import ListNotations.

Local Open Scope string_scope.
Local Open Scope Z_scope.

(* ================================================================= *)
(** ** Python values *)

(** Exceptions that the collaborators can raise. *)
Inductive exn : Type :=
| IOError
| ValueError
| TypeError
| SocketError
| SensorError
| OverflowError.

(** The result of running a Python expression: a value or an exception. *)
Inductive outcome (A : Type) : Type :=
| Returns (a : A)
| Raises (e : exn).
Arguments Returns {A} a.
Arguments Raises {A} e.

(** A Python float: a finite number (idealised as a rational), an
    infinity, or not-a-number. *)
Inductive pyfloat : Type :=
| Finite (q : Q)
| Infinity (negative : bool)
| NaN.

(** A sensor reading that is not [None]: a number (the docstrings of
    [get_aithre_co_color] and [get_aithre_battery_color] say {int}) or a
    text (the code tests [isinstance(x, basestring)]). *)
Inductive pyval : Type :=
| PInt (z : Z)
| PStr (s : string).

Definition string_of_Z (z : Z) : string := NilZero.string_of_int (Z.to_int z).

(** ["{}".format(v)] *)
Definition format_val (v : pyval) : string :=
  match v with
  | PInt z => string_of_Z z
  | PStr s => s
  end.

Definition is_basestring (v : option pyval) : bool :=
  match v with
  | Some (PStr _) => true
  | _ => false
  end.

(** [v > n] and [v >= n] for an int [n].  In Python 2 a number orders
    before a value of any other type, so a text is greater than every
    int. *)
Definition py_gt (v : pyval) (n : Z) : bool :=
  match v with
  | PInt z => n <? z
  | PStr _ => true
  end.

Definition py_ge (v : pyval) (n : Z) : bool :=
  match v with
  | PInt z => n <=? z
  | PStr _ => true
  end.

(** [int(x)] on a float: truncation towards zero. *)
Definition py_int (x : Q) : Z :=
  if Qle_bool 0 x then Qfloor x else Qceiling x.

Definition Qgt_bool (x y : Q) : bool := negb (Qle_bool x y).

(* ----------------------------------------------------------------- *)
(** *** Strings *)

Definition is_space (c : ascii) : bool :=
  match nat_of_ascii c with
  | 9%nat | 10%nat | 11%nat | 12%nat | 13%nat | 32%nat => true
  | _ => false
  end.

Fixpoint lstrip (s : string) : string :=
  match s with
  | String c s' => if is_space c then lstrip s' else s
  | EmptyString => EmptyString
  end.

Fixpoint rev_string (acc s : string) : string :=
  match s with
  | String c s' => rev_string (String c acc) s'
  | EmptyString => acc
  end.

(** [s.strip()] *)
Definition strip (s : string) : string :=
  rev_string "" (lstrip (rev_string "" (lstrip s))).

(** [s.split(' ')]: cuts at every single space, keeping empty fields. *)
Fixpoint split_space (s : string) : list string :=
  match s with
  | EmptyString => [""]
  | String c s' =>
      if Ascii.eqb c " "%char then "" :: split_space s'
      else match split_space s' with
           | w :: ws => String c w :: ws
           | [] => [String c ""]
           end
  end.

(** [' '.join(l)] *)
Fixpoint join_space (l : list string) : string :=
  match l with
  | [] => ""
  | [w] => w
  | w :: ws => w ++ " " ++ join_space ws
  end.

Fixpoint has_space (s : string) : bool :=
  match s with
  | EmptyString => false
  | String c s' => Ascii.eqb c " "%char || has_space s'
  end.

(* ================================================================= *)
(** ** Colours *)

(** The colour constants of [lib.display] that this module names. *)
Inductive color_name : Type := BLACK | GRAY | BLUE | RED | GREEN | YELLOW.

Record rgb : Type := mk_rgb { r_chan : Q; g_chan : Q; b_chan : Q }.

(** A colour object: one of the module-level constants, or a fresh
    object built by [colors.get_color_mix].  [c1 is c2] holds exactly when
    both are the same constant. *)
Inductive color : Type :=
| Named (n : color_name)
| Mixed (v : rgb).

Definition color_name_eqb (a b : color_name) : bool :=
  match a, b with
  | BLACK, BLACK | GRAY, GRAY | BLUE, BLUE
  | RED, RED | GREEN, GREEN | YELLOW, YELLOW => true
  | _, _ => false
  end.

(** [c is n] for a constant [n]. *)
Definition color_is (c : color) (n : color_name) : bool :=
  match c with
  | Named m => color_name_eqb m n
  | Mixed _ => false
  end.

(** A displayed sample: the text and the colour to render it in. *)
Definition sample : Type := string * color.

(* ================================================================= *)
(** ** Collaborators that are not part of this module *)

(** A font: the [font] argument of the constructors. *)
Record font : Type := {
  get_height : Z;
  (** [font.render(text, ...).get_size()[0]] *)
  render_width : string -> Z
}.

(** What the imported modules provide: the channel values of the colour
    constants of [lib.display], the thresholds of [aithre], and the
    builtin [float] on a text ([None] stands for [ValueError]; texts such
    as inf, nan or 1e400 give a float that is not finite). *)
Class Imports : Type := {
  rgb_of : color_name -> rgb;
  CO_SAFE : Z;
  CO_WARNING : Z;
  BATTERY_SAFE : Z;
  BATTERY_WARNING : Z;
  py_float : string -> option pyfloat
}.

(** The Aithre sensor object: what its two methods answer. *)
Record sensor_obj : Type := {
  get_battery : outcome (option pyval);
  get_co_level : outcome (option pyval)
}.

(** The answers of the outside world during one frame. *)
Record env : Type := {
  IS_LINUX : bool;
  IS_PI : bool;
  (** [commands.getoutput('hostname -I')] *)
  hostname_I : outcome string;
  (** [socket.gethostname()] *)
  gethostname : outcome string;
  (** [socket.gethostbyname(h)] *)
  gethostbyname : string -> outcome string;
  (** [open('/sys/class/thermal/thermal_zone0/temp').read()] *)
  thermal_zone0 : outcome string;
  (** [aithre.sensor] *)
  sensor : option sensor_obj;
  (** [configuration.CONFIGURATION.aithre_enabled] *)
  aithre_enabled : bool;
  (** [configuration.VERSION] *)
  VERSION : string;
  (** [str(configuration.CONFIGURATION.get_declination())] *)
  declination : string;
  (** [configuration.CONFIGURATION.get_traffic_manager_address()] *)
  traffic_manager_address : string;
  (** the text of [capabilities.ownship_mode_s] and [ownship_icao] *)
  ownship_mode_s : string;
  ownship_icao : string
}.

Inductive probe : Type := GetIpAddress | GetCpuTemp.

(** What a run leaves behind: probe invocations, calls to the
    collaborators, and text drawn on the framebuffer
    ([font.render(text, True, fg, bg)] blitted at [(x, y)]). *)
Inductive event : Type :=
| Called (p : probe)
| HostnameI
| GetHostName
| GetHostByName (h : string)
| ReadThermal
| GetBattery
| GetCoLevel
| Blit (text : string) (fg bg : color) (x : Z) (y : Q).

(* ================================================================= *)
(** ** A state, trace and exception monad *)

Section Monad.
Context {S : Type}.

(** A computation over the object state [S]: the events it emits, the
    state it leaves (also when it raises) and its outcome. *)
Definition M (A : Type) : Type := S -> list event * S * outcome A.

Definition ret {A} (a : A) : M A := fun s => ([], s, Returns a).

Definition bind {A B} (m : M A) (f : A -> M B) : M B :=
  fun s =>
    match m s with
    | (t, s', Returns a) =>
        let '(t', s'', r) := f a s' in ((t ++ t')%list, s'', r)
    | (t, s', Raises e) => (t, s', Raises e)
    end.

Definition raise {A} (e : exn) : M A := fun s => ([], s, Raises e).

Definition emit (ev : event) : M unit := fun s => ([ev], s, Returns tt).

(** A call to a collaborator: recorded, then answered. *)
Definition call {A} (ev : event) (answer : outcome A) : M A :=
  fun s => ([ev], s, answer).

Definition get : M S := fun s => ([], s, Returns s).

Definition modify (f : S -> S) : M unit := fun s => ([], f s, Returns tt).

(** [try: m / except: h] *)
Definition try_except {A} (m : M A) (h : M A) : M A :=
  fun s =>
    match m s with
    | (t, s', Raises _) =>
        let '(t', s'', r) := h s' in ((t ++ t')%list, s'', r)
    | done => done
    end.
End Monad.
Arguments M : clear implicits.

Declare Scope py_scope.
Delimit Scope py_scope with py.
Notation "x <- m ;; k" := (bind m (fun x => k))
  (at level 61, m at next level, right associativity) : py_scope.
Notation "m ;; k" := (bind m (fun _ => k))
  (at level 61, right associativity) : py_scope.
Local Open Scope py_scope.

Definition trace_of {S A} (r : list event * S * outcome A) : list event :=
  fst (fst r).
Definition state_of {S A} (r : list event * S * outcome A) : S :=
  snd (fst r).
Definition outcome_of {S A} (r : list event * S * outcome A) : outcome A :=
  snd r.

(* ================================================================= *)
(** ** lib.colors *)

(** Modelled from the spec: [colors.clamp] is part of [lib/colors.py],
    which is not among the sources.  The spec asks for the value "clamped
    to [0,1] before use"; the argument order (lower bound, value, upper
    bound) is the one of the call in [get_cpu_temp_text_color]. *)
Definition clamp (minimum value maximum : Q) : Q :=
  if Qgt_bool minimum value then minimum
  else if Qgt_bool value maximum then maximum
  else value.

(** One channel of the blend: the point at [proportion] on the line from
    [left] to [right]. *)
Definition interpolate (left right proportion : Q) : Q :=
  (left + (right - left) * proportion)%Q.

Section Model.
Context `{Imports}.

(** The channel values of a colour object. *)
Definition channels (c : color) : rgb :=
  match c with
  | Named n => rgb_of n
  | Mixed v => v
  end.

(** Modelled from the spec: [colors.get_color_mix] is part of
    [lib/colors.py], which is not among the sources.  The spec says:
    "linearly interpolate the color channel-wise using proportion,
    producing a smooth blend from safe_color to danger_color". *)
Definition get_color_mix (left right : color) (proportion : Q) : color :=
  let l := channels left in
  let r := channels right in
  Mixed (mk_rgb (interpolate (r_chan l) (r_chan r) proportion)
                (interpolate (g_chan l) (g_chan r) proportion)
                (interpolate (b_chan l) (b_chan r) proportion)).

(** Two colour objects with the same channel values. *)
Definition same_color (c1 c2 : color) : Prop :=
  (r_chan (channels c1) == r_chan (channels c2))%Q /\
  (g_chan (channels c1) == g_chan (channels c2))%Q /\
  (b_chan (channels c1) == b_chan (channels c2))%Q.

(* =============================================================== *)
(** ** Module-level functions *)

Definition NORMAL_TEMP : Z := 50.
Definition REDLINE_TEMP : Z := 80.

Definition get_cpu_temp_text_color (temperature : Q) : color :=
  if Qgt_bool temperature (inject_Z REDLINE_TEMP) then Named RED
  else if Qgt_bool temperature (inject_Z NORMAL_TEMP) then
    let delta := (temperature - inject_Z NORMAL_TEMP)%Q in
    let temp_range := inject_Z (REDLINE_TEMP - NORMAL_TEMP) in
    let delta := clamp 0 delta temp_range in
    let proportion := (delta / temp_range)%Q in
    get_color_mix (Named GREEN) (Named RED) proportion
  else Named GREEN.

Section Probes.
Context {S : Type}.

(** The [try] suite of [get_ip_address]. *)
Definition ip_address_try (e : env) : M S sample :=
  if IS_LINUX e && IS_PI e then
    out <- call HostnameI (hostname_I e) ;;
    let ip_addr := strip out in
    ret (ip_addr, Named GREEN)
  else
    host_name <- call GetHostName (gethostname e) ;;
    addr <- call (GetHostByName host_name) (gethostbyname e host_name) ;;
    ret (addr, Named GREEN).

(** [get_ip_address()]: the whole body sits in a [try] with a bare
    [except]. *)
Definition get_ip_address (e : env) : M S sample :=
  emit (Called GetIpAddress) ;;
  try_except (ip_address_try e) (ret ("UNKNOWN", Named RED)).

(** The [try] suite of [get_cpu_temp]: it returns only on Linux
    ([Some]); otherwise control falls out of the [try] ([None]).  For a
    float that is not finite the division and the colour go through
    without effect, and [int(math.floor(temp))] raises: [OverflowError]
    for an infinity, [ValueError] for not-a-number. *)
Definition cpu_temp_try (e : env) : M S (option sample) :=
  if IS_LINUX e then
    text <- call ReadThermal (thermal_zone0 e) ;;
    match py_float text with
    | None => raise ValueError
    | Some (Finite temp) =>
        let temp := (temp / 1000)%Q in
        let color := get_cpu_temp_text_color temp in
        ret (Some (string_of_Z (Qfloor temp) ++ "C", color))
    | Some (Infinity _) => raise OverflowError
    | Some NaN => raise ValueError
    end
  else ret None.

(** [get_cpu_temp()]: the [try] with its bare [except], then the last
    [return] for a suite that fell through. *)
Definition get_cpu_temp (e : env) : M S sample :=
  emit (Called GetCpuTemp) ;;
  returned <- try_except (cpu_temp_try e)
                         (ret (Some ("---", Named GRAY))) ;;
  match returned with
  | Some result => ret result
  | None => ret ("---", Named GRAY)
  end.
End Probes.

Definition get_aithre_co_color (co_ppm : pyval) : color :=
  if py_gt co_ppm CO_WARNING then Named RED
  else if py_gt co_ppm CO_SAFE then Named YELLOW
  else Named BLUE.

Definition get_aithre_battery_color (battery_percent : pyval) : color :=
  if py_ge battery_percent BATTERY_SAFE then Named GREEN
  else if py_ge battery_percent BATTERY_WARNING then Named YELLOW
  else Named RED.

End Model.

(* ================================================================= *)
(** ** class SystemInfo *)

(** One entry of [info_lines]: the label and the value, which is a
    (text, colour) pair or [None]. *)
Definition row : Type := string * option sample.

(** [lines.append(line)] *)
Definition append (lines : list row) (line : row) : list row :=
  (lines ++ [line])%list.

Module SystemInfo.

Record t : Type := mk {
  __font__ : font;
  font_height : Z;
  __text_y_pos__ : Z;
  __rhs__ : Z;
  __left_x__ : Z;
  __center_x__ : Z;
  __update_ip_timer__ : Z;
  __update_temp_timer__ : Z;
  __ip_address__ : sample;
  __cpu_temp__ : option sample;
  __framebuffer_size__ : Z * Z;
  __line_spacing__ : Q
}.

Definition set_update_ip_timer (v : Z) (self : t) : t :=
  mk (__font__ self) (font_height self) (__text_y_pos__ self) (__rhs__ self)
     (__left_x__ self) (__center_x__ self) v (__update_temp_timer__ self)
     (__ip_address__ self) (__cpu_temp__ self) (__framebuffer_size__ self)
     (__line_spacing__ self).

Definition set_update_temp_timer (v : Z) (self : t) : t :=
  mk (__font__ self) (font_height self) (__text_y_pos__ self) (__rhs__ self)
     (__left_x__ self) (__center_x__ self) (__update_ip_timer__ self) v
     (__ip_address__ self) (__cpu_temp__ self) (__framebuffer_size__ self)
     (__line_spacing__ self).

Definition set_ip_address (v : sample) (self : t) : t :=
  mk (__font__ self) (font_height self) (__text_y_pos__ self) (__rhs__ self)
     (__left_x__ self) (__center_x__ self) (__update_ip_timer__ self)
     (__update_temp_timer__ self) v (__cpu_temp__ self)
     (__framebuffer_size__ self) (__line_spacing__ self).

Definition set_cpu_temp (v : option sample) (self : t) : t :=
  mk (__font__ self) (font_height self) (__text_y_pos__ self) (__rhs__ self)
     (__left_x__ self) (__center_x__ self) (__update_ip_timer__ self)
     (__update_temp_timer__ self) (__ip_address__ self) v
     (__framebuffer_size__ self) (__line_spacing__ self).

Section Methods.
Context `{Imports}.

(** [SystemInfo(degrees_of_pitch, pixels_per_degree_y, font,
    framebuffer_size)]; the first two arguments are not used. *)
Definition __init__ (e : env) (fnt : font) (framebuffer_size : Z * Z)
  : M unit t :=
  let font_height := get_height fnt in
  ip <- get_ip_address e ;;
  ret (mk fnt
          font_height
          (snd framebuffer_size - font_height)
          (py_int ((9 # 10) * inject_Z (fst framebuffer_size))%Q)
          (py_int (inject_Z (fst framebuffer_size) * (1 # 100))%Q)
          (Z.shiftr (fst framebuffer_size) 1)
          0
          0
          ip
          None
          framebuffer_size
          (101 # 100)).

(** Lines 160-172: the battery text and colour. *)
Definition battery_text_and_color {S} (snsr : sensor_obj) : M S sample :=
  try_except
    (battery <- call GetBattery (get_battery snsr) ;;
     let battery_suffix := if is_basestring battery then "" else "%" in
     match battery with
     | Some b =>
         ret ("bat:" ++ format_val b ++ battery_suffix,
              get_aithre_battery_color b)
     | None => ret ("UNK", Named RED)
     end)
    (ret ("ERR", Named RED)).

(** Lines 174-184: the CO text and colour. *)
Definition co_text_and_color {S} (snsr : sensor_obj) : M S sample :=
  try_except
    (co_ppm <- call GetCoLevel (get_co_level snsr) ;;
     match co_ppm with
     | Some v => ret ("co:" ++ format_val v ++ "ppm", get_aithre_co_color v)
     | None => ret ("UNK", Named RED)
     end)
    (ret ("ERR", Named RED)).

(** Lines 186-187: the colour of the whole row. *)
Definition combined_color (co_color battery_color : color) : color :=
  if color_is co_color RED || color_is battery_color RED then Named RED
  else if color_is co_color YELLOW || color_is battery_color YELLOW
       then Named YELLOW
       else Named BLUE.

Definition __get_aithre_text_and_color__ {S} (e : env) : M S sample :=
  match sensor e with
  | None =>
      ret (if aithre_enabled e then ("DISCONNECTED", Named RED)
           else ("DISABLED", Named BLUE))
  | Some snsr =>
      bat <- battery_text_and_color snsr ;;
      co <- co_text_and_color snsr ;;
      let color := combined_color (snd co) (snd bat) in
      ret (fst co ++ " " ++ fst bat, color)
  end.

(** Lines 194-197 of [render]: the countdown of the address. *)
Definition refresh_ip (e : env) : M t unit :=
  modify (fun self =>
            set_update_ip_timer (__update_ip_timer__ self - 1) self) ;;
  self <- get ;;
  if __update_ip_timer__ self <=? 0 then
    ip <- get_ip_address e ;;
    modify (set_ip_address ip) ;;
    modify (set_update_ip_timer 120)
  else ret tt.

(** Lines 199-202 of [render]: the countdown of the temperature. *)
Definition refresh_temp (e : env) : M t unit :=
  modify (fun self =>
            set_update_temp_timer (__update_temp_timer__ self - 1) self) ;;
  self <- get ;;
  if __update_temp_timer__ self <=? 0 then
    temp <- get_cpu_temp e ;;
    modify (set_cpu_temp (Some temp)) ;;
    modify (set_update_temp_timer 60)
  else ret tt.

Definition refresh (e : env) : M t unit :=
  refresh_ip e ;;
  refresh_temp e.

Definition ip_row (color : color) (addr : string) : row :=
  ("IP          : ", Some (addr, color)).

(** Lines 204-224 of [render]: the list [info_lines]. *)
Definition info_lines (e : env) : M t (list row) :=
  self <- get ;;
  let info_lines :=
    [ ("VERSION     : ", Some (VERSION e, Named YELLOW));
      ("DECLINATION : ", Some (declination e, Named BLUE));
      ("TRAFFIC     : ", Some (traffic_manager_address e, Named BLUE)) ] in
  let addresses := split_space (fst (__ip_address__ self)) in
  let info_lines :=
    fold_left
      (fun lines addr =>
         append lines (ip_row (snd (__ip_address__ self)) addr))
      addresses info_lines in
  aithre <- __get_aithre_text_and_color__ e ;;
  let info_lines := append info_lines ("AITHRE      : ", Some aithre) in
  let info_lines :=
    append info_lines ("HUD CPU     : ", __cpu_temp__ self) in
  let info_lines :=
    append info_lines
      ("OWNSHIP     : ",
       Some (ownship_mode_s e ++ "/" ++ ownship_icao e, Named BLUE)) in
  let info_lines :=
    append info_lines
      ("DISPLAY RES : ",
       Some (string_of_Z (fst (__framebuffer_size__ self)) ++ " x " ++
             string_of_Z (snd (__framebuffer_size__ self)),
             Named BLUE)) in
  ret info_lines.

(** Lines 226-239 of [render]: the label of every line in BLUE, then
    its value; a value that is [None] cannot be indexed. *)
Fixpoint draw_lines (self : t) (lines : list row) (render_y : Q)
  : M t unit :=
  match lines with
  | [] => ret tt
  | line :: rest =>
      emit (Blit (fst line) (Named BLUE) (Named BLACK) 0 render_y) ;;
      let size0 := render_width (__font__ self) (fst line) in
      match snd line with
      | Some (text, color) =>
          emit (Blit text color (Named BLACK) size0 render_y)
      | None => raise TypeError
      end ;;
      draw_lines self rest
        (render_y - inject_Z (font_height self) * __line_spacing__ self)%Q
  end.

Definition render (e : env) : M t unit :=
  refresh e ;;
  lines <- info_lines e ;;
  self <- get ;;
  draw_lines self lines (inject_Z (__text_y_pos__ self)).

End Methods.
End SystemInfo.

(* ================================================================= *)
(** ** class Aithre *)

Module Aithre.

Record t : Type := mk {
  __font__ : font;
  __text_y_pos__ : Z;
  __lhs__ : Z;
  __has_been_connected__ : bool
}.

Definition set_has_been_connected (v : bool) (self : t) : t :=
  mk (__font__ self) (__text_y_pos__ self) (__lhs__ self) v.

(** [Aithre(degrees_of_pitch, pixels_per_degree_y, font,
    framebuffer_size)] *)
Definition __init__ (fnt : font) (framebuffer_size : Z * Z) : t :=
  let center_y := Z.shiftr (snd framebuffer_size) 2 in
  let text_half_height := Z.shiftr (get_height fnt) 1 in
  mk fnt (center_y - text_half_height) 0 false.

Section Methods.
Context `{Imports}.

(** Lines 272-276: the text drawn at the left of the display. *)
Definition draw (co_ppm_text : string) (co_color : color) : M t unit :=
  self <- get ;;
  emit (Blit co_ppm_text co_color (Named BLACK)
             (__lhs__ self) (inject_Z (__text_y_pos__ self))).

Definition render (e : env) : M t unit :=
  match sensor e with
  | Some snsr =>
      if aithre_enabled e then
        co_level <- call GetCoLevel (get_co_level snsr) ;;
        self <- get ;;
        match co_level with
        | Some (PInt n) =>
            let co_color := get_aithre_co_color (PInt n) in
            let co_ppm_text := string_of_Z n ++ " PPM" in
            modify (set_has_been_connected true) ;;
            draw co_ppm_text co_color
        | _ =>
            if __has_been_connected__ self then draw "OFFLINE" (Named RED)
            else ret tt
        end
      else ret tt
  | None => ret tt
  end.
End Methods.
End Aithre.

(** The frame driver calls [render] once per frame on the same object,
    each frame with its own environment.  An exception of one frame is the
    driver's to handle; it does not undo what the frame did to the
    object. *)
Fixpoint run_frames {S} (step : env -> M S unit) (es : list env) (s : S)
  : list event * S :=
  match es with
  | [] => ([], s)
  | e :: rest =>
      let '(t, s', _) := step e s in
      let '(t', s'') := run_frames step rest s' in
      ((t ++ t')%list, s'')
  end.

(** How often a probe was invoked in a trace. *)
Definition is_call (p : probe) (ev : event) : bool :=
  match ev, p with
  | Called GetIpAddress, GetIpAddress => true
  | Called GetCpuTemp, GetCpuTemp => true
  | _, _ => false
  end.

Definition calls (p : probe) (tr : list event) : nat :=
  List.length (filter (is_call p) tr).

Definition is_blit (ev : event) : bool :=
  match ev with
  | Blit _ _ _ _ _ => true
  | _ => false
  end.

(* ================================================================= *)
(** ** Sample collaborators, to run the model *)

Module Sample.

(** The usual 8-bit channel values. *)
Definition display_rgb (n : color_name) : rgb :=
  match n with
  | BLACK => mk_rgb 0 0 0
  | GRAY => mk_rgb 128 128 128
  | BLUE => mk_rgb 0 0 255
  | RED => mk_rgb 255 0 0
  | GREEN => mk_rgb 0 255 0
  | YELLOW => mk_rgb 255 255 0
  end.

(** [float] restricted to what the thermal file holds, a decimal integer
    between optional white space, and to the two texts inf and nan. *)
Definition decimal_float (s : string) : option pyfloat :=
  match strip s with
  | EmptyString => None
  | "inf" => Some (Infinity false)
  | "nan" => Some NaN
  | digits =>
      match NilZero.int_of_string digits with
      | Some d => Some (Finite (inject_Z (Z.of_int d)))
      | None => None
      end
  end.

Definition imports : Imports :=
  {| rgb_of := display_rgb;
     CO_SAFE := 400;
     CO_WARNING := 700;
     BATTERY_SAFE := 75;
     BATTERY_WARNING := 25;
     py_float := decimal_float |}.

Definition a_font : font :=
  {| get_height := 20; render_width := fun s => 10 * Z.of_nat (String.length s) |}.

(** A Raspberry Pi with two addresses, a CPU at 65 degrees and a healthy
    sensor. *)
Definition pi : env :=
  {| IS_LINUX := true;
     IS_PI := true;
     hostname_I := Returns "192.168.10.1 10.0.0.7 ";
     gethostname := Returns "raspberrypi";
     gethostbyname := fun _ => Returns "127.0.1.1";
     thermal_zone0 := Returns "65000
";
     sensor := Some {| get_battery := Returns (Some (PInt 90));
                       get_co_level := Returns (Some (PInt 3)) |};
     aithre_enabled := true;
     VERSION := "1.4";
     declination := "0.0";
     traffic_manager_address := "ws://192.168.10.1/traffic";
     ownship_mode_s := "None";
     ownship_icao := "None" |}.

(** The same unit when the shell and the thermal file fail and the
    sensor has lost its battery reading. *)
Definition failing : env :=
  {| IS_LINUX := true;
     IS_PI := true;
     hostname_I := Raises IOError;
     gethostname := Raises SocketError;
     gethostbyname := fun _ => Raises SocketError;
     thermal_zone0 := Returns "n/a";
     sensor := Some {| get_battery := Returns None;
                       get_co_level := Returns (Some (PStr "OFFLINE")) |};
     aithre_enabled := true;
     VERSION := "1.4";
     declination := "0.0";
     traffic_manager_address := "ws://192.168.10.1/traffic";
     ownship_mode_s := "None";
     ownship_icao := "None" |}.

(** A desktop without a sensor, with the feature switched off or on. *)
Definition desktop (enabled : bool) : env :=
  {| IS_LINUX := false;
     IS_PI := false;
     hostname_I := Raises IOError;
     gethostname := Returns "desk";
     gethostbyname := fun _ => Returns "192.168.1.20";
     thermal_zone0 := Raises IOError;
     sensor := None;
     aithre_enabled := enabled;
     VERSION := "1.4";
     declination := "0.0";
     traffic_manager_address := "ws://192.168.10.1/traffic";
     ownship_mode_s := "None";
     ownship_icao := "None" |}.

(** A diagnostics page whose countdowns have just been set. *)
Definition running : SystemInfo.t :=
  SystemInfo.mk a_font 20 460 720 8 400 120 60
    ("192.168.10.1 10.0.0.7", Named GREEN) (Some ("65C", Named GREEN))
    (800, 480) (101 # 100).

End Sample.

(* ================================================================= *)
(** ** What the specification asks of a blend *)

(** [c] lies between [a] and [b], strictly when they differ. *)
Definition strictly_between (a b c : Q) : Prop :=
  ((a < b -> a < c < b) /\ (b < a -> b < c < a) /\ (a == b -> c == a))%Q.

(** Every channel of [c] lies between the channels of [l] and [r]. *)
Definition blend_between (l r c : rgb) : Prop :=
  strictly_between (r_chan l) (r_chan r) (r_chan c) /\
  strictly_between (g_chan l) (g_chan r) (g_chan c) /\
  strictly_between (b_chan l) (b_chan r) (b_chan c).

(** Every channel of [c] is halfway between the channels of [l] and [r]. *)
Definition midpoint (l r c : rgb) : Prop :=
  (r_chan c == (r_chan l + r_chan r) / 2 /\
   g_chan c == (g_chan l + g_chan r) / 2 /\
   b_chan c == (b_chan l + b_chan r) / 2)%Q.

(** The severity ordering DANGER > CAUTION > SAFE of the specification,
    as levels 2 > 1 > 0: RED is danger, YELLOW is caution, every other
    colour is safe. *)
Definition level (c : color) : nat :=
  if color_is c RED then 2 else if color_is c YELLOW then 1 else 0.

Definition color_of_level (n : nat) : color :=
  match n with
  | 0%nat => Named BLUE
  | 1%nat => Named YELLOW
  | _ => Named RED
  end.

(** The worst-of rule in the specification's words: the colour of the
    maximum of the two severities. *)
Definition worst_of (a b : color) : color :=
  color_of_level (Nat.max (level a) (level b)).

(** The number that [Aithre.render] obtains from the sensor in a frame,
    if it obtains one. *)
Definition numeric_co_reading (e : env) : option Z :=
  match sensor e with
  | Some snsr =>
      if aithre_enabled e then
        match get_co_level snsr with
        | Returns (Some (PInt n)) => Some n
        | _ => None
        end
      else None
  | None => None
  end.

(** The text OFFLINE drawn in RED. *)
Definition draws_offline (tr : list event) : Prop :=
  exists bg x y, In (Blit "OFFLINE" (Named RED) bg x y) tr.

(** The fields that [render] never assigns. *)
Definition same_layout (a b : SystemInfo.t) : Prop :=
  SystemInfo.__font__ a = SystemInfo.__font__ b /\
  SystemInfo.font_height a = SystemInfo.font_height b /\
  SystemInfo.__text_y_pos__ a = SystemInfo.__text_y_pos__ b /\
  SystemInfo.__framebuffer_size__ a = SystemInfo.__framebuffer_size__ b /\
  SystemInfo.__line_spacing__ a = SystemInfo.__line_spacing__ b.

(** The rows that [render] puts below and above the address rows. *)
Definition rows_before (e : env) : list row :=
  [ ("VERSION     : ", Some (VERSION e, Named YELLOW));
    ("DECLINATION : ", Some (declination e, Named BLUE));
    ("TRAFFIC     : ", Some (traffic_manager_address e, Named BLUE)) ].

Definition rows_after (e : env) (self : SystemInfo.t) (aithre : sample)
  : list row :=
  [ ("AITHRE      : ", Some aithre);
    ("HUD CPU     : ", SystemInfo.__cpu_temp__ self);
    ("OWNSHIP     : ",
     Some (ownship_mode_s e ++ "/" ++ ownship_icao e, Named BLUE));
    ("DISPLAY RES : ",
     Some (string_of_Z (fst (SystemInfo.__framebuffer_size__ self)) ++ " x " ++
           string_of_Z (snd (SystemInfo.__framebuffer_size__ self)),
           Named BLUE)) ].

(** More sample environments and pages, built on the first ones. *)
Module MoreSamples.

(** The sample Pi with another sensor. *)
Definition with_sensor (snsr : option sensor_obj) : env :=
  {| IS_LINUX := true;
     IS_PI := true;
     hostname_I := hostname_I Sample.pi;
     gethostname := gethostname Sample.pi;
     gethostbyname := gethostbyname Sample.pi;
     thermal_zone0 := thermal_zone0 Sample.pi;
     sensor := snsr;
     aithre_enabled := true;
     VERSION := "1.4";
     declination := "0.0";
     traffic_manager_address := "ws://192.168.10.1/traffic";
     ownship_mode_s := "None";
     ownship_icao := "None" |}.

(** The sample Pi with another text in its thermal file. *)
Definition with_thermal (text : string) : env :=
  {| IS_LINUX := true;
     IS_PI := true;
     hostname_I := hostname_I Sample.pi;
     gethostname := gethostname Sample.pi;
     gethostbyname := gethostbyname Sample.pi;
     thermal_zone0 := Returns text;
     sensor := sensor Sample.pi;
     aithre_enabled := true;
     VERSION := "1.4";
     declination := "0.0";
     traffic_manager_address := "ws://192.168.10.1/traffic";
     ownship_mode_s := "None";
     ownship_icao := "None" |}.

(** A sensor that answers with texts, one that has no CO level, and one
    whose CO call raises. *)
Definition texts : sensor_obj :=
  {| get_battery := Returns (Some (PStr "LOW"));
     get_co_level := Returns (Some (PStr "OFFLINE")) |}.

Definition no_co : sensor_obj :=
  {| get_battery := Returns (Some (PInt 90));
     get_co_level := Returns None |}.

Definition broken : sensor_obj :=
  {| get_battery := Returns (Some (PInt 90));
     get_co_level := Raises SensorError |}.

(** A diagnostics page with the given countdowns and cached temperature. *)
Definition page (ip_timer temp_timer : Z) (cpu : option sample)
  : SystemInfo.t :=
  SystemInfo.mk Sample.a_font 20 460 720 8 400 ip_timer temp_timer
    ("192.168.10.1 10.0.0.7", Named GREEN) cpu (800, 480) (101 # 100).

End MoreSamples.

(** How many spaces a text holds. *)
Fixpoint count_spaces (s : string) : nat :=
  match s with
  | EmptyString => 0
  | String c s' =>
      if Ascii.eqb c " "%char then S (count_spaces s') else count_spaces s'
  end.

(** The text begins, or ends, with a white-space character. *)
Definition starts_with_space (s : string) : bool :=
  match s with
  | String c _ => is_space c
  | EmptyString => false
  end.

Fixpoint ends_with_space (s : string) : bool :=
  match s with
  | EmptyString => false
  | String c EmptyString => is_space c
  | String _ s' => ends_with_space s'
  end.

(** A diagnostics page that [render] can draw: the temperature is cached,
    or its countdown is about to fetch it. *)
Definition ready (self : SystemInfo.t) : Prop :=
  SystemInfo.__cpu_temp__ self <> None \/
  SystemInfo.__update_temp_timer__ self <= 1.

(** A diagnostics page between two frames, once the first frame has run:
    both countdowns are within their period and both samples are
    cached. *)
Definition steady (self : SystemInfo.t) : Prop :=
  1 <= SystemInfo.__update_ip_timer__ self <= 120 /\
  1 <= SystemInfo.__update_temp_timer__ self <= 60 /\
  SystemInfo.__cpu_temp__ self <> None.



(** The attributes that only the constructor assigns. *)
Definition same_geometry (a b : SystemInfo.t) : Prop :=
  same_layout a b /\
  SystemInfo.__rhs__ a = SystemInfo.__rhs__ b /\
  SystemInfo.__left_x__ a = SystemInfo.__left_x__ b /\
  SystemInfo.__center_x__ a = SystemInfo.__center_x__ b.

(** The events of a trace that draw. *)
Definition blits (tr : list event) : list event := filter is_blit tr.

(* ================================================================= *)
(** ** Properties *)

(** Unfolds the monad to the triples it computes. *)
Ltac run :=
  unfold bind, ret, emit, call, raise, get, modify, try_except,
    trace_of, state_of, outcome_of in *;
  cbn [fst snd app] in *.

Lemma Qgt_bool_true (x y : Q) : Qgt_bool x y = true <-> (y < x)%Q.
Proof.
  unfold Qgt_bool. rewrite negb_true_iff, <- not_true_iff_false, Qle_bool_iff.
  split; [apply Qnot_le_lt | apply Qlt_not_le].
Qed.

Lemma Qgt_bool_false (x y : Q) : Qgt_bool x y = false <-> (x <= y)%Q.
Proof.
  unfold Qgt_bool. rewrite negb_false_iff. apply Qle_bool_iff.
Qed.

Lemma clamp_inside (lo v hi : Q) :
  (lo <= v)%Q -> (v <= hi)%Q -> clamp lo v hi = v.
Proof.
  intros Hlo Hhi. unfold clamp.
  apply Qgt_bool_false in Hlo, Hhi. now rewrite Hlo, Hhi.
Qed.

Lemma interpolate_between (l r p : Q) :
  (0 < p)%Q -> (p < 1)%Q -> strictly_between l r (interpolate l r p).
Proof.
  intros H0 H1. unfold strictly_between, interpolate.
  repeat split; intros; try nra.
Qed.

Lemma interpolate_end (l r p : Q) : (p == 1)%Q -> (interpolate l r p == r)%Q.
Proof. intros Hp. unfold interpolate. rewrite Hp. ring. Qed.

Lemma interpolate_half (l r p : Q) :
  (p == 1 # 2)%Q -> (interpolate l r p == (l + r) / 2)%Q.
Proof. intros Hp. unfold interpolate. rewrite Hp. field. Qed.

Section Properties.
Context `{Imports}.

Lemma same_color_refl (c : color) : same_color c c.
Proof. repeat split; reflexivity. Qed.

(** In the open interval the colour is the blend at the proportion
    [(t - 50) / (80 - 50)]. *)
Lemma cpu_temp_color_inside (t : Q) :
  (50 < t)%Q -> (t <= 80)%Q ->
  get_cpu_temp_text_color t =
  get_color_mix (Named GREEN) (Named RED) ((t - 50) / (80 - 50))%Q.
Proof.
  intros Hlo Hhi. unfold get_cpu_temp_text_color.
  apply Qgt_bool_false in Hhi. apply Qgt_bool_true in Hlo.
  change (inject_Z REDLINE_TEMP) with 80%Q.
  change (inject_Z NORMAL_TEMP) with 50%Q.
  rewrite Hhi, Hlo. cbv zeta.
  apply Qgt_bool_false in Hhi. apply Qgt_bool_true in Hlo.
  rewrite clamp_inside.
  - reflexivity.
  - lra.
  - change (inject_Z (REDLINE_TEMP - NORMAL_TEMP)) with 30%Q. lra.
Qed.

(** C2: [get_cpu_temp_text_color t] is GREEN up to 50 degrees, has the
    channel values of RED from 80 degrees on, and strictly between is
    the blend of GREEN and RED at the proportion [(t - 50) / (80 - 50)],
    which lies strictly between 0 and 1: every channel lies between the
    channels of GREEN and RED, strictly where these differ.  At 65
    degrees the proportion is one half and every channel is the midpoint
    of the two. *)
Theorem cpu_temp_color_gradient (t : Q) :
  ((t <= 50)%Q -> get_cpu_temp_text_color t = Named GREEN) /\
  ((80 <= t)%Q -> same_color (get_cpu_temp_text_color t) (Named RED)) /\
  ((50 < t)%Q -> (t < 80)%Q ->
   let proportion := ((t - 50) / (80 - 50))%Q in
   (0 < proportion)%Q /\ (proportion < 1)%Q /\
   get_cpu_temp_text_color t =
     get_color_mix (Named GREEN) (Named RED) proportion /\
   blend_between (rgb_of GREEN) (rgb_of RED)
                 (channels (get_cpu_temp_text_color t))) /\
  ((t == 65)%Q ->
   ((t - 50) / (80 - 50) == 1 # 2)%Q /\
   midpoint (rgb_of GREEN) (rgb_of RED)
            (channels (get_cpu_temp_text_color t))).
Proof.
  repeat apply conj.
  - intros Hle. unfold get_cpu_temp_text_color.
    assert (H80 : Qgt_bool t (inject_Z REDLINE_TEMP) = false).
    { apply Qgt_bool_false. change (inject_Z REDLINE_TEMP) with 80%Q. lra. }
    assert (H50 : Qgt_bool t (inject_Z NORMAL_TEMP) = false).
    { apply Qgt_bool_false. exact Hle. }
    now rewrite H80, H50.
  - intros Hge. destruct (Qlt_le_dec 80 t) as [Hgt | Hle].
    + unfold get_cpu_temp_text_color.
      apply Qgt_bool_true in Hgt.
      change (inject_Z REDLINE_TEMP) with 80%Q. rewrite Hgt.
      apply same_color_refl.
    + rewrite cpu_temp_color_inside by lra.
      assert (Hp : ((t - 50) / (80 - 50) == 1)%Q).
      { assert (Ht : (t == 80)%Q) by lra. rewrite Ht. reflexivity. }
      unfold same_color, get_color_mix; cbn [channels r_chan g_chan b_chan].
      repeat split; apply interpolate_end; exact Hp.
  - intros Hlo Hhi proportion.
    assert (H0 : (0 < proportion)%Q).
    { unfold proportion. apply Qlt_shift_div_l; lra. }
    assert (H1 : (proportion < 1)%Q).
    { unfold proportion. apply Qlt_shift_div_r; lra. }
    split; [exact H0 | split; [exact H1 | ]].
    rewrite cpu_temp_color_inside by lra.
    split; [reflexivity | ].
    unfold blend_between, get_color_mix; cbn [channels r_chan g_chan b_chan].
    repeat split; apply interpolate_between; assumption.
  - intros Ht.
    assert (Hp : ((t - 50) / (80 - 50) == 1 # 2)%Q).
    { rewrite Ht. reflexivity. }
    split; [exact Hp | ].
    rewrite cpu_temp_color_inside by lra.
    unfold midpoint, get_color_mix; cbn [channels r_chan g_chan b_chan].
    repeat split; apply interpolate_half; exact Hp.
Qed.

(* --------------------------------------------------------------- *)
(** *** The probes *)

Section ProbeRuns.
Context {S : Type}.

(** [get_ip_address] always returns, leaves the object alone, and
    records its invocation once. *)
Lemma get_ip_address_run (e : env) (s : S) :
  exists tr smp,
    get_ip_address e s = (Called GetIpAddress :: tr, s, Returns smp) /\
    (forall p, calls p tr = 0%nat) /\
    (forall x, outcome_of (ip_address_try e s) = Raises x ->
               smp = ("UNKNOWN", Named RED)).
Proof.
  unfold get_ip_address, ip_address_try.
  destruct (IS_LINUX e && IS_PI e).
  - destruct (hostname_I e) as [out | x] eqn:Hout; run;
      eexists; eexists; (split; [reflexivity | split]);
      try (now destruct p); intros; cbn in *; congruence.
  - destruct (gethostname e) as [h | x] eqn:Hh; run.
    + destruct (gethostbyname e h) as [a | x] eqn:Ha;
        eexists; eexists; (split; [reflexivity | split]);
        try (now destruct p); intros; cbn in *; congruence.
    + eexists; eexists; (split; [reflexivity | split]);
        try (now destruct p); intros; cbn in *; congruence.
Qed.

(** [get_cpu_temp] always returns, leaves the object alone, and
    records its invocation once. *)
Lemma get_cpu_temp_run (e : env) (s : S) :
  exists tr smp,
    get_cpu_temp e s = (Called GetCpuTemp :: tr, s, Returns smp) /\
    (forall p, calls p tr = 0%nat) /\
    (forall x, outcome_of (cpu_temp_try e s) = Raises x ->
               smp = ("---", Named GRAY)).
Proof.
  unfold get_cpu_temp, cpu_temp_try.
  destruct (IS_LINUX e).
  - destruct (thermal_zone0 e) as [text | x] eqn:Hread; run.
    + destruct (py_float text) as [[temp | negative | ] | ];
        eexists; eexists; (split; [reflexivity | split]);
        try (now destruct p); intros; cbn in *; congruence.
    + eexists; eexists; (split; [reflexivity | split]);
        try (now destruct p); intros; cbn in *; congruence.
  - run. eexists; eexists; (split; [reflexivity | split]);
      try (now destruct p); intros; cbn in *; congruence.
Qed.
End ProbeRuns.

(* --------------------------------------------------------------- *)
(** *** The Aithre row *)

Lemma combined_color_worst_of (co_color battery_color : color) :
  SystemInfo.combined_color co_color battery_color =
  worst_of co_color battery_color.
Proof.
  unfold SystemInfo.combined_color, worst_of, level.
  destruct (color_is co_color RED) eqn:Hcr;
    destruct (color_is battery_color RED) eqn:Hbr;
    destruct (color_is co_color YELLOW) eqn:Hcy;
    destruct (color_is battery_color YELLOW) eqn:Hby; reflexivity.
Qed.

Lemma battery_color_cases (b : pyval) :
  In (get_aithre_battery_color b) [Named RED; Named YELLOW; Named GREEN].
Proof.
  unfold get_aithre_battery_color.
  destruct (py_ge b BATTERY_SAFE); [ | destruct (py_ge b BATTERY_WARNING)];
    cbn; auto.
Qed.

Lemma co_color_cases (v : pyval) :
  In (get_aithre_co_color v) [Named RED; Named YELLOW; Named BLUE].
Proof.
  unfold get_aithre_co_color.
  destruct (py_gt v CO_WARNING); [ | destruct (py_gt v CO_SAFE)];
    cbn; auto.
Qed.

Section AithreRow.
Context {S : Type}.

Lemma battery_text_and_color_run (snsr : sensor_obj) (s : S) :
  exists bat,
    SystemInfo.battery_text_and_color snsr s =
      ([GetBattery], s, Returns bat) /\
    In (snd bat) [Named RED; Named YELLOW; Named GREEN] /\
    (get_battery snsr = Returns None -> bat = ("UNK", Named RED)) /\
    (forall x, get_battery snsr = Raises x -> bat = ("ERR", Named RED)).
Proof.
  unfold SystemInfo.battery_text_and_color.
  destruct (get_battery snsr) as [[b | ] | x]; run; eexists;
    (split; [reflexivity | ]); cbn [snd].
  - split; [apply battery_color_cases | split; congruence].
  - split; [cbn; auto | split; congruence].
  - split; [cbn; auto | split; congruence].
Qed.

Lemma co_text_and_color_run (snsr : sensor_obj) (s : S) :
  exists co,
    SystemInfo.co_text_and_color snsr s = ([GetCoLevel], s, Returns co) /\
    In (snd co) [Named RED; Named YELLOW; Named BLUE].
Proof.
  unfold SystemInfo.co_text_and_color.
  destruct (get_co_level snsr) as [[v | ] | x]; run; eexists;
    (split; [reflexivity | ]); cbn [snd].
  - apply co_color_cases.
  - cbn; auto.
  - cbn; auto.
Qed.

(** The method always returns and leaves the object alone; with a
    sensor it asks for the battery, then for the CO level. *)
Lemma get_aithre_text_and_color_run (e : env) (s : S) :
  exists tr smp,
    SystemInfo.__get_aithre_text_and_color__ e s = (tr, s, Returns smp) /\
    (forall p, calls p tr = 0%nat) /\
    filter is_blit tr = [].
Proof.
  unfold SystemInfo.__get_aithre_text_and_color__.
  destruct (sensor e) as [snsr | ].
  - destruct (battery_text_and_color_run snsr s) as (bat & Hbat & _).
    destruct (co_text_and_color_run snsr s) as (co & Hco & _).
    unfold bind. rewrite Hbat, Hco. run.
    eexists; eexists; split; [reflexivity | split; [ | reflexivity]].
    now destruct p.
  - run. eexists; eexists; split; [reflexivity | split; [ | reflexivity]].
    now destruct p.
Qed.

(** C1: the colour of the Aithre row is the worst of the battery colour
    and the CO colour under RED > YELLOW > BLUE.  The rule of lines
    186-187 is the maximum of the two severities for every pair of
    colours; with a sensor, the battery colour is RED, YELLOW or GREEN,
    the CO colour is RED, YELLOW or BLUE, and the method returns their
    worst: RED if either is RED, else YELLOW if either is YELLOW, else
    BLUE. *)
Theorem aithre_color_is_worst_of :
  (forall co_color battery_color,
     SystemInfo.combined_color co_color battery_color =
     worst_of co_color battery_color) /\
  SystemInfo.combined_color (Named BLUE) (Named YELLOW) = Named YELLOW /\
  SystemInfo.combined_color (Named RED) (Named GREEN) = Named RED /\
  SystemInfo.combined_color (Named BLUE) (Named GREEN) = Named BLUE /\
  (forall (e : env) (snsr : sensor_obj) (s : S),
     sensor e = Some snsr ->
     exists bat co,
       outcome_of (SystemInfo.battery_text_and_color snsr s) = Returns bat /\
       outcome_of (SystemInfo.co_text_and_color snsr s) = Returns co /\
       In (snd bat) [Named RED; Named YELLOW; Named GREEN] /\
       In (snd co) [Named RED; Named YELLOW; Named BLUE] /\
       outcome_of (SystemInfo.__get_aithre_text_and_color__ e s) =
         Returns (fst co ++ " " ++ fst bat, worst_of (snd co) (snd bat)) /\
       (worst_of (snd co) (snd bat) = Named RED <->
        snd co = Named RED \/ snd bat = Named RED) /\
       (worst_of (snd co) (snd bat) = Named YELLOW <->
        snd co <> Named RED /\ snd bat <> Named RED /\
        (snd co = Named YELLOW \/ snd bat = Named YELLOW)) /\
       (worst_of (snd co) (snd bat) = Named BLUE <->
        snd co = Named BLUE /\ snd bat = Named GREEN)).
Proof.
  split; [exact combined_color_worst_of | ].
  do 3 (split; [reflexivity | ]).
  intros e snsr s Hsensor.
  destruct (battery_text_and_color_run snsr s) as (bat & Hbat & Hbc & _).
  destruct (co_text_and_color_run snsr s) as (co & Hco & Hcc).
  exists bat, co.
  split; [now rewrite Hbat | ]. split; [now rewrite Hco | ].
  split; [exact Hbc | ]. split; [exact Hcc | ].
  split.
  - unfold SystemInfo.__get_aithre_text_and_color__. rewrite Hsensor.
    unfold bind. rewrite Hbat, Hco. run.
    now rewrite combined_color_worst_of.
  - destruct bat as [bt bc], co as [ct cc]; cbn [fst snd] in *.
    cbn in Hbc, Hcc.
    destruct Hbc as [<- | [<- | [<- | []]]];
      destruct Hcc as [<- | [<- | [<- | []]]]; cbn;
      repeat split; intros; try tauto; try congruence;
      repeat match goal with
             | Hx : _ /\ _ |- _ => destruct Hx
             | Hx : _ \/ _ |- _ => destruct Hx
             end; try congruence; auto.
Qed.

(** C5: without a sensor the row reads DISABLED in BLUE when the
    feature is switched off and DISCONNECTED in RED when it is
    switched on, so the two states differ in text and in colour. *)
Theorem aithre_absent_sensor (e : env) (s : S) :
  sensor e = None ->
  (aithre_enabled e = false ->
   SystemInfo.__get_aithre_text_and_color__ e s =
     ([], s, Returns ("DISABLED", Named BLUE))) /\
  (aithre_enabled e = true ->
   SystemInfo.__get_aithre_text_and_color__ e s =
     ([], s, Returns ("DISCONNECTED", Named RED))) /\
  (forall (e' : env) (off on : sample),
     sensor e' = None ->
     aithre_enabled e = false -> aithre_enabled e' = true ->
     outcome_of (SystemInfo.__get_aithre_text_and_color__ e s) =
       Returns off ->
     outcome_of (SystemInfo.__get_aithre_text_and_color__ e' s) =
       Returns on ->
     fst off <> fst on /\ snd off <> snd on).
Proof.
  intros Hnone.
  unfold SystemInfo.__get_aithre_text_and_color__. rewrite Hnone.
  split; [intros ->; reflexivity | ].
  split; [intros ->; reflexivity | ].
  intros e' off on Hnone' Hoff Hon. rewrite Hnone', Hoff, Hon. run.
  intros Hr Hr'. injection Hr as <-. injection Hr' as <-.
  split; discriminate.
Qed.

(** C8: with a sensor whose battery reading is [None] or raises, the
    battery colour stays RED and the row is RED whatever the CO
    reading is; this is the colour of a row whose battery level lies
    below both battery thresholds. *)
Theorem aithre_battery_unknown_is_red (e : env) (snsr : sensor_obj) (s : S) :
  sensor e = Some snsr ->
  get_battery snsr = Returns None \/
  (exists x, get_battery snsr = Raises x) ->
  (exists bat_text,
     outcome_of (SystemInfo.battery_text_and_color snsr s) =
       Returns (bat_text, Named RED) /\
     (bat_text = "UNK" \/ bat_text = "ERR")) /\
  (exists text,
     outcome_of (SystemInfo.__get_aithre_text_and_color__ e s) =
       Returns (text, Named RED)) /\
  (forall (e' : env) (b : Z),
     b < BATTERY_SAFE -> b < BATTERY_WARNING ->
     sensor e' =
       Some {| get_battery := Returns (Some (PInt b));
               get_co_level := get_co_level snsr |} ->
     get_aithre_battery_color (PInt b) = Named RED /\
     exists text',
       outcome_of (SystemInfo.__get_aithre_text_and_color__ e' s) =
         Returns (text', Named RED)).
Proof.
  intros Hsensor Hbattery.
  destruct (battery_text_and_color_run snsr s)
    as (bat & Hbat & _ & Hnone & Hraise).
  assert (Hb : bat = ("UNK", Named RED) \/ bat = ("ERR", Named RED)).
  { destruct Hbattery as [Hn | [x Hx]]; [left; auto | right; eauto]. }
  destruct (co_text_and_color_run snsr s) as (co & Hco & _).
  assert (Hred : forall c, SystemInfo.combined_color c (Named RED) = Named RED).
  { intros c. unfold SystemInfo.combined_color. cbn.
    now rewrite orb_true_r. }
  split; [ | split].
  - rewrite Hbat. run. destruct Hb as [-> | ->]; eexists; eauto.
  - unfold SystemInfo.__get_aithre_text_and_color__. rewrite Hsensor.
    unfold bind. rewrite Hbat, Hco. run.
    destruct Hb as [-> | ->]; cbn [snd]; rewrite Hred; eexists; reflexivity.
  - intros e' b Hsafe Hwarn Hsensor'.
    assert (Hcol : get_aithre_battery_color (PInt b) = Named RED).
    { unfold get_aithre_battery_color, py_ge.
      destruct (Z.leb_spec BATTERY_SAFE b); [lia | ].
      destruct (Z.leb_spec BATTERY_WARNING b); [lia | reflexivity]. }
    split; [exact Hcol | ].
    unfold SystemInfo.__get_aithre_text_and_color__. rewrite Hsensor'.
    unfold bind, SystemInfo.battery_text_and_color,
      SystemInfo.co_text_and_color.
    cbn [get_battery get_co_level]. run.
    destruct (get_co_level snsr) as [[v | ] | x]; cbn [snd];
      rewrite Hcol, Hred; eexists; reflexivity.
Qed.
End AithreRow.

(* --------------------------------------------------------------- *)
(** *** SystemInfo.render *)

Lemma calls_app (p : probe) (t1 t2 : list event) :
  calls p (t1 ++ t2) = (calls p t1 + calls p t2)%nat.
Proof. unfold calls. now rewrite filter_app, length_app. Qed.

(** The probes do not look at the object they are called from. *)
Lemma get_ip_address_uniform {S} (e : env) (s : S) :
  get_ip_address e s =
  (trace_of (get_ip_address e tt), s, outcome_of (get_ip_address e tt)).
Proof.
  unfold get_ip_address, ip_address_try.
  destruct (IS_LINUX e && IS_PI e).
  - destruct (hostname_I e); reflexivity.
  - destruct (gethostname e) as [h | x]; run; [ | reflexivity].
    destruct (gethostbyname e h); reflexivity.
Qed.

Lemma get_cpu_temp_uniform {S} (e : env) (s : S) :
  get_cpu_temp e s =
  (trace_of (get_cpu_temp e tt), s, outcome_of (get_cpu_temp e tt)).
Proof.
  unfold get_cpu_temp, cpu_temp_try.
  destruct (IS_LINUX e); [ | reflexivity].
  destruct (thermal_zone0 e) as [text | x]; run; [ | reflexivity].
  destruct (py_float text) as [[temp | negative | ] | ]; reflexivity.
Qed.

Lemma probes_do_not_draw (e : env) :
  filter is_blit (trace_of (get_ip_address e tt)) = [] /\
  filter is_blit (trace_of (get_cpu_temp e tt)) = [].
Proof.
  split.
  - unfold get_ip_address, ip_address_try.
    destruct (IS_LINUX e && IS_PI e).
    + destruct (hostname_I e); reflexivity.
    + destruct (gethostname e) as [h | x]; run; [ | reflexivity].
      destruct (gethostbyname e h); reflexivity.
  - unfold get_cpu_temp, cpu_temp_try.
    destruct (IS_LINUX e); [ | reflexivity].
    destruct (thermal_zone0 e) as [text | x]; run; [ | reflexivity].
    destruct (py_float text) as [[temp | negative | ] | ]; reflexivity.
Qed.

Ltac fields :=
  cbn [SystemInfo.__font__ SystemInfo.font_height SystemInfo.__text_y_pos__
       SystemInfo.__rhs__ SystemInfo.__left_x__ SystemInfo.__center_x__
       SystemInfo.__update_ip_timer__ SystemInfo.__update_temp_timer__
       SystemInfo.__ip_address__ SystemInfo.__cpu_temp__
       SystemInfo.__framebuffer_size__ SystemInfo.__line_spacing__
       fst snd app] in *.

(** The countdown of the address: at 1 or below it invokes the probe
    once and starts again at 120, otherwise it only steps down. *)
Lemma refresh_ip_run (e : env) (self : SystemInfo.t) :
  let r := SystemInfo.refresh_ip e self in
  outcome_of r = Returns tt /\
  filter is_blit (trace_of r) = [] /\
  calls GetCpuTemp (trace_of r) = 0%nat /\
  same_layout self (state_of r) /\
  SystemInfo.__update_temp_timer__ (state_of r) =
    SystemInfo.__update_temp_timer__ self /\
  SystemInfo.__cpu_temp__ (state_of r) = SystemInfo.__cpu_temp__ self /\
  (SystemInfo.__update_ip_timer__ self <= 1 ->
   calls GetIpAddress (trace_of r) = 1%nat /\
   SystemInfo.__update_ip_timer__ (state_of r) = 120 /\
   outcome_of (get_ip_address e tt) =
     Returns (SystemInfo.__ip_address__ (state_of r))) /\
  (1 < SystemInfo.__update_ip_timer__ self ->
   calls GetIpAddress (trace_of r) = 0%nat /\
   SystemInfo.__update_ip_timer__ (state_of r) =
     SystemInfo.__update_ip_timer__ self - 1 /\
   SystemInfo.__ip_address__ (state_of r) = SystemInfo.__ip_address__ self).
Proof.
  destruct (get_ip_address_run e tt) as (tri & ip & Hip & Hci & _).
  destruct (probes_do_not_draw e) as (Hblit & _).
  destruct self as [fnt fh ty rhs lx cx ipt tpt ipa cpu fb ls].
  unfold SystemInfo.refresh_ip, bind, modify, get, ret, same_layout,
    SystemInfo.set_update_ip_timer.
  fields.
  destruct (Z.leb_spec (ipt - 1) 0) as [Hfire | Hrest].
  - rewrite get_ip_address_uniform. rewrite Hip in *.
    unfold SystemInfo.set_update_ip_timer, SystemInfo.set_ip_address,
      trace_of, state_of, outcome_of in *.
    fields. rewrite app_nil_r.
    split; [reflexivity | ]. split; [exact Hblit | ].
    split; [apply (Hci GetCpuTemp) | ].
    split; [repeat split | ]. split; [reflexivity | ]. split; [reflexivity | ].
    split; intros; [ | lia].
    split; [ | split; reflexivity].
    unfold calls in *. cbn [filter is_call List.length].
    specialize (Hci GetIpAddress). now rewrite Hci.
  - unfold trace_of, state_of, outcome_of. fields.
    split; [reflexivity | ]. split; [reflexivity | ]. split; [reflexivity | ].
    split; [repeat split | ]. split; [reflexivity | ]. split; [reflexivity | ].
    split; intros; [lia | ]. repeat split.
Qed.

(** The countdown of the temperature: at 1 or below it invokes the probe
    once and starts again at 60, otherwise it only steps down. *)
Lemma refresh_temp_run (e : env) (self : SystemInfo.t) :
  let r := SystemInfo.refresh_temp e self in
  outcome_of r = Returns tt /\
  filter is_blit (trace_of r) = [] /\
  calls GetIpAddress (trace_of r) = 0%nat /\
  same_layout self (state_of r) /\
  SystemInfo.__update_ip_timer__ (state_of r) =
    SystemInfo.__update_ip_timer__ self /\
  SystemInfo.__ip_address__ (state_of r) = SystemInfo.__ip_address__ self /\
  (SystemInfo.__update_temp_timer__ self <= 1 ->
   calls GetCpuTemp (trace_of r) = 1%nat /\
   SystemInfo.__update_temp_timer__ (state_of r) = 60 /\
   exists temp,
     outcome_of (get_cpu_temp e tt) = Returns temp /\
     SystemInfo.__cpu_temp__ (state_of r) = Some temp) /\
  (1 < SystemInfo.__update_temp_timer__ self ->
   calls GetCpuTemp (trace_of r) = 0%nat /\
   SystemInfo.__update_temp_timer__ (state_of r) =
     SystemInfo.__update_temp_timer__ self - 1 /\
   SystemInfo.__cpu_temp__ (state_of r) = SystemInfo.__cpu_temp__ self).
Proof.
  destruct (get_cpu_temp_run e tt) as (trt & temp & Htemp & Hct & _).
  destruct (probes_do_not_draw e) as (_ & Hblit).
  destruct self as [fnt fh ty rhs lx cx ipt tpt ipa cpu fb ls].
  unfold SystemInfo.refresh_temp, bind, modify, get, ret, same_layout,
    SystemInfo.set_update_temp_timer.
  fields.
  destruct (Z.leb_spec (tpt - 1) 0) as [Hfire | Hrest].
  - rewrite get_cpu_temp_uniform. rewrite Htemp in *.
    unfold SystemInfo.set_update_temp_timer, SystemInfo.set_cpu_temp,
      trace_of, state_of, outcome_of in *.
    fields. rewrite app_nil_r.
    split; [reflexivity | ]. split; [exact Hblit | ].
    split; [apply (Hct GetIpAddress) | ].
    split; [repeat split | ]. split; [reflexivity | ]. split; [reflexivity | ].
    split; intros; [ | lia].
    split; [ | split; [reflexivity | exists temp; split; reflexivity]].
    unfold calls in *. cbn [filter is_call List.length].
    specialize (Hct GetCpuTemp). now rewrite Hct.
  - unfold trace_of, state_of, outcome_of. fields.
    split; [reflexivity | ]. split; [reflexivity | ]. split; [reflexivity | ].
    split; [repeat split | ]. split; [reflexivity | ]. split; [reflexivity | ].
    split; intros; [lia | ]. repeat split.
Qed.

Lemma same_layout_trans (a b c : SystemInfo.t) :
  same_layout a b -> same_layout b c -> same_layout a c.
Proof.
  unfold same_layout. intros (H1 & H2 & H3 & H4 & H5) (K1 & K2 & K3 & K4 & K5).
  repeat split; congruence.
Qed.

(** What one pass through the two countdowns does. *)
Lemma refresh_run (e : env) (self : SystemInfo.t) :
  let r := SystemInfo.refresh e self in
  outcome_of r = Returns tt /\
  filter is_blit (trace_of r) = [] /\
  same_layout self (state_of r) /\
  (SystemInfo.__update_ip_timer__ self <= 1 ->
   calls GetIpAddress (trace_of r) = 1%nat /\
   SystemInfo.__update_ip_timer__ (state_of r) = 120 /\
   outcome_of (get_ip_address e tt) =
     Returns (SystemInfo.__ip_address__ (state_of r))) /\
  (1 < SystemInfo.__update_ip_timer__ self ->
   calls GetIpAddress (trace_of r) = 0%nat /\
   SystemInfo.__update_ip_timer__ (state_of r) =
     SystemInfo.__update_ip_timer__ self - 1 /\
   SystemInfo.__ip_address__ (state_of r) = SystemInfo.__ip_address__ self) /\
  (SystemInfo.__update_temp_timer__ self <= 1 ->
   calls GetCpuTemp (trace_of r) = 1%nat /\
   SystemInfo.__update_temp_timer__ (state_of r) = 60 /\
   exists temp,
     outcome_of (get_cpu_temp e tt) = Returns temp /\
     SystemInfo.__cpu_temp__ (state_of r) = Some temp) /\
  (1 < SystemInfo.__update_temp_timer__ self ->
   calls GetCpuTemp (trace_of r) = 0%nat /\
   SystemInfo.__update_temp_timer__ (state_of r) =
     SystemInfo.__update_temp_timer__ self - 1 /\
   SystemInfo.__cpu_temp__ (state_of r) = SystemInfo.__cpu_temp__ self).
Proof.
  pose proof (refresh_ip_run e self)
    as (Ho1 & Hb1 & Hc1 & Hl1 & Ht1 & Hcpu1 & Hfire1 & Hrest1).
  unfold SystemInfo.refresh, bind.
  destruct (SystemInfo.refresh_ip e self) as [[tr1 self1] o1].
  unfold trace_of, state_of, outcome_of in Ho1, Hb1, Hc1, Hl1, Ht1, Hcpu1,
    Hfire1, Hrest1.
  cbn [fst snd] in Ho1, Hb1, Hc1, Hl1, Ht1, Hcpu1, Hfire1, Hrest1.
  subst o1.
  pose proof (refresh_temp_run e self1)
    as (Ho2 & Hb2 & Hc2 & Hl2 & Ht2 & Hip2 & Hfire2 & Hrest2).
  destruct (SystemInfo.refresh_temp e self1) as [[tr2 self2] o2].
  unfold trace_of, state_of, outcome_of in *. cbn [fst snd] in *.
  subst o2.
  split; [reflexivity | ].
  split; [now rewrite filter_app, Hb1, Hb2 | ].
  split; [eapply same_layout_trans; eassumption | ].
  rewrite !calls_app, Hc1, Hc2, Ht2, Hip2, Ht1, Hcpu1 in *.
  rewrite Nat.add_0_r.
  split; [exact Hfire1 | ]. split; [exact Hrest1 | ].
  split; [exact Hfire2 | exact Hrest2].
Qed.

Lemma fold_append (f : string -> row) (xs : list string) (init : list row) :
  fold_left (fun lines x => append lines (f x)) xs init =
  (init ++ map f xs)%list.
Proof.
  revert init. induction xs as [ | x xs IH]; intros init; cbn.
  - now rewrite app_nil_r.
  - rewrite IH. unfold append. now rewrite <- app_assoc.
Qed.

(** [info_lines] is the fixed rows, one row per field of the cached
    address text, then the Aithre row and the remaining fixed rows. *)
Lemma info_lines_run (e : env) (self : SystemInfo.t) :
  exists tr aithre,
    SystemInfo.__get_aithre_text_and_color__ e self =
      (tr, self, Returns aithre) /\
    SystemInfo.info_lines e self =
      (tr, self,
       Returns (rows_before e ++
                map (SystemInfo.ip_row (snd (SystemInfo.__ip_address__ self)))
                    (split_space (fst (SystemInfo.__ip_address__ self))) ++
                rows_after e self aithre)%list) /\
    (forall p, calls p tr = 0%nat) /\
    filter is_blit tr = [].
Proof.
  destruct (get_aithre_text_and_color_run e self)
    as (tr & aithre & Hrun & Hcalls & Hblit).
  exists tr, aithre. split; [exact Hrun | ].
  split; [ | split; assumption].
  unfold SystemInfo.info_lines, bind, get. rewrite Hrun.
  unfold ret. cbn [app]. rewrite app_nil_r, fold_append.
  unfold append, rows_before, rows_after.
  repeat rewrite <- app_assoc. reflexivity.
Qed.

(** Drawing invokes no probe and leaves the object alone; it raises only
    at a line whose value is [None]. *)
Lemma draw_lines_run (self0 : SystemInfo.t) (lines : list row) :
  forall (y : Q) (self : SystemInfo.t),
  exists tr o,
    SystemInfo.draw_lines self0 lines y self = (tr, self, o) /\
    (forall p, calls p tr = 0%nat) /\
    (Forall (fun line => snd line <> None) lines -> o = Returns tt).
Proof.
  induction lines as [ | [label [[text color] | ]] rest IH]; intros y self.
  - exists [], (Returns tt). repeat split.
  - destruct (IH (y - inject_Z (SystemInfo.font_height self0) *
                      SystemInfo.__line_spacing__ self0)%Q self)
      as (tr & o & Hrun & Hcalls & Hok).
    cbn [SystemInfo.draw_lines fst snd]. run. rewrite Hrun.
    eexists; eexists. split; [reflexivity | split].
    + intros p. specialize (Hcalls p). now destruct p.
    + intros Hall. apply Hok. now inversion Hall.
  - cbn [SystemInfo.draw_lines fst snd]. run.
    eexists; eexists. split; [reflexivity | split].
    + intros p. now destruct p.
    + intros Hall. inversion Hall as [ | ? ? Hhead _]. now elim Hhead.
Qed.

(** One frame: the countdowns, then the rows, then the drawing.  Only
    the countdowns invoke probes and change the object. *)
Lemma render_run (e : env) (self : SystemInfo.t) :
  let r := SystemInfo.refresh e self in
  exists tr o,
    SystemInfo.render e self = ((trace_of r ++ tr)%list, state_of r, o) /\
    (forall p, calls p tr = 0%nat) /\
    (SystemInfo.__cpu_temp__ (state_of r) <> None -> o = Returns tt).
Proof.
  cbv zeta.
  pose proof (refresh_run e self) as (Hout & _).
  destruct (SystemInfo.refresh e self) as [[tr1 self1] o1] eqn:Hr.
  unfold trace_of, state_of, outcome_of in *. cbn [fst snd] in *. subst o1.
  destruct (info_lines_run e self1)
    as (tr2 & aithre & _ & Hlines & Hcalls2 & _).
  match type of Hlines with
  | _ = (_, _, Returns ?l) => set (lines := l) in *
  end.
  destruct (draw_lines_run self1 lines
              (inject_Z (SystemInfo.__text_y_pos__ self1)) self1)
    as (tr3 & o & Hdraw & Hcalls3 & Hok).
  exists (tr2 ++ tr3)%list, o.
  split; [ | split].
  - unfold SystemInfo.render, bind, get. rewrite Hr, Hlines.
    unfold ret. cbn [app]. rewrite Hdraw. reflexivity.
  - intros p. now rewrite calls_app, Hcalls2, Hcalls3.
  - intros Hcpu. apply Hok. unfold lines.
    repeat rewrite Forall_app. repeat split.
    + unfold rows_before. repeat constructor; discriminate.
    + apply Forall_forall. intros line Hin. apply in_map_iff in Hin.
      destruct Hin as (a & <- & _). discriminate.
    + unfold rows_after. repeat constructor; try discriminate. exact Hcpu.
Qed.

(** Frames run one after the other. *)
Lemma run_frames_app {S} (step : env -> M S unit) (es1 es2 : list env) (s : S) :
  run_frames step (es1 ++ es2) s =
  ((fst (run_frames step es1 s) ++
    fst (run_frames step es2 (snd (run_frames step es1 s))))%list,
   snd (run_frames step es2 (snd (run_frames step es1 s)))).
Proof.
  revert s. induction es1 as [ | e es1 IH]; intros s; cbn [run_frames app].
  - cbn. now destruct (run_frames step es2 s).
  - destruct (step e s) as [[t s'] o]. rewrite IH.
    destruct (run_frames step es1 s') as [t1 s1]. cbn [fst snd].
    now rewrite app_assoc.
Qed.

(** While a countdown is above the number of frames, its probe rests. *)
Lemma ip_timer_counts_down (es : list env) :
  forall self : SystemInfo.t,
    Z.of_nat (List.length es) < SystemInfo.__update_ip_timer__ self ->
    calls GetIpAddress (fst (run_frames SystemInfo.render es self)) = 0%nat /\
    SystemInfo.__update_ip_timer__ (snd (run_frames SystemInfo.render es self)) =
      SystemInfo.__update_ip_timer__ self - Z.of_nat (List.length es).
Proof.
  induction es as [ | e es IH]; intros self Hlen.
  - cbn. split; [reflexivity | lia].
  - cbn [List.length] in Hlen. cbn [run_frames].
    destruct (render_run e self) as (tr & o & Hrender & Hcalls & _).
    pose proof (refresh_run e self) as (_ & _ & _ & _ & Hrest & _).
    destruct Hrest as (Hc & Ht & _); [lia | ].
    rewrite Hrender.
    destruct (IH (state_of (SystemInfo.refresh e self))) as (IHc & IHt);
      [rewrite Ht; lia | ].
    destruct (run_frames SystemInfo.render es
                (state_of (SystemInfo.refresh e self))) as [t' s'].
    cbn [fst snd] in *. split.
    + now rewrite !calls_app, Hc, Hcalls, IHc.
    + rewrite IHt, Ht. cbn [List.length]. lia.
Qed.

Lemma temp_timer_counts_down (es : list env) :
  forall self : SystemInfo.t,
    Z.of_nat (List.length es) < SystemInfo.__update_temp_timer__ self ->
    calls GetCpuTemp (fst (run_frames SystemInfo.render es self)) = 0%nat /\
    SystemInfo.__update_temp_timer__ (snd (run_frames SystemInfo.render es self)) =
      SystemInfo.__update_temp_timer__ self - Z.of_nat (List.length es).
Proof.
  induction es as [ | e es IH]; intros self Hlen.
  - cbn. split; [reflexivity | lia].
  - cbn [List.length] in Hlen. cbn [run_frames].
    destruct (render_run e self) as (tr & o & Hrender & Hcalls & _).
    pose proof (refresh_run e self) as (_ & _ & _ & _ & _ & _ & Hrest).
    destruct Hrest as (Hc & Ht & _); [lia | ].
    rewrite Hrender.
    destruct (IH (state_of (SystemInfo.refresh e self))) as (IHc & IHt);
      [rewrite Ht; lia | ].
    destruct (run_frames SystemInfo.render es
                (state_of (SystemInfo.refresh e self))) as [t' s'].
    cbn [fst snd] in *. split.
    + now rewrite !calls_app, Hc, Hcalls, IHc.
    + rewrite IHt, Ht. cbn [List.length]. lia.
Qed.

(* --------------------------------------------------------------- *)
(** *** Claims about the timers and the probes *)

(** C3: from a countdown that has just been set to its period (120 for
    the address, 60 for the temperature), fewer frames than the period
    invoke the probe not at all, the frame that completes the period
    invokes it once, so the probe is invoked exactly once in that many
    frames, and the countdown is then back at the period. *)
Theorem timers_fire_every_period (es : list env) (e : env)
  (self : SystemInfo.t) :
  (SystemInfo.__update_ip_timer__ self = 120 ->
   List.length es = 119%nat ->
   (forall k, (k <= 119)%nat ->
      calls GetIpAddress
        (fst (run_frames SystemInfo.render (firstn k es) self)) = 0%nat) /\
   calls GetIpAddress
     (trace_of (SystemInfo.render e
                  (snd (run_frames SystemInfo.render es self)))) = 1%nat /\
   calls GetIpAddress
     (fst (run_frames SystemInfo.render (es ++ [e]) self)) = 1%nat /\
   SystemInfo.__update_ip_timer__
     (snd (run_frames SystemInfo.render (es ++ [e]) self)) = 120) /\
  (SystemInfo.__update_temp_timer__ self = 60 ->
   List.length es = 59%nat ->
   (forall k, (k <= 59)%nat ->
      calls GetCpuTemp
        (fst (run_frames SystemInfo.render (firstn k es) self)) = 0%nat) /\
   calls GetCpuTemp
     (trace_of (SystemInfo.render e
                  (snd (run_frames SystemInfo.render es self)))) = 1%nat /\
   calls GetCpuTemp
     (fst (run_frames SystemInfo.render (es ++ [e]) self)) = 1%nat /\
   SystemInfo.__update_temp_timer__
     (snd (run_frames SystemInfo.render (es ++ [e]) self)) = 60).
Proof.
  split; intros Hperiod Hlen.
  - assert (Hprefix : forall k, (k <= 119)%nat ->
              calls GetIpAddress
                (fst (run_frames SystemInfo.render (firstn k es) self)) = 0%nat).
    { intros k Hk. apply ip_timer_counts_down.
      rewrite length_firstn, Hperiod. lia. }
    destruct (ip_timer_counts_down es self) as (Hnone & Htimer);
      [rewrite Hperiod, Hlen; lia | ].
    rewrite Hperiod, Hlen in Htimer.
    set (self' := snd (run_frames SystemInfo.render es self)) in *.
    destruct (render_run e self') as (tr & o & Hrender & Hcalls & _).
    pose proof (refresh_run e self') as (_ & _ & _ & Hfire & _).
    destruct Hfire as (Hone & Hreset & _); [lia | ].
    assert (Hlast : calls GetIpAddress
                      (trace_of (SystemInfo.render e self')) = 1%nat).
    { rewrite Hrender. unfold trace_of at 1. cbn [fst].
      now rewrite calls_app, Hone, Hcalls. }
    split; [exact Hprefix | ]. split; [exact Hlast | ].
    rewrite run_frames_app. fold self'. cbn [fst snd run_frames].
    unfold trace_of in Hlast.
    destruct (SystemInfo.render e self') as [[t s'] o'] eqn:Hr.
    cbn [fst snd] in *. rewrite app_nil_r. split.
    + now rewrite calls_app, Hnone, Hlast.
    + injection Hrender as _ Hstate _. rewrite Hstate. exact Hreset.
  - assert (Hprefix : forall k, (k <= 59)%nat ->
              calls GetCpuTemp
                (fst (run_frames SystemInfo.render (firstn k es) self)) = 0%nat).
    { intros k Hk. apply temp_timer_counts_down.
      rewrite length_firstn, Hperiod. lia. }
    destruct (temp_timer_counts_down es self) as (Hnone & Htimer);
      [rewrite Hperiod, Hlen; lia | ].
    rewrite Hperiod, Hlen in Htimer.
    set (self' := snd (run_frames SystemInfo.render es self)) in *.
    destruct (render_run e self') as (tr & o & Hrender & Hcalls & _).
    pose proof (refresh_run e self') as (_ & _ & _ & _ & _ & Hfire & _).
    destruct Hfire as (Hone & Hreset & _); [lia | ].
    assert (Hlast : calls GetCpuTemp
                      (trace_of (SystemInfo.render e self')) = 1%nat).
    { rewrite Hrender. unfold trace_of at 1. cbn [fst].
      now rewrite calls_app, Hone, Hcalls. }
    split; [exact Hprefix | ]. split; [exact Hlast | ].
    rewrite run_frames_app. fold self'. cbn [fst snd run_frames].
    unfold trace_of in Hlast.
    destruct (SystemInfo.render e self') as [[t s'] o'] eqn:Hr.
    cbn [fst snd] in *. rewrite app_nil_r. split.
    + now rewrite calls_app, Hnone, Hlast.
    + injection Hrender as _ Hstate _. rewrite Hstate. exact Hreset.
Qed.

(** C4: [get_ip_address] and [get_cpu_temp] always return.  When the
    [try] suite of [get_ip_address] raises, whatever the exception, the
    probe returns UNKNOWN in RED; when the suite of [get_cpu_temp]
    raises, the probe returns --- in GRAY.  The countdowns of [render],
    which invoke the probes, therefore never raise. *)
Theorem probes_never_raise {S} (e : env) (s : S) :
  (exists ip, outcome_of (get_ip_address e s) = Returns ip) /\
  (forall x, outcome_of (ip_address_try e s) = Raises x ->
     outcome_of (get_ip_address e s) = Returns ("UNKNOWN", Named RED)) /\
  (exists temp, outcome_of (get_cpu_temp e s) = Returns temp) /\
  (forall x, outcome_of (cpu_temp_try e s) = Raises x ->
     outcome_of (get_cpu_temp e s) = Returns ("---", Named GRAY)) /\
  (forall self, outcome_of (SystemInfo.refresh e self) = Returns tt).
Proof.
  destruct (get_ip_address_run e s) as (tri & ip & Hip & _ & Hip_fail).
  destruct (get_cpu_temp_run e s) as (trt & temp & Htemp & _ & Htemp_fail).
  rewrite Hip, Htemp. unfold outcome_of at 1 2 4 5. cbn [snd].
  split; [now exists ip | ].
  split; [intros x Hx; now rewrite (Hip_fail x Hx) | ].
  split; [now exists temp | ].
  split; [intros x Hx; now rewrite (Htemp_fail x Hx) | ].
  intros self. apply refresh_run.
Qed.


(* --------------------------------------------------------------- *)
(** *** Claims about the rows *)

Lemma split_space_word (w : string) :
  has_space w = false -> split_space w = [w].
Proof.
  induction w as [ | c w IH]; cbn [has_space split_space]; intros Hw.
  - reflexivity.
  - apply orb_false_iff in Hw. destruct Hw as (Hc & Hw).
    rewrite Hc, (IH Hw). reflexivity.
Qed.

Lemma split_space_cut (w rest : string) :
  has_space w = false ->
  split_space (w ++ " " ++ rest) = w :: split_space rest.
Proof.
  induction w as [ | c w IH]; intros Hw.
  - reflexivity.
  - cbn [has_space] in Hw. apply orb_false_iff in Hw.
    destruct Hw as (Hc & Hw).
    cbn [String.append split_space]. rewrite Hc.
    change (w ++ String " " rest) with (w ++ " " ++ rest).
    now rewrite (IH Hw).
Qed.

(** Cutting at spaces undoes joining with spaces. *)
Lemma split_space_join_space (addrs : list string) :
  addrs <> [] ->
  Forall (fun a => has_space a = false) addrs ->
  split_space (join_space addrs) = addrs.
Proof.
  induction addrs as [ | a [ | b rest] IH]; intros Hne Hall.
  - now elim Hne.
  - apply split_space_word. now inversion Hall.
  - inversion Hall as [ | ? ? Ha Hrest]; subst.
    change (join_space (a :: b :: rest))
      with (a ++ " " ++ join_space (b :: rest)).
    rewrite (split_space_cut _ _ Ha), IH; [reflexivity | discriminate | exact Hrest].
Qed.

(* --------------------------------------------------------------- *)
(** *** Aithre.render *)

Lemma ppm_text_is_not_offline (digits : string) :
  digits ++ " PPM" <> "OFFLINE".
Proof.
  destruct digits as [ | c1 [ | c2 [ | c3 [ | c4 [ | c5 [ | c6 [ | c7 [ | c8 d]]]]]]]];
    cbn; intros Heq; congruence.
Qed.

(** One frame of the Aithre element, by what the sensor answers. *)
Lemma aithre_render_run (e : env) (self : Aithre.t) :
  let r := Aithre.render e self in
  match numeric_co_reading e with
  | Some n =>
      r = ([GetCoLevel;
            Blit (string_of_Z n ++ " PPM") (get_aithre_co_color (PInt n))
                 (Named BLACK) (Aithre.__lhs__ self)
                 (inject_Z (Aithre.__text_y_pos__ self))],
           Aithre.set_has_been_connected true self,
           Returns tt)
  | None =>
      state_of r = self /\
      (Aithre.__has_been_connected__ self = false ->
       filter is_blit (trace_of r) = []) /\
      (draws_offline (trace_of r) ->
       Aithre.__has_been_connected__ self = true)
  end.
Proof.
  assert (Hquiet : forall tr : list event,
            filter is_blit tr = [] -> ~ draws_offline tr).
  { intros tr Hnone (bg & x & y & Hin).
    assert (Hblit : In (Blit "OFFLINE" (Named RED) bg x y) (filter is_blit tr))
      by (apply filter_In; split; [exact Hin | reflexivity]).
    now rewrite Hnone in Hblit. }
  unfold numeric_co_reading, Aithre.render, Aithre.draw.
  destruct (sensor e) as [snsr | ]; [destruct (aithre_enabled e) | ];
    [destruct (get_co_level snsr) as [[[n | text] | ] | x] | | ]; run.
  - reflexivity.
  - destruct (Aithre.__has_been_connected__ self); cbn [fst snd app].
    + split; [reflexivity | split; [discriminate | reflexivity]].
    + split; [reflexivity | split; [reflexivity | ]].
      intros Hoffline. now apply Hquiet in Hoffline.
  - destruct (Aithre.__has_been_connected__ self); cbn [fst snd app].
    + split; [reflexivity | split; [discriminate | reflexivity]].
    + split; [reflexivity | split; [reflexivity | ]].
      intros Hoffline. now apply Hquiet in Hoffline.
  - split; [reflexivity | split; [reflexivity | ]].
    intros Hoffline. now apply Hquiet in Hoffline.
  - split; [reflexivity | split; [reflexivity | ]].
    intros Hoffline. now apply Hquiet in Hoffline.
  - split; [reflexivity | split; [reflexivity | ]].
    intros Hoffline. now apply Hquiet in Hoffline.
Qed.

Lemma flag_needs_a_reading (es : list env) :
  forall self : Aithre.t,
    Aithre.__has_been_connected__ (snd (run_frames Aithre.render es self)) =
      true ->
    Aithre.__has_been_connected__ self = true \/
    Exists (fun e => numeric_co_reading e <> None) es.
Proof.
  induction es as [ | e es IH]; intros self Hflag.
  - now left.
  - cbn [run_frames] in Hflag.
    pose proof (aithre_render_run e self) as Hstep. cbv zeta in Hstep.
    destruct (Aithre.render e self) as [[t s'] o] eqn:Hr.
    destruct (run_frames Aithre.render es s') as [t' s''] eqn:Hrest.
    cbn [snd] in Hflag.
    destruct (numeric_co_reading e) as [n | ] eqn:Hreading.
    + right. apply Exists_cons_hd. congruence.
    + destruct Hstep as (Hstate & _). unfold state_of in Hstate.
      cbn [fst snd] in Hstate. subst s'.
      specialize (IH self). rewrite Hrest in IH. cbn [snd] in IH.
      destruct (IH Hflag) as [Hself | Hex]; [now left | right].
      now apply Exists_cons_tl.
Qed.

(** C10: [__has_been_connected__] starts False; a frame never turns it
    from True to False and turns it to True only with a numeric CO
    reading.  OFFLINE in RED is therefore drawn only in a frame that
    follows a frame with a numeric reading, and while no frame had one,
    a frame without a numeric reading (the level is [None] or a text)
    draws nothing. *)
Theorem has_been_connected_is_monotone (fnt : font) (size : Z * Z) :
  Aithre.__has_been_connected__ (Aithre.__init__ fnt size) = false /\
  (forall (e : env) (self : Aithre.t),
     let self' := state_of (Aithre.render e self) in
     (Aithre.__has_been_connected__ self = true ->
      Aithre.__has_been_connected__ self' = true) /\
     (Aithre.__has_been_connected__ self' = true ->
      Aithre.__has_been_connected__ self = true \/
      numeric_co_reading e <> None) /\
     (numeric_co_reading e <> None ->
      Aithre.__has_been_connected__ self' = true)) /\
  (forall (es : list env) (e : env),
     let self := snd (run_frames Aithre.render es (Aithre.__init__ fnt size)) in
     (draws_offline (trace_of (Aithre.render e self)) ->
      Exists (fun e0 => numeric_co_reading e0 <> None) es) /\
     (Forall (fun e0 => numeric_co_reading e0 = None) es ->
      numeric_co_reading e = None ->
      Aithre.__has_been_connected__ self = false /\
      filter is_blit (trace_of (Aithre.render e self)) = [])).
Proof.
  split; [reflexivity | split].
  - intros e self self'. subst self'.
    pose proof (aithre_render_run e self) as Hstep. cbv zeta in Hstep.
    destruct (numeric_co_reading e) as [n | ].
    + rewrite Hstep. unfold state_of. cbn [fst snd].
      split; [intros _; reflexivity | ].
      split; [intros _; right; discriminate | intros _; reflexivity].
    + destruct Hstep as (-> & _).
      split; [intros Hflag; exact Hflag | ].
      split; [intros Hflag; left; exact Hflag | intros Hread; now elim Hread].
  - intros es e self.
    assert (Hflag : Aithre.__has_been_connected__ self = true ->
                    Exists (fun e0 => numeric_co_reading e0 <> None) es).
    { intros Htrue. apply flag_needs_a_reading in Htrue.
      destruct Htrue as [Hinit | Hex]; [discriminate | exact Hex]. }
    pose proof (aithre_render_run e self) as Hstep. cbv zeta in Hstep.
    split.
    + intros Hoffline. apply Hflag.
      destruct (numeric_co_reading e) as [n | ].
      * rewrite Hstep in Hoffline. unfold trace_of in Hoffline.
        cbn [fst] in Hoffline.
        destruct Hoffline as (bg & x & y & [Hin | [Hin | []]]);
          [discriminate | ].
        injection Hin as Htext _. now apply ppm_text_is_not_offline in Htext.
      * now apply Hstep.
    + intros Hnone Hnow.
      assert (Hfalse : Aithre.__has_been_connected__ self = false).
      { destruct (Aithre.__has_been_connected__ self) eqn:Hf; [ | reflexivity].
        specialize (Hflag eq_refl). apply Exists_exists in Hflag.
        destruct Hflag as (e0 & Hin & Hread).
        rewrite Forall_forall in Hnone. now elim Hread; apply Hnone. }
      split; [exact Hfalse | ].
      rewrite Hnow in Hstep. now apply Hstep.
Qed.

End Properties.

(* ================================================================= *)
(** ** The properties on the sample collaborators *)

(** C6 as claimed fails: the constructor leaves the temperature cache at
    [None]. *)
Lemma init_leaves_cpu_temp_empty :
  ~ (exists self temp,
       outcome_of (SystemInfo.__init__ Sample.pi Sample.a_font (800, 480) tt) =
         Returns self /\
       SystemInfo.__cpu_temp__ self = Some temp).
Proof.
  intros (self & temp & Hinit & Hcache).
  unfold SystemInfo.__init__, outcome_of in Hinit. cbn in Hinit.
  injection Hinit as <-. discriminate.
Qed.

Lemma aithre_color_is_worst_of_witness :
  sensor Sample.pi <> None /\
  exists text,
    outcome_of (@SystemInfo.__get_aithre_text_and_color__ Sample.imports unit
                  Sample.pi tt) =
      Returns (text, worst_of (Named BLUE) (Named GREEN)).
Proof.
  split; [discriminate | ].
  destruct (@aithre_color_is_worst_of Sample.imports unit) as (_ & _ & _ & _ & Hrow).
  destruct (Hrow Sample.pi _ tt eq_refl)
    as (bat & co & Hbat & Hco & _ & _ & Hrun & _).
  injection Hbat as <-. injection Hco as <-.
  eexists. exact Hrun.
Defined.

Lemma cpu_temp_color_gradient_witness :
  ((50 < 65)%Q /\ (65 < 80)%Q) /\
  blend_between (Sample.display_rgb GREEN) (Sample.display_rgb RED)
    (@channels Sample.imports (@get_cpu_temp_text_color Sample.imports 65)) /\
  midpoint (Sample.display_rgb GREEN) (Sample.display_rgb RED)
    (@channels Sample.imports (@get_cpu_temp_text_color Sample.imports 65)) /\
  @get_cpu_temp_text_color Sample.imports 50 = Named GREEN /\
  @same_color Sample.imports (@get_cpu_temp_text_color Sample.imports 80)
    (Named RED).
Proof.
  assert (Hlo : (50 < 65)%Q) by reflexivity.
  assert (Hhi : (65 < 80)%Q) by reflexivity.
  split; [split; assumption | ].
  destruct (@cpu_temp_color_gradient Sample.imports 65) as (_ & _ & Hin & Hmid).
  destruct (Hin Hlo Hhi) as (_ & _ & _ & Hblend).
  destruct (Hmid (Qeq_refl 65)) as (_ & Hhalf).
  split; [exact Hblend | ]. split; [exact Hhalf | ].
  destruct (@cpu_temp_color_gradient Sample.imports 50) as (Hgreen & _).
  destruct (@cpu_temp_color_gradient Sample.imports 80) as (_ & Hred & _).
  split; [apply Hgreen; discriminate | apply Hred; discriminate].
Defined.

Lemma timers_fire_every_period_witness :
  calls GetIpAddress
    (fst (run_frames (@SystemInfo.render Sample.imports)
            (repeat Sample.pi 119 ++ [Sample.pi]) Sample.running)) = 1%nat /\
  calls GetCpuTemp
    (fst (run_frames (@SystemInfo.render Sample.imports)
            (repeat Sample.pi 59 ++ [Sample.pi]) Sample.running)) = 1%nat.
Proof.
  split.
  - destruct (@timers_fire_every_period Sample.imports
                (repeat Sample.pi 119) Sample.pi Sample.running) as (Hip & _).
    destruct (Hip eq_refl (repeat_length Sample.pi 119)) as (_ & _ & Hone & _).
    exact Hone.
  - destruct (@timers_fire_every_period Sample.imports
                (repeat Sample.pi 59) Sample.pi Sample.running) as (_ & Htemp).
    destruct (Htemp eq_refl (repeat_length Sample.pi 59)) as (_ & _ & Hone & _).
    exact Hone.
Defined.

Lemma probes_never_raise_witness :
  outcome_of (@ip_address_try unit Sample.failing tt) = Raises IOError /\
  outcome_of (@get_ip_address unit Sample.failing tt) =
    Returns ("UNKNOWN", Named RED) /\
  outcome_of (@cpu_temp_try Sample.imports unit Sample.failing tt) =
    Raises ValueError /\
  outcome_of (@get_cpu_temp Sample.imports unit Sample.failing tt) =
    Returns ("---", Named GRAY).
Proof.
  destruct (@probes_never_raise Sample.imports unit Sample.failing tt)
    as (_ & Hip & _ & Htemp & _).
  split; [reflexivity | ]. split; [exact (Hip IOError eq_refl) | ].
  split; [reflexivity | exact (Htemp ValueError eq_refl)].
Defined.

Lemma aithre_absent_sensor_witness :
  sensor (Sample.desktop false) = None /\
  @SystemInfo.__get_aithre_text_and_color__ Sample.imports unit
    (Sample.desktop false) tt = ([], tt, Returns ("DISABLED", Named BLUE)) /\
  @SystemInfo.__get_aithre_text_and_color__ Sample.imports unit
    (Sample.desktop true) tt = ([], tt, Returns ("DISCONNECTED", Named RED)) /\
  "DISABLED" <> "DISCONNECTED" /\ Named BLUE <> Named RED.
Proof.
  split; [reflexivity | ].
  destruct (@aithre_absent_sensor Sample.imports unit (Sample.desktop false) tt
              eq_refl) as (Hoff & _ & Hdiffer).
  destruct (@aithre_absent_sensor Sample.imports unit (Sample.desktop true) tt
              eq_refl) as (_ & Hon & _).
  split; [exact (Hoff eq_refl) | ]. split; [exact (Hon eq_refl) | ].
  exact (Hdiffer (Sample.desktop true) ("DISABLED", Named BLUE)
           ("DISCONNECTED", Named RED) eq_refl eq_refl eq_refl eq_refl eq_refl).
Defined.

Lemma aithre_battery_unknown_is_red_witness :
  exists text,
    outcome_of (@SystemInfo.__get_aithre_text_and_color__ Sample.imports unit
                  Sample.failing tt) = Returns (text, Named RED).
Proof.
  destruct (@aithre_battery_unknown_is_red Sample.imports unit Sample.failing
              {| get_battery := Returns None;
                 get_co_level := Returns (Some (PStr "OFFLINE")) |}
              tt eq_refl (or_introl eq_refl)) as (_ & Hred & _).
  exact Hred.
Defined.


Lemma has_been_connected_is_monotone_witness :
  numeric_co_reading Sample.failing = None /\
  filter is_blit
    (trace_of (@Aithre.render Sample.imports Sample.failing
                 (snd (run_frames (@Aithre.render Sample.imports)
                         [Sample.failing; Sample.desktop true]
                         (Aithre.__init__ Sample.a_font (800, 480)))))) = [] /\
  Exists (fun e0 => numeric_co_reading e0 <> None)
         [Sample.failing; Sample.pi].
Proof.
  destruct (has_been_connected_is_monotone (H := Sample.imports)
              Sample.a_font (800, 480)) as (_ & _ & Hframes).
  split; [reflexivity | split].
  - destruct (Hframes [Sample.failing; Sample.desktop true] Sample.failing)
      as (_ & Hquiet).
    apply Hquiet; [repeat constructor | reflexivity].
  - destruct (Hframes [Sample.failing; Sample.pi] Sample.failing)
      as (Hoffline & _).
    apply Hoffline. exists (Named BLACK), 0, (inject_Z 110).
    right. left. reflexivity.
Defined.

(* ================================================================= *)
(** ** Further properties of the module *)

Section ColourBands.
Context `{Imports}.

(** X1: [get_aithre_co_color] on a number: RED exactly above CO_WARNING,
    YELLOW exactly above CO_SAFE up to CO_WARNING, BLUE exactly up to
    both; the colour is never GREEN, and a higher level never gives a
    milder colour. *)
Theorem co_color_bands (a b : Z) :
  (get_aithre_co_color (PInt a) = Named RED <-> CO_WARNING < a) /\
  (get_aithre_co_color (PInt a) = Named YELLOW <->
   CO_SAFE < a /\ a <= CO_WARNING) /\
  (get_aithre_co_color (PInt a) = Named BLUE <->
   a <= CO_SAFE /\ a <= CO_WARNING) /\
  get_aithre_co_color (PInt a) <> Named GREEN /\
  (a <= b ->
   (level (get_aithre_co_color (PInt a)) <=
    level (get_aithre_co_color (PInt b)))%nat).
Proof.
  unfold get_aithre_co_color, py_gt.
  destruct (Z.ltb_spec CO_WARNING a) as [Hwa | Hwa];
    destruct (Z.ltb_spec CO_SAFE a) as [Hsa | Hsa];
    (split; [split; [intros Hc; try discriminate Hc; lia | intros; try reflexivity; lia] | ]);
    (split; [split; [intros Hc; try discriminate Hc; lia | intros; try reflexivity; lia] | ]);
    (split; [split; [intros Hc; try discriminate Hc; lia | intros; try reflexivity; lia] | ]);
    (split; [discriminate | ]);
    intros Hab;
    destruct (Z.ltb_spec CO_WARNING b) as [Hwb | Hwb];
    destruct (Z.ltb_spec CO_SAFE b) as [Hsb | Hsb];
    cbn; lia.
Qed.

(** X2: [get_aithre_battery_color] on a number: GREEN exactly from
    BATTERY_SAFE on, YELLOW exactly from BATTERY_WARNING up to below
    BATTERY_SAFE, RED exactly below both; the colour is never BLUE, and a
    higher charge never gives a more severe colour. *)
Theorem battery_color_bands (a b : Z) :
  (get_aithre_battery_color (PInt a) = Named GREEN <-> BATTERY_SAFE <= a) /\
  (get_aithre_battery_color (PInt a) = Named YELLOW <->
   a < BATTERY_SAFE /\ BATTERY_WARNING <= a) /\
  (get_aithre_battery_color (PInt a) = Named RED <->
   a < BATTERY_SAFE /\ a < BATTERY_WARNING) /\
  get_aithre_battery_color (PInt a) <> Named BLUE /\
  (a <= b ->
   (level (get_aithre_battery_color (PInt b)) <=
    level (get_aithre_battery_color (PInt a)))%nat).
Proof.
  unfold get_aithre_battery_color, py_ge.
  destruct (Z.leb_spec BATTERY_SAFE a) as [Hsa | Hsa];
    destruct (Z.leb_spec BATTERY_WARNING a) as [Hwa | Hwa];
    (split; [split; [intros Hc; try discriminate Hc; lia | intros; try reflexivity; lia] | ]);
    (split; [split; [intros Hc; try discriminate Hc; lia | intros; try reflexivity; lia] | ]);
    (split; [split; [intros Hc; try discriminate Hc; lia | intros; try reflexivity; lia] | ]);
    (split; [discriminate | ]);
    intros Hab;
    destruct (Z.leb_spec BATTERY_SAFE b) as [Hsb | Hsb];
    destruct (Z.leb_spec BATTERY_WARNING b) as [Hwb | Hwb];
    cbn; lia.
Qed.

End ColourBands.

Section AithreRowMore.
Context `{Imports} {S : Type}.

(** The CO half of the row, by what the sensor answers. *)
Lemma co_text_and_color_eq (snsr : sensor_obj) (s : S) :
  SystemInfo.co_text_and_color snsr s =
  ([GetCoLevel], s,
   Returns match get_co_level snsr with
           | Returns (Some v) =>
               ("co:" ++ format_val v ++ "ppm", get_aithre_co_color v)
           | Returns None => ("UNK", Named RED)
           | Raises _ => ("ERR", Named RED)
           end).
Proof.
  unfold SystemInfo.co_text_and_color.
  destruct (get_co_level snsr) as [[v | ] | x]; reflexivity.
Qed.

(** The battery half of the row, by what the sensor answers. *)
Lemma battery_text_and_color_eq (snsr : sensor_obj) (s : S) :
  SystemInfo.battery_text_and_color snsr s =
  ([GetBattery], s,
   Returns match get_battery snsr with
           | Returns (Some (PInt n)) =>
               ("bat:" ++ string_of_Z n ++ "%",
                get_aithre_battery_color (PInt n))
           | Returns (Some (PStr text)) =>
               ("bat:" ++ text ++ "", get_aithre_battery_color (PStr text))
           | Returns None => ("UNK", Named RED)
           | Raises _ => ("ERR", Named RED)
           end).
Proof.
  unfold SystemInfo.battery_text_and_color.
  destruct (get_battery snsr) as [[[n | text] | ] | x]; reflexivity.
Qed.

Lemma aithre_row_eq (e : env) (snsr : sensor_obj) (s : S) :
  sensor e = Some snsr ->
  forall bat co,
    SystemInfo.battery_text_and_color snsr s = ([GetBattery], s, Returns bat) ->
    SystemInfo.co_text_and_color snsr s = ([GetCoLevel], s, Returns co) ->
    SystemInfo.__get_aithre_text_and_color__ e s =
    ([GetBattery; GetCoLevel], s,
     Returns (fst co ++ " " ++ fst bat,
              SystemInfo.combined_color (snd co) (snd bat))).
Proof.
  intros Hsensor bat co Hbat Hco.
  unfold SystemInfo.__get_aithre_text_and_color__. rewrite Hsensor.
  unfold bind. rewrite Hbat, Hco. reflexivity.
Qed.

(** X3: a CO level that is a text orders above every threshold (Python 2
    puts numbers before texts), so with such a reading the row reads
    "co:<text>ppm" and is RED whatever the battery; a battery level that is
    a text is GREEN and is shown without the percent sign. *)
Theorem aithre_row_textual_reading (e : env) (snsr : sensor_obj) (s : S)
  (text : string) :
  sensor e = Some snsr ->
  (get_co_level snsr = Returns (Some (PStr text)) ->
   exists bat_text,
     outcome_of (SystemInfo.__get_aithre_text_and_color__ e s) =
       Returns (("co:" ++ text ++ "ppm") ++ " " ++ bat_text, Named RED)) /\
  (get_battery snsr = Returns (Some (PStr text)) ->
   get_aithre_battery_color (PStr text) = Named GREEN /\
   exists co,
     outcome_of (SystemInfo.co_text_and_color snsr s) = Returns co /\
     outcome_of (SystemInfo.__get_aithre_text_and_color__ e s) =
       Returns (fst co ++ " " ++ ("bat:" ++ text),
                SystemInfo.combined_color (snd co) (Named GREEN))).
Proof.
  intros Hsensor.
  pose proof (aithre_row_eq e snsr s Hsensor _ _
                (battery_text_and_color_eq snsr s)
                (co_text_and_color_eq snsr s)) as Hrow.
  split.
  - intros Hco. rewrite Hco in Hrow. rewrite Hrow.
    unfold outcome_of. cbn [fst snd]. eexists. reflexivity.
  - intros Hbat. split; [reflexivity | ].
    rewrite Hbat in Hrow. rewrite Hrow, co_text_and_color_eq.
    unfold outcome_of. cbn [fst snd]. eexists. split; [reflexivity | ].
    cbn [get_aithre_battery_color py_ge].
    replace ("bat:" ++ text ++ "") with ("bat:" ++ text); [reflexivity | ].
    cbn. do 4 f_equal. clear. induction text as [ | c t IH]; cbn; congruence.
Qed.

(** X4: when [get_co_level()] returns [None] or raises, the CO text is UNK
    or ERR, the exception is not propagated, and the row is RED whatever
    the battery reading is. *)
Theorem aithre_co_unknown_is_red (e : env) (snsr : sensor_obj) (s : S) :
  sensor e = Some snsr ->
  get_co_level snsr = Returns None \/
  (exists x, get_co_level snsr = Raises x) ->
  exists co_text bat_text,
    (get_co_level snsr = Returns None -> co_text = "UNK") /\
    (forall x, get_co_level snsr = Raises x -> co_text = "ERR") /\
    outcome_of (SystemInfo.__get_aithre_text_and_color__ e s) =
      Returns (co_text ++ " " ++ bat_text, Named RED).
Proof.
  intros Hsensor Hco.
  pose proof (aithre_row_eq e snsr s Hsensor _ _
                (battery_text_and_color_eq snsr s)
                (co_text_and_color_eq snsr s)) as Hrow.
  rewrite Hrow. unfold outcome_of. cbn [fst snd].
  destruct Hco as [Hco | [x Hco]]; rewrite Hco; cbn [fst snd];
    eexists; eexists; (split; [ | split; [ | reflexivity]]);
    intros; congruence.
Qed.

(** X5: the row method never raises and never changes the object.  Without
    a sensor it asks nothing; with one it asks for the battery and then for
    the CO level, once each.  Its colour is RED, YELLOW or BLUE, never
    GREEN, although GREEN is the colour of a safe battery. *)
Theorem aithre_row_total (e : env) (s : S) :
  exists smp,
    SystemInfo.__get_aithre_text_and_color__ e s =
      (match sensor e with
       | Some _ => [GetBattery; GetCoLevel]
       | None => []
       end, s, Returns smp) /\
    In (snd smp) [Named RED; Named YELLOW; Named BLUE].
Proof.
  destruct (sensor e) as [snsr | ] eqn:Hsensor.
  - rewrite (aithre_row_eq e snsr s Hsensor _ _
               (battery_text_and_color_eq snsr s)
               (co_text_and_color_eq snsr s)).
    eexists. split; [reflexivity | ]. cbn [snd].
    unfold SystemInfo.combined_color.
    match goal with
    | |- context [if ?c then _ else _] => destruct c
    end; [cbn; auto | ].
    match goal with
    | |- context [if ?c then _ else _] => destruct c
    end; cbn; auto.
  - unfold SystemInfo.__get_aithre_text_and_color__. rewrite Hsensor.
    destruct (aithre_enabled e); eexists; (split; [reflexivity | ]); cbn; auto.
Qed.

End AithreRowMore.

(* ----------------------------------------------------------------- *)
(** *** Texts *)

Lemma string_app_assoc (a b c : string) : (a ++ b) ++ c = a ++ b ++ c.
Proof. induction a as [ | x a IH]; cbn; [reflexivity | now rewrite IH]. Qed.

Lemma string_app_empty (a : string) : a ++ "" = a.
Proof. induction a as [ | x a IH]; cbn; [reflexivity | now rewrite IH]. Qed.

Lemma rev_string_app (acc s : string) :
  rev_string acc s = rev_string "" s ++ acc.
Proof.
  revert acc. induction s as [ | c s IH]; intros acc; cbn [rev_string].
  - reflexivity.
  - rewrite (IH (String c acc)), (IH (String c "")), string_app_assoc.
    reflexivity.
Qed.

Lemma rev_string_snoc (s : string) (c : ascii) :
  rev_string "" (s ++ String c "") = String c (rev_string "" s).
Proof.
  induction s as [ | x s IH]; cbn [String.append rev_string].
  - reflexivity.
  - rewrite (rev_string_app (String x "")), IH,
      (rev_string_app (String x "") s). reflexivity.
Qed.

Lemma rev_string_involutive (s : string) :
  rev_string "" (rev_string "" s) = s.
Proof.
  induction s as [ | c s IH]; cbn [rev_string].
  - reflexivity.
  - rewrite (rev_string_app (String c "")), rev_string_snoc, IH. reflexivity.
Qed.

Lemma rev_string_append (a b : string) :
  rev_string "" (a ++ b) = rev_string "" b ++ rev_string "" a.
Proof.
  induction a as [ | c a IH]; cbn [String.append rev_string].
  - now rewrite string_app_empty.
  - rewrite (rev_string_app (String c "")), IH,
      (rev_string_app (String c "") a), string_app_assoc. reflexivity.
Qed.

Lemma lstrip_starts (s : string) : starts_with_space (lstrip s) = false.
Proof.
  induction s as [ | c s IH]; cbn [lstrip]; [reflexivity | ].
  destruct (is_space c) eqn:Hc; [exact IH | cbn; exact Hc].
Qed.

Lemma lstrip_suffix (s : string) : exists p, s = p ++ lstrip s.
Proof.
  induction s as [ | c s (p & IH)]; cbn [lstrip].
  - now exists "".
  - destruct (is_space c).
    + exists (String c p). cbn. now rewrite <- IH.
    + now exists "".
Qed.

Lemma ends_with_space_snoc (s : string) (c : ascii) :
  ends_with_space (s ++ String c "") = is_space c.
Proof.
  induction s as [ | x s IH]; [reflexivity | ].
  cbn [String.append ends_with_space]. rewrite IH.
  destruct s; reflexivity.
Qed.

Lemma ends_with_space_rev (s : string) :
  ends_with_space (rev_string "" s) = starts_with_space s.
Proof.
  destruct s as [ | c s]; [reflexivity | ].
  cbn [rev_string starts_with_space].
  rewrite (rev_string_app (String c "")). apply ends_with_space_snoc.
Qed.

Lemma starts_with_space_prefix (a b : string) :
  starts_with_space (a ++ b) = false -> starts_with_space a = false.
Proof. destruct a; [reflexivity | intros Hab; exact Hab]. Qed.

(** [s.strip()] neither begins nor ends with white space. *)
Lemma strip_clean (s : string) :
  starts_with_space (strip s) = false /\ ends_with_space (strip s) = false.
Proof.
  unfold strip. split.
  - destruct (lstrip_suffix (rev_string "" (lstrip s))) as (p & Hp).
    apply (f_equal (rev_string "")) in Hp.
    rewrite rev_string_involutive, rev_string_append in Hp.
    apply (starts_with_space_prefix _ (rev_string "" p)).
    rewrite <- Hp. apply lstrip_starts.
  - rewrite ends_with_space_rev. apply lstrip_starts.
Qed.

Lemma split_space_not_nil (s : string) : split_space s <> [].
Proof.
  induction s as [ | c s IH]; cbn [split_space]; [discriminate | ].
  destruct (Ascii.eqb c " "); [discriminate | ].
  destruct (split_space s); [now elim IH | discriminate].
Qed.

Lemma split_space_length (s : string) :
  List.length (split_space s) = Datatypes.S (count_spaces s).
Proof.
  induction s as [ | c s IH]; cbn [split_space count_spaces]; [reflexivity | ].
  destruct (Ascii.eqb c " "); cbn [List.length]; [now rewrite IH | ].
  destruct (split_space s) as [ | w ws]; [discriminate IH | exact IH].
Qed.

Lemma split_space_fields (s : string) :
  Forall (fun w => has_space w = false) (split_space s).
Proof.
  induction s as [ | c s IH]; cbn [split_space].
  - repeat constructor.
  - destruct (Ascii.eqb c " ") eqn:Hc; [constructor; [reflexivity | exact IH] | ].
    destruct (split_space s) as [ | w ws]; [repeat constructor; cbn; now rewrite Hc | ].
    inversion IH as [ | ? ? Hw Hws]; subst.
    constructor; [cbn; now rewrite Hc, Hw | exact Hws].
Qed.

(** Joining the fields with spaces gives the text back. *)
Lemma join_space_split_space (s : string) : join_space (split_space s) = s.
Proof.
  induction s as [ | c s IH]; cbn [split_space]; [reflexivity | ].
  pose proof (split_space_not_nil s) as Hne.
  destruct (Ascii.eqb_spec c " ") as [-> | Hc].
  - destruct (split_space s) as [ | w ws]; [now elim Hne | ].
    cbn [join_space]. cbn [String.append]. now rewrite <- IH.
  - destruct (split_space s) as [ | w ws]; [now elim Hne | ].
    rewrite <- IH. destruct ws; reflexivity.
Qed.

Section ProbesMore.
Context `{Imports} {S : Type}.

Lemma cpu_temp_color_not_gray (t : Q) :
  get_cpu_temp_text_color t <> Named GRAY.
Proof.
  unfold get_cpu_temp_text_color, get_color_mix.
  destruct (Qgt_bool t (inject_Z REDLINE_TEMP)); [discriminate | ].
  destruct (Qgt_bool t (inject_Z NORMAL_TEMP)); discriminate.
Qed.

(** X6: [get_cpu_temp] returns the placeholder --- in GRAY exactly when
    the platform is not Linux, the thermal file cannot be read, or its text
    is not a finite number: [float] rejects it, or gives an infinity or
    not-a-number, for which [int(math.floor(temp))] raises inside the
    [try].  Otherwise, for a file holding the finite number m, the text is
    the whole degrees of m/1000 followed by C, and the colour is that of
    m/1000 degrees: never GRAY, GREEN up to 50000 and RED above 80000. *)
Theorem cpu_temp_sample_cases (e : env) (s : S) :
  (outcome_of (get_cpu_temp e s) = Returns ("---", Named GRAY) <->
   IS_LINUX e = false \/
   (exists x, thermal_zone0 e = Raises x) \/
   (exists text,
      thermal_zone0 e = Returns text /\
      forall m, py_float text <> Some (Finite m))) /\
  (forall text negative,
     IS_LINUX e = true ->
     thermal_zone0 e = Returns text ->
     py_float text = Some (Infinity negative) \/ py_float text = Some NaN ->
     (exists x, outcome_of (cpu_temp_try e s) = Raises x) /\
     get_cpu_temp e s =
       ([Called GetCpuTemp; ReadThermal], s, Returns ("---", Named GRAY))) /\
  (forall text m,
     IS_LINUX e = true ->
     thermal_zone0 e = Returns text ->
     py_float text = Some (Finite m) ->
     get_cpu_temp e s =
       ([Called GetCpuTemp; ReadThermal], s,
        Returns (string_of_Z (Qfloor (m / 1000)) ++ "C",
                 get_cpu_temp_text_color (m / 1000))) /\
     get_cpu_temp_text_color (m / 1000) <> Named GRAY /\
     ((m <= 50000)%Q -> get_cpu_temp_text_color (m / 1000) = Named GREEN) /\
     ((80000 < m)%Q -> get_cpu_temp_text_color (m / 1000) = Named RED)).
Proof.
  split; [ | split].
  - unfold get_cpu_temp, cpu_temp_try.
    destruct (IS_LINUX e); [ | split; [now left | reflexivity]].
    destruct (thermal_zone0 e) as [text | x]; run.
    + destruct (py_float text) as [[m | negative | ] | ] eqn:Hm; cbn [snd].
      * split.
        -- intros Hout. injection Hout as _ Hcolor.
           now apply cpu_temp_color_not_gray in Hcolor.
        -- intros [Hl | [(x & Hx) | (text' & Ht & Hnone)]];
             [discriminate | discriminate | ].
           injection Ht as <-. now elim (Hnone m).
      * split; [ | reflexivity]. intros _. right. right. exists text.
        split; [reflexivity | congruence].
      * split; [ | reflexivity]. intros _. right. right. exists text.
        split; [reflexivity | congruence].
      * split; [ | reflexivity]. intros _. right. right. exists text.
        split; [reflexivity | congruence].
    + split; [ | reflexivity]. intros _. right. left. now exists x.
  - intros text negative Hlinux Hread Hm.
    unfold get_cpu_temp, cpu_temp_try. rewrite Hlinux, Hread. run.
    destruct Hm as [-> | ->]; cbn [snd];
      (split; [eexists; reflexivity | reflexivity]).
  - intros text m Hlinux Hread Hm.
    split; [ | split; [apply cpu_temp_color_not_gray | split]].
    + unfold get_cpu_temp, cpu_temp_try. rewrite Hlinux, Hread. run.
      rewrite Hm. reflexivity.
    + intros Hle. unfold get_cpu_temp_text_color.
      assert (Hdeg : (m / 1000 <= 50)%Q)
        by (apply Qle_shift_div_r; [reflexivity | lra]).
      assert (H80 : Qgt_bool (m / 1000) (inject_Z REDLINE_TEMP) = false).
      { apply Qgt_bool_false. change (inject_Z REDLINE_TEMP) with 80%Q. lra. }
      assert (H50 : Qgt_bool (m / 1000) (inject_Z NORMAL_TEMP) = false).
      { apply Qgt_bool_false. exact Hdeg. }
      now rewrite H80, H50.
    + intros Hgt. unfold get_cpu_temp_text_color.
      assert (Hdeg : (80 < m / 1000)%Q)
        by (apply Qlt_shift_div_l; [reflexivity | lra]).
      apply Qgt_bool_true in Hdeg.
      change (inject_Z REDLINE_TEMP) with 80%Q. now rewrite Hdeg.
Qed.

(** X7: [get_ip_address] on a Raspberry Pi runs the shell and never the
    resolver, and returns the output without white space at either end, in
    GREEN; elsewhere it asks the resolver for the address of the host name
    and never runs the shell.  Its sample is RED exactly when the lookup
    failed, and then reads UNKNOWN. *)
Theorem ip_address_sample_cases (e : env) (s : S) :
  (IS_LINUX e && IS_PI e = true ->
   forall out, hostname_I e = Returns out ->
     get_ip_address e s =
       ([Called GetIpAddress; HostnameI], s, Returns (strip out, Named GREEN)) /\
     starts_with_space (strip out) = false /\
     ends_with_space (strip out) = false) /\
  (IS_LINUX e && IS_PI e = false ->
   ~ In HostnameI (trace_of (get_ip_address e s)) /\
   forall host addr,
     gethostname e = Returns host ->
     gethostbyname e host = Returns addr ->
     get_ip_address e s =
       ([Called GetIpAddress; GetHostName; GetHostByName host], s,
        Returns (addr, Named GREEN))) /\
  (forall smp,
     outcome_of (get_ip_address e s) = Returns smp ->
     (snd smp = Named GREEN \/ smp = ("UNKNOWN", Named RED)) /\
     (snd smp = Named RED <->
      exists x, outcome_of (ip_address_try e s) = Raises x)).
Proof.
  unfold get_ip_address, ip_address_try.
  destruct (IS_LINUX e && IS_PI e).
  - split; [ | split; [discriminate | ]].
    + intros _ out Hout. rewrite Hout.
      split; [reflexivity | apply strip_clean].
    + destruct (hostname_I e) as [out | x]; run; intros smp Hsmp;
        injection Hsmp as <-; cbn [snd].
      * split; [now left | ].
        split; [discriminate | intros (x & Hx); discriminate].
      * split; [now right | ]. split; [now exists x | reflexivity].
  - split; [discriminate | split].
    + intros _. split.
      * destruct (gethostname e) as [h | x]; run;
          [destruct (gethostbyname e h) | ]; cbn; intuition discriminate.
      * intros host addr Hh Ha. rewrite Hh. run. rewrite Ha. reflexivity.
    + destruct (gethostname e) as [h | x]; run;
        [destruct (gethostbyname e h) as [a | x] | ]; cbn [fst snd app];
        intros smp Hsmp; injection Hsmp as <-; cbn [snd].
      * split; [now left | ].
        split; [discriminate | intros (x & Hx); discriminate].
      * split; [now right | ]. split; [now exists x | reflexivity].
      * split; [now right | ]. split; [now exists x | reflexivity].
Qed.

End ProbesMore.

Section RenderMore.
Context `{Imports}.

Lemma draw_lines_value (self0 self : SystemInfo.t) (label text : string)
  (c : color) (rest : list row) (y : Q) :
  SystemInfo.draw_lines self0 ((label, Some (text, c)) :: rest) y self =
  let r := SystemInfo.draw_lines self0 rest
             (y - inject_Z (SystemInfo.font_height self0) *
                  SystemInfo.__line_spacing__ self0)%Q self in
  (Blit label (Named BLUE) (Named BLACK) 0 y ::
   Blit text c (Named BLACK)
        (render_width (SystemInfo.__font__ self0) label) y :: trace_of r,
   state_of r, outcome_of r).
Proof.
  cbn [SystemInfo.draw_lines fst snd]. run.
  destruct (SystemInfo.draw_lines self0 rest _ self) as [[t s'] o].
  reflexivity.
Qed.

Lemma draw_lines_none (self0 self : SystemInfo.t) (label : string)
  (rest : list row) (y : Q) :
  SystemInfo.draw_lines self0 ((label, None) :: rest) y self =
  ([Blit label (Named BLUE) (Named BLACK) 0 y], self, Raises TypeError).
Proof. reflexivity. Qed.

(** Drawing stops with [TypeError] at the first line without a value. *)
Lemma draw_lines_raises (self0 : SystemInfo.t) (lines : list row) :
  forall (y : Q) (self : SystemInfo.t),
    Exists (fun line => snd line = None) lines ->
    outcome_of (SystemInfo.draw_lines self0 lines y self) = Raises TypeError.
Proof.
  induction lines as [ | [label [[text c] | ]] rest IH]; intros y self Hex.
  - inversion Hex.
  - rewrite draw_lines_value. cbv zeta. unfold outcome_of at 1. cbn [snd].
    apply IH. inversion Hex as [? ? Hhead | ? ? Htail]; [discriminate | exact Htail].
  - reflexivity.
Qed.

(** A list in which every line has a value is drawn with two texts per
    line. *)
Lemma draw_lines_length (self0 : SystemInfo.t) (lines : list row) :
  forall (y : Q) (self : SystemInfo.t),
    Forall (fun line => snd line <> None) lines ->
    List.length (trace_of (SystemInfo.draw_lines self0 lines y self)) =
      (2 * List.length lines)%nat.
Proof.
  induction lines as [ | [label [[text c] | ]] rest IH]; intros y self Hall.
  - reflexivity.
  - rewrite draw_lines_value. cbv zeta.
    set (r := SystemInfo.draw_lines self0 rest _ self).
    cbn [trace_of fst List.length]. subst r.
    inversion Hall as [ | ? ? _ Hrest]; subst.
    rewrite (IH _ self Hrest). lia.
  - inversion Hall as [ | ? ? Hhead _]. now elim Hhead.
Qed.

(** X9: the lines of a list in which every line has a value are drawn in
    order, two texts per line and nothing else: the label in BLUE on BLACK
    at the left edge, and the value in its own colour on BLACK right after
    the label, at the same height; line i sits i times the font height
    times the line spacing above the first. *)
Theorem draw_lines_layout (self0 : SystemInfo.t) (lines : list row) :
  forall (y : Q) (self : SystemInfo.t),
    Forall (fun line => snd line <> None) lines ->
    let tr := trace_of (SystemInfo.draw_lines self0 lines y self) in
    List.length tr = (2 * List.length lines)%nat /\
    forall (i : nat) (label text : string) (c : color),
      nth_error lines i = Some (label, Some (text, c)) ->
      exists yi : Q,
        (yi == y - inject_Z (Z.of_nat i) *
                   (inject_Z (SystemInfo.font_height self0) *
                    SystemInfo.__line_spacing__ self0))%Q /\
        nth_error tr (2 * i) =
          Some (Blit label (Named BLUE) (Named BLACK) 0 yi) /\
        nth_error tr (2 * i + 1) =
          Some (Blit text c (Named BLACK)
                     (render_width (SystemInfo.__font__ self0) label) yi).
Proof.
  induction lines as [ | [label [[text c] | ]] rest IH]; intros y self Hall.
  - split; [reflexivity | ]. intros [ | i] ? ? ? Hnth; discriminate.
  - rewrite draw_lines_value. cbv zeta.
    set (r := SystemInfo.draw_lines self0 rest _ self).
    cbn [trace_of fst]. subst r.
    inversion Hall as [ | ? ? _ Hrest]; subst.
    destruct (IH (y - inject_Z (SystemInfo.font_height self0) *
                      SystemInfo.__line_spacing__ self0)%Q self Hrest)
      as (Hlen & Hrows).
    split; [cbn [List.length]; rewrite Hlen; lia | ].
    intros [ | i] label' text' c' Hnth.
    + cbn in Hnth. injection Hnth as <- <- <-.
      exists y. split; [cbn; ring | split; reflexivity].
    + cbn [nth_error] in Hnth.
      destruct (Hrows i label' text' c' Hnth) as (yi & Hyi & Hl & Hv).
      exists yi. split; [ | split].
      * rewrite Hyi, Nat2Z.inj_succ. unfold Z.succ. rewrite inject_Z_plus.
        ring.
      * replace (2 * Datatypes.S i)%nat with (Datatypes.S (Datatypes.S (2 * i)))
          by lia. exact Hl.
      * replace (2 * Datatypes.S i + 1)%nat
          with (Datatypes.S (Datatypes.S (2 * i + 1))) by lia. exact Hv.
  - inversion Hall as [ | ? ? Hhead _]. now elim Hhead.
Qed.

(** One frame, spelled out: the countdowns, the question to the sensor,
    and the drawing of the rows. *)
Lemma render_unfold (e : env) (self : SystemInfo.t) :
  let self1 := state_of (SystemInfo.refresh e self) in
  exists tr aithre,
    SystemInfo.__get_aithre_text_and_color__ e self1 =
      (tr, self1, Returns aithre) /\
    let lines :=
      (rows_before e ++
       map (SystemInfo.ip_row (snd (SystemInfo.__ip_address__ self1)))
           (split_space (fst (SystemInfo.__ip_address__ self1))) ++
       rows_after e self1 aithre)%list in
    let drawn :=
      SystemInfo.draw_lines self1 lines
        (inject_Z (SystemInfo.__text_y_pos__ self1)) self1 in
    SystemInfo.render e self =
      ((trace_of (SystemInfo.refresh e self) ++ tr ++ trace_of drawn)%list,
       self1, outcome_of drawn).
Proof.
  cbv zeta.
  pose proof (refresh_run e self) as (Hout & _).
  destruct (SystemInfo.refresh e self) as [[tr1 self1] o1] eqn:Hr.
  cbn [trace_of state_of outcome_of fst snd] in Hout |- *. subst o1.
  destruct (info_lines_run e self1) as (tr2 & aithre & Hrow & Hlines & _).
  exists tr2, aithre. split; [exact Hrow | ].
  unfold SystemInfo.render, bind, get. rewrite Hr, Hlines. unfold ret.
  cbn [app].
  match goal with
  | |- context [SystemInfo.draw_lines self1 ?l ?y self1] =>
      destruct (draw_lines_run self1 l y self1) as (tr3 & o & Hdraw & _);
      rewrite Hdraw
  end.
  reflexivity.
Qed.

(** After the countdowns the temperature is cached exactly on a page that
    is [ready]. *)
Lemma refresh_caches_temperature (e : env) (self : SystemInfo.t) :
  SystemInfo.__cpu_temp__ (state_of (SystemInfo.refresh e self)) <> None <->
  ready self.
Proof.
  pose proof (refresh_run e self) as (_ & _ & _ & _ & _ & Hfire & Hrest).
  unfold ready.
  destruct (Z.le_gt_cases (SystemInfo.__update_temp_timer__ self) 1)
    as [Hle | Hgt].
  - destruct (Hfire Hle) as (_ & _ & temp & _ & Hcache).
    rewrite Hcache. split; [now right | discriminate].
  - destruct Hrest as (_ & _ & Hcache); [lia | ]. rewrite Hcache.
    split; [now left | intros [Hsome | Hle]; [exact Hsome | lia]].
Qed.

(** X10: [render] returns exactly on a page whose temperature is cached
    or about to be fetched.  On any other page (no cached temperature,
    countdown above 1) it raises [TypeError] at the CPU row, after it has
    stepped both countdowns. *)
Theorem render_raises_without_temperature (e : env) (self : SystemInfo.t) :
  (outcome_of (SystemInfo.render e self) = Returns tt <-> ready self) /\
  (~ ready self ->
   outcome_of (SystemInfo.render e self) = Raises TypeError /\
   state_of (SystemInfo.render e self) =
     state_of (SystemInfo.refresh e self) /\
   SystemInfo.__update_temp_timer__ (state_of (SystemInfo.render e self)) =
     SystemInfo.__update_temp_timer__ self - 1 /\
   SystemInfo.__cpu_temp__ (state_of (SystemInfo.render e self)) = None).
Proof.
  pose proof (render_unfold e self) as Hrender. cbv zeta in Hrender.
  destruct Hrender as (tr & aithre & _ & Hrender).
  pose proof (refresh_caches_temperature e self) as Hcached.
  assert (Hraise : ~ ready self ->
            outcome_of (SystemInfo.render e self) = Raises TypeError).
  { intros Hnot. rewrite Hrender. unfold outcome_of at 1. cbn [snd].
    apply draw_lines_raises.
    apply Exists_app. right. apply Exists_app. right.
    unfold rows_after. apply Exists_cons_tl, Exists_cons_hd. cbn [snd].
    destruct (SystemInfo.__cpu_temp__ (state_of (SystemInfo.refresh e self)));
      [ | reflexivity].
    elim Hnot. apply Hcached. discriminate. }
  split; [split | ].
  - intros Hout. destruct (Z.le_gt_cases
                             (SystemInfo.__update_temp_timer__ self) 1)
      as [Hle | Hgt]; [now right | ].
    destruct (SystemInfo.__cpu_temp__ self) eqn:Hcpu;
      [left; rewrite Hcpu; discriminate | ].
    assert (Hnot : ~ ready self)
      by (unfold ready; rewrite Hcpu; intros [Hc | Hc]; [now elim Hc | lia]).
    rewrite (Hraise Hnot) in Hout. discriminate.
  - intros Hready.
    destruct (render_run e self) as (tr' & o & Hrun & _ & Hok).
    rewrite Hrun. unfold outcome_of. cbn [snd]. apply Hok.
    now apply Hcached.
  - intros Hnot. split; [exact (Hraise Hnot) | ].
    assert (Hstate : state_of (SystemInfo.render e self) =
                     state_of (SystemInfo.refresh e self))
      by now rewrite Hrender.
    split; [exact Hstate | ]. rewrite Hstate.
    pose proof (refresh_run e self) as (_ & _ & _ & _ & _ & _ & Hrest).
    unfold ready in Hnot.
    destruct Hrest as (_ & Htimer & Hcache); [lia | ].
    split; [exact Htimer | ]. rewrite Hcache.
    destruct (SystemInfo.__cpu_temp__ self); [ | reflexivity].
    elim Hnot. left. discriminate.
Qed.

End RenderMore.

Section FramesMore.
Context `{Imports}.

(** What the constructor leaves. *)
Lemma init_state (e : env) (fnt : font) (size : Z * Z) (self : SystemInfo.t) :
  outcome_of (SystemInfo.__init__ e fnt size tt) = Returns self ->
  SystemInfo.__update_ip_timer__ self = 0 /\
  SystemInfo.__update_temp_timer__ self = 0 /\
  SystemInfo.__cpu_temp__ self = None /\
  SystemInfo.__font__ self = fnt /\
  SystemInfo.font_height self = get_height fnt /\
  SystemInfo.__text_y_pos__ self = snd size - get_height fnt /\
  SystemInfo.__framebuffer_size__ self = size.
Proof.
  destruct (get_ip_address_run e tt) as (tri & ip & Hip & _).
  unfold SystemInfo.__init__, bind. rewrite Hip. unfold ret, outcome_of.
  cbn [snd]. intros Hself. injection Hself as <-. repeat split.
Qed.

Lemma render_state (e : env) (self : SystemInfo.t) :
  state_of (SystemInfo.render e self) = state_of (SystemInfo.refresh e self).
Proof.
  destruct (render_run e self) as (tr & o & Hrun & _). now rewrite Hrun.
Qed.

Lemma render_calls (p : probe) (e : env) (self : SystemInfo.t) :
  calls p (trace_of (SystemInfo.render e self)) =
  calls p (trace_of (SystemInfo.refresh e self)).
Proof.
  destruct (render_run e self) as (tr & o & Hrun & Hcalls & _).
  rewrite Hrun. cbn [trace_of fst]. rewrite calls_app, Hcalls. lia.
Qed.

Lemma run_frames_cons {S} (step : env -> M S unit) (e : env)
  (es : list env) (s : S) :
  run_frames step (e :: es) s =
  ((trace_of (step e s) ++ fst (run_frames step es (state_of (step e s))))%list,
   snd (run_frames step es (state_of (step e s)))).
Proof.
  cbn [run_frames]. destruct (step e s) as [[t s'] o].
  cbn [trace_of state_of fst snd].
  now destruct (run_frames step es s').
Qed.

(** One frame takes a page whose countdowns do not exceed their periods to
    a [steady] page, and returns when the page is [ready]. *)
Lemma render_steady (e : env) (self : SystemInfo.t) :
  SystemInfo.__update_ip_timer__ self <= 120 ->
  SystemInfo.__update_temp_timer__ self <= 60 ->
  ready self ->
  steady (state_of (SystemInfo.render e self)) /\
  outcome_of (SystemInfo.render e self) = Returns tt.
Proof.
  intros Hip Htemp Hready.
  destruct (render_run e self) as (tr & o & Hrun & _ & Hok).
  pose proof (refresh_run e self)
    as (_ & _ & _ & Hfire_ip & Hrest_ip & Hfire_temp & Hrest_temp).
  rewrite Hrun. cbn [state_of outcome_of fst snd].
  assert (Hcpu : SystemInfo.__cpu_temp__
                   (state_of (SystemInfo.refresh e self)) <> None).
  { destruct (Z.le_gt_cases (SystemInfo.__update_temp_timer__ self) 1)
      as [Hle | Hgt].
    - destruct (Hfire_temp Hle) as (_ & _ & temp & _ & Hcache).
      rewrite Hcache. discriminate.
    - destruct (Hrest_temp Hgt) as (_ & _ & Hcache). rewrite Hcache.
      destruct Hready as [Hsome | Hle]; [exact Hsome | lia]. }
  split; [ | exact (Hok Hcpu)].
  unfold steady. split; [ | split; [ | exact Hcpu]].
  - destruct (Z.le_gt_cases (SystemInfo.__update_ip_timer__ self) 1)
      as [Hle | Hgt].
    + destruct (Hfire_ip Hle) as (_ & -> & _). lia.
    + destruct (Hrest_ip Hgt) as (_ & -> & _). lia.
  - destruct (Z.le_gt_cases (SystemInfo.__update_temp_timer__ self) 1)
      as [Hle | Hgt].
    + destruct (Hfire_temp Hle) as (_ & -> & _). lia.
    + destruct (Hrest_temp Hgt) as (_ & -> & _). lia.
Qed.

Lemma steady_frames (es : list env) :
  forall self : SystemInfo.t,
    steady self -> steady (snd (run_frames SystemInfo.render es self)).
Proof.
  induction es as [ | e es IH]; intros self Hsteady; [exact Hsteady | ].
  rewrite run_frames_cons. cbn [snd]. apply IH.
  destruct Hsteady as ((_ & Hip) & (_ & Htemp) & Hcpu).
  apply render_steady; [exact Hip | exact Htemp | now left].
Qed.

(** X11: a page made by the constructor never makes [render] raise: every
    frame returns, whatever the environment of each frame answers.  After
    every frame the address countdown lies in 1..120, the temperature
    countdown in 1..60, and the temperature is cached. *)
Theorem frames_after_construction_return (e0 : env) (fnt : font)
  (size : Z * Z) (self : SystemInfo.t) (es : list env) (e : env) :
  outcome_of (SystemInfo.__init__ e0 fnt size tt) = Returns self ->
  let before := snd (run_frames SystemInfo.render es self) in
  outcome_of (SystemInfo.render e before) = Returns tt /\
  steady (state_of (SystemInfo.render e before)).
Proof.
  intros Hinit before.
  destruct (init_state e0 fnt size self Hinit) as (Hip & Htemp & Hcpu & _).
  assert (Hpre : SystemInfo.__update_ip_timer__ before <= 120 /\
                 SystemInfo.__update_temp_timer__ before <= 60 /\
                 ready before).
  { subst before. destruct es as [ | e1 es].
    - cbn [run_frames snd]. unfold ready. lia.
    - rewrite run_frames_cons. cbn [snd].
      assert (Hsteady : steady (state_of (SystemInfo.render e1 self)))
        by (apply render_steady; unfold ready; lia).
      apply (steady_frames es) in Hsteady.
      destruct Hsteady as ((_ & Hi) & (_ & Ht) & Hc).
      split; [exact Hi | split; [exact Ht | now left]]. }
  destruct Hpre as (Hi & Ht & Hr).
  destruct (render_steady e before Hi Ht Hr) as (Hsteady & Hout).
  split; assumption.
Qed.

(** How often a countdown of period [period] that stands at [timer] lets
    its probe run in [n] frames. *)
Lemma fire_count_step (period timer n : Z) :
  0 < period -> timer <= period -> 0 <= n ->
  (timer <= 1 ->
   (n + 1 - Z.max 1 timer + period) / period =
   1 + (n - Z.max 1 period + period) / period) /\
  (1 < timer ->
   (n + 1 - Z.max 1 timer + period) / period =
   (n - Z.max 1 (timer - 1) + period) / period).
Proof.
  intros Hperiod Htimer Hn. split; intros Hcase.
  - replace (n + 1 - Z.max 1 timer + period) with (n + 1 * period) by lia.
    rewrite Z.div_add by lia.
    replace (n - Z.max 1 period + period) with n by lia. lia.
  - f_equal. lia.
Qed.

Lemma ip_calls_count (es : list env) :
  forall self : SystemInfo.t,
    SystemInfo.__update_ip_timer__ self <= 120 ->
    Z.of_nat (calls GetIpAddress (fst (run_frames SystemInfo.render es self))) =
    (Z.of_nat (List.length es) -
     Z.max 1 (SystemInfo.__update_ip_timer__ self) + 120) / 120.
Proof.
  induction es as [ | e es IH]; intros self Hle.
  - cbn [run_frames fst List.length calls filter]. cbn [Z.of_nat].
    symmetry. apply Z.div_small. lia.
  - rewrite run_frames_cons. cbn [fst]. rewrite calls_app, render_calls.
    rewrite Nat2Z.inj_add, render_state.
    pose proof (refresh_run e self) as (_ & _ & _ & Hfire & Hrest & _).
    pose proof (fire_count_step 120 (SystemInfo.__update_ip_timer__ self)
                  (Z.of_nat (List.length es)) eq_refl Hle (Nat2Z.is_nonneg _))
      as (Hcount_fire & Hcount_rest).
    cbn [List.length]. rewrite Nat2Z.inj_succ. unfold Z.succ.
    destruct (Z.le_gt_cases (SystemInfo.__update_ip_timer__ self) 1)
      as [Hone | Hmore].
    + destruct (Hfire Hone) as (Hcalls & Htimer & _).
      rewrite Hcalls, IH, Htimer by (rewrite Htimer; lia).
      rewrite (Hcount_fire Hone). reflexivity.
    + destruct (Hrest Hmore) as (Hcalls & Htimer & _).
      rewrite Hcalls, IH, Htimer by (rewrite Htimer; lia).
      rewrite (Hcount_rest Hmore). reflexivity.
Qed.

Lemma temp_calls_count (es : list env) :
  forall self : SystemInfo.t,
    SystemInfo.__update_temp_timer__ self <= 60 ->
    Z.of_nat (calls GetCpuTemp (fst (run_frames SystemInfo.render es self))) =
    (Z.of_nat (List.length es) -
     Z.max 1 (SystemInfo.__update_temp_timer__ self) + 60) / 60.
Proof.
  induction es as [ | e es IH]; intros self Hle.
  - cbn [run_frames fst List.length calls filter]. cbn [Z.of_nat].
    symmetry. apply Z.div_small. lia.
  - rewrite run_frames_cons. cbn [fst]. rewrite calls_app, render_calls.
    rewrite Nat2Z.inj_add, render_state.
    pose proof (refresh_run e self) as (_ & _ & _ & _ & _ & Hfire & Hrest).
    pose proof (fire_count_step 60 (SystemInfo.__update_temp_timer__ self)
                  (Z.of_nat (List.length es)) eq_refl Hle (Nat2Z.is_nonneg _))
      as (Hcount_fire & Hcount_rest).
    cbn [List.length]. rewrite Nat2Z.inj_succ. unfold Z.succ.
    destruct (Z.le_gt_cases (SystemInfo.__update_temp_timer__ self) 1)
      as [Hone | Hmore].
    + destruct (Hfire Hone) as (Hcalls & Htimer & _).
      rewrite Hcalls, IH, Htimer by (rewrite Htimer; lia).
      rewrite (Hcount_fire Hone). reflexivity.
    + destruct (Hrest Hmore) as (Hcalls & Htimer & _).
      rewrite Hcalls, IH, Htimer by (rewrite Htimer; lia).
      rewrite (Hcount_rest Hmore). reflexivity.
Qed.

(** X12: the number of probe invocations in n frames.  On a page whose
    address countdown stands at c (at most 120), n frames invoke
    [get_ip_address] (n - max(1, c) + 120) / 120 times, and likewise
    [get_cpu_temp] with 60.  On a page made by the constructor that is
    once in the first frame and once more every 120 (60) frames: in n
    frames, n at least 1, 1 + (n - 1) / 120 and 1 + (n - 1) / 60 times. *)
Theorem probe_invocations_in_frames (es : list env) (self : SystemInfo.t) :
  let n := Z.of_nat (List.length es) in
  (SystemInfo.__update_ip_timer__ self <= 120 ->
   Z.of_nat (calls GetIpAddress (fst (run_frames SystemInfo.render es self))) =
   (n - Z.max 1 (SystemInfo.__update_ip_timer__ self) + 120) / 120) /\
  (SystemInfo.__update_temp_timer__ self <= 60 ->
   Z.of_nat (calls GetCpuTemp (fst (run_frames SystemInfo.render es self))) =
   (n - Z.max 1 (SystemInfo.__update_temp_timer__ self) + 60) / 60) /\
  (forall (e0 : env) (fnt : font) (size : Z * Z),
     outcome_of (SystemInfo.__init__ e0 fnt size tt) = Returns self ->
     es <> [] ->
     Z.of_nat (calls GetIpAddress
                 (fst (run_frames SystemInfo.render es self))) =
       1 + (n - 1) / 120 /\
     Z.of_nat (calls GetCpuTemp
                 (fst (run_frames SystemInfo.render es self))) =
       1 + (n - 1) / 60).
Proof.
  intros n. split; [apply ip_calls_count | split; [apply temp_calls_count | ]].
  intros e0 fnt size Hinit Hne.
  destruct (init_state e0 fnt size self Hinit) as (Hip & Htemp & _).
  rewrite ip_calls_count, temp_calls_count, Hip, Htemp by lia.
  fold n. assert (Hn : 1 <= n) by (subst n; destruct es; [now elim Hne | cbn; lia]).
  split.
  - replace (n - Z.max 1 0 + 120) with (n - 1 + 1 * 120) by lia.
    rewrite Z.div_add by lia. lia.
  - replace (n - Z.max 1 0 + 60) with (n - 1 + 1 * 60) by lia.
    rewrite Z.div_add by lia. lia.
Qed.

(** While a countdown is above the number of frames, the cached sample
    stays. *)
Lemma ip_cache_kept (es : list env) :
  forall self : SystemInfo.t,
    Z.of_nat (List.length es) < SystemInfo.__update_ip_timer__ self ->
    SystemInfo.__ip_address__ (snd (run_frames SystemInfo.render es self)) =
      SystemInfo.__ip_address__ self.
Proof.
  induction es as [ | e es IH]; intros self Hlen; [reflexivity | ].
  cbn [List.length] in Hlen. rewrite run_frames_cons. cbn [snd].
  pose proof (refresh_run e self) as (_ & _ & _ & _ & Hrest & _).
  destruct Hrest as (_ & Htimer & Hcache); [lia | ].
  rewrite IH, render_state; [exact Hcache | ].
  rewrite render_state, Htimer. lia.
Qed.

Lemma temp_cache_kept (es : list env) :
  forall self : SystemInfo.t,
    Z.of_nat (List.length es) < SystemInfo.__update_temp_timer__ self ->
    SystemInfo.__cpu_temp__ (snd (run_frames SystemInfo.render es self)) =
      SystemInfo.__cpu_temp__ self.
Proof.
  induction es as [ | e es IH]; intros self Hlen; [reflexivity | ].
  cbn [List.length] in Hlen. rewrite run_frames_cons. cbn [snd].
  pose proof (refresh_run e self) as (_ & _ & _ & _ & _ & _ & Hrest).
  destruct Hrest as (_ & Htimer & Hcache); [lia | ].
  rewrite IH, render_state; [exact Hcache | ].
  rewrite render_state, Htimer. lia.
Qed.

(** X13: between two refreshes a cached sample is reused as it is: over
    fewer frames than a countdown shows, the cached address (temperature)
    is the one the page started with, whatever the environments of these
    frames would answer; a change or a failure outside is not seen before
    the countdown runs out. *)
Theorem cached_sample_is_reused (es : list env) (self : SystemInfo.t) :
  (Z.of_nat (List.length es) < SystemInfo.__update_ip_timer__ self ->
   SystemInfo.__ip_address__ (snd (run_frames SystemInfo.render es self)) =
     SystemInfo.__ip_address__ self /\
   calls GetIpAddress (fst (run_frames SystemInfo.render es self)) = 0%nat) /\
  (Z.of_nat (List.length es) < SystemInfo.__update_temp_timer__ self ->
   SystemInfo.__cpu_temp__ (snd (run_frames SystemInfo.render es self)) =
     SystemInfo.__cpu_temp__ self /\
   calls GetCpuTemp (fst (run_frames SystemInfo.render es self)) = 0%nat).
Proof.
  split; intros Hlen.
  - split; [now apply ip_cache_kept | now apply ip_timer_counts_down].
  - split; [now apply temp_cache_kept | now apply temp_timer_counts_down].
Qed.


End FramesMore.

Section AithreMore.
Context `{Imports}.

(** One frame of the Aithre element, case by case. *)
Lemma aithre_render_eq (e : env) (self : Aithre.t) :
  Aithre.render e self =
  match sensor e with
  | None => ([], self, Returns tt)
  | Some snsr =>
      if aithre_enabled e then
        match get_co_level snsr with
        | Raises x => ([GetCoLevel], self, Raises x)
        | Returns (Some (PInt n)) =>
            ([GetCoLevel;
              Blit (string_of_Z n ++ " PPM") (get_aithre_co_color (PInt n))
                   (Named BLACK) (Aithre.__lhs__ self)
                   (inject_Z (Aithre.__text_y_pos__ self))],
             Aithre.set_has_been_connected true self, Returns tt)
        | Returns _ =>
            if Aithre.__has_been_connected__ self then
              ([GetCoLevel;
                Blit "OFFLINE" (Named RED) (Named BLACK) (Aithre.__lhs__ self)
                     (inject_Z (Aithre.__text_y_pos__ self))],
               self, Returns tt)
            else ([GetCoLevel], self, Returns tt)
        end
      else ([], self, Returns tt)
  end.
Proof.
  unfold Aithre.render, Aithre.draw.
  destruct (sensor e) as [snsr | ]; [ | reflexivity].
  destruct (aithre_enabled e); [ | reflexivity].
  destruct (get_co_level snsr) as [[[n | text] | ] | x]; run;
    try reflexivity;
    destruct (Aithre.__has_been_connected__ self); reflexivity.
Qed.

(** X15: [Aithre.render] does not guard the sensor call.  Without a
    sensor, or with the feature switched off, it asks nothing, draws
    nothing and returns; when [get_co_level()] raises, the exception leaves
    [render], nothing is drawn and the element is unchanged (the diagnostics
    row shows ERR in that case instead). *)
Theorem aithre_render_inactive_or_raising (e : env) (self : Aithre.t) :
  (sensor e = None \/ aithre_enabled e = false ->
   Aithre.render e self = ([], self, Returns tt)) /\
  (forall snsr x,
     sensor e = Some snsr -> aithre_enabled e = true ->
     get_co_level snsr = Raises x ->
     Aithre.render e self = ([GetCoLevel], self, Raises x) /\
     exists text,
       outcome_of (@SystemInfo.co_text_and_color _ Aithre.t snsr self) =
         Returns (text, Named RED) /\ text = "ERR").
Proof.
  rewrite aithre_render_eq. split.
  - intros [Hnone | Hoff].
    + now rewrite Hnone.
    + rewrite Hoff. now destruct (sensor e).
  - intros snsr x Hsensor Hon Hraise. rewrite Hsensor, Hon, Hraise.
    split; [reflexivity | ].
    unfold SystemInfo.co_text_and_color. run. rewrite Hraise.
    eexists. split; reflexivity.
Qed.

Lemma aithre_frame_keeps_place (e : env) (self : Aithre.t) :
  let self' := state_of (Aithre.render e self) in
  Aithre.__lhs__ self' = Aithre.__lhs__ self /\
  Aithre.__text_y_pos__ self' = Aithre.__text_y_pos__ self /\
  (Aithre.__has_been_connected__ self = true \/ numeric_co_reading e <> None ->
   Aithre.__has_been_connected__ self' = true) /\
  Forall (fun ev => is_blit ev = true ->
            exists text c,
              ev = Blit text c (Named BLACK) (Aithre.__lhs__ self)
                        (inject_Z (Aithre.__text_y_pos__ self)))
         (trace_of (Aithre.render e self)).
Proof.
  cbv zeta. rewrite aithre_render_eq. unfold numeric_co_reading.
  destruct (sensor e) as [snsr | ];
    [destruct (aithre_enabled e);
     [destruct (get_co_level snsr) as [[[n | text] | ] | x];
      try destruct (Aithre.__has_been_connected__ self) eqn:Hflag | ] | ];
    cbn [trace_of state_of fst snd Aithre.set_has_been_connected
         Aithre.__lhs__ Aithre.__text_y_pos__ Aithre.__has_been_connected__];
    (split; [reflexivity | split; [reflexivity | split]]);
    try (intros [Hf | Hr]; congruence);
    repeat constructor; try discriminate; intros _; eexists; eexists;
      reflexivity.
Qed.

Lemma aithre_frames_keep_place (es : list env) :
  forall self : Aithre.t,
    let self' := snd (run_frames Aithre.render es self) in
    Aithre.__lhs__ self' = Aithre.__lhs__ self /\
    Aithre.__text_y_pos__ self' = Aithre.__text_y_pos__ self /\
    (Aithre.__has_been_connected__ self = true \/
     Exists (fun e => numeric_co_reading e <> None) es ->
     Aithre.__has_been_connected__ self' = true) /\
    Forall (fun ev => is_blit ev = true ->
              exists text c,
                ev = Blit text c (Named BLACK) (Aithre.__lhs__ self)
                          (inject_Z (Aithre.__text_y_pos__ self)))
           (fst (run_frames Aithre.render es self)).
Proof.
  induction es as [ | e es IH]; intros self; cbv zeta.
  - cbn [run_frames fst snd].
    split; [reflexivity | split; [reflexivity | split; [ | constructor]]].
    intros [Hflag | Hex]; [exact Hflag | inversion Hex].
  - rewrite run_frames_cons. cbn [fst snd].
    pose proof (aithre_frame_keeps_place e self) as (Hl & Hy & Hf & Hb).
    pose proof (IH (state_of (Aithre.render e self))) as (Hl' & Hy' & Hf' & Hb').
    rewrite Hl, Hy in Hb'.
    split; [congruence | split; [congruence | split]].
    + intros [Hflag | Hex]; apply Hf'.
      * left. apply Hf. now left.
      * inversion Hex as [? ? Hhead | ? ? Htail]; subst;
          [left; apply Hf; now right | now right].
    + apply Forall_app. split; assumption.
Qed.

(** X16: the Aithre element draws at one place: every text it draws in any
    run of frames after construction is on BLACK at the left edge, at a
    quarter of the display height less half the font height.  A frame with
    a numeric CO level n draws "n PPM" in the colour of n; once some frame
    had a numeric level, every later frame whose level is [None] or a text
    draws OFFLINE in RED. *)
Theorem aithre_text_once_connected (fnt : font) (size : Z * Z)
  (es : list env) (e : env) :
  let start := Aithre.__init__ fnt size in
  let self := snd (run_frames Aithre.render es start) in
  let y := inject_Z (Z.shiftr (snd size) 2 - Z.shiftr (get_height fnt) 1) in
  Forall (fun ev => is_blit ev = true ->
            exists text c, ev = Blit text c (Named BLACK) 0 y)
         (fst (run_frames Aithre.render (es ++ [e]) start)) /\
  (forall n,
     numeric_co_reading e = Some n ->
     trace_of (Aithre.render e self) =
       [GetCoLevel;
        Blit (string_of_Z n ++ " PPM") (get_aithre_co_color (PInt n))
             (Named BLACK) 0 y]) /\
  (Exists (fun e0 => numeric_co_reading e0 <> None) es ->
   forall snsr v,
     sensor e = Some snsr -> aithre_enabled e = true ->
     get_co_level snsr = Returns v ->
     numeric_co_reading e = None ->
     trace_of (Aithre.render e self) =
       [GetCoLevel; Blit "OFFLINE" (Named RED) (Named BLACK) 0 y]).
Proof.
  intros start self y.
  pose proof (aithre_frames_keep_place (es ++ [e]) start) as (_ & _ & _ & Hall).
  pose proof (aithre_frames_keep_place es start) as (Hl & Hy & Hflag & _).
  fold self in Hl, Hy, Hflag.
  change (Aithre.__lhs__ start) with 0 in *.
  change (inject_Z (Aithre.__text_y_pos__ start)) with y in Hall.
  change (Aithre.__text_y_pos__ start)
    with (Z.shiftr (snd size) 2 - Z.shiftr (get_height fnt) 1) in Hy.
  split; [exact Hall | split].
  - intros n Hn. rewrite aithre_render_eq. unfold numeric_co_reading in Hn.
    destruct (sensor e) as [snsr | ]; [ | discriminate].
    destruct (aithre_enabled e); [ | discriminate].
    destruct (get_co_level snsr) as [[[m | text] | ] | x]; try discriminate.
    injection Hn as ->. cbn [trace_of fst]. rewrite Hl, Hy. reflexivity.
  - intros Hex snsr v Hsensor Hon Hlevel Hnone.
    rewrite aithre_render_eq, Hsensor, Hon, Hlevel.
    unfold numeric_co_reading in Hnone. rewrite Hsensor, Hon, Hlevel in Hnone.
    rewrite (Hflag (or_intror Hex)), Hl, Hy.
    destruct v as [[m | text] | ]; [discriminate | reflexivity | reflexivity].
Qed.

End AithreMore.

Section GeometryMore.
Context `{Imports}.

Lemma refresh_keeps_margins (e : env) (self : SystemInfo.t) :
  let self' := state_of (SystemInfo.refresh e self) in
  SystemInfo.__rhs__ self' = SystemInfo.__rhs__ self /\
  SystemInfo.__left_x__ self' = SystemInfo.__left_x__ self /\
  SystemInfo.__center_x__ self' = SystemInfo.__center_x__ self.
Proof.
  cbv zeta.
  destruct (get_ip_address_run e tt) as (tri & ip & Hip & _).
  destruct (get_cpu_temp_run e tt) as (trt & temp & Htemp & _).
  destruct self as [fnt fh ty rhs lx cx ipt tpt ipa cpu fb ls].
  unfold SystemInfo.refresh, SystemInfo.refresh_ip, SystemInfo.refresh_temp,
    bind, modify, get, ret, SystemInfo.set_update_ip_timer,
    SystemInfo.set_update_temp_timer.
  cbn [SystemInfo.__update_ip_timer__ SystemInfo.__update_temp_timer__].
  destruct (ipt - 1 <=? 0).
  - rewrite (get_ip_address_uniform e (SystemInfo.mk _ _ _ _ _ _ _ _ _ _ _ _)).
    rewrite Hip. cbn [trace_of outcome_of fst snd].
    unfold SystemInfo.set_ip_address, SystemInfo.set_update_ip_timer.
    cbn [SystemInfo.__update_temp_timer__].
    destruct (tpt - 1 <=? 0).
    + rewrite (get_cpu_temp_uniform e (SystemInfo.mk _ _ _ _ _ _ _ _ _ _ _ _)).
      rewrite Htemp. cbn. repeat split.
    + cbn. repeat split.
  - cbn [SystemInfo.__update_temp_timer__].
    destruct (tpt - 1 <=? 0).
    + rewrite (get_cpu_temp_uniform e (SystemInfo.mk _ _ _ _ _ _ _ _ _ _ _ _)).
      rewrite Htemp. cbn. repeat split.
    + cbn. repeat split.
Qed.

Lemma render_keeps_geometry (e : env) (self : SystemInfo.t) :
  same_geometry self (state_of (SystemInfo.render e self)).
Proof.
  rewrite render_state.
  pose proof (refresh_run e self) as (_ & _ & Hlayout & _).
  pose proof (refresh_keeps_margins e self) as (Hr & Hl & Hc).
  unfold same_geometry. repeat split; try apply Hlayout; congruence.
Qed.

Lemma same_geometry_trans (a b c : SystemInfo.t) :
  same_geometry a b -> same_geometry b c -> same_geometry a c.
Proof.
  intros (Hl & H1 & H2 & H3) (Kl & K1 & K2 & K3).
  split; [exact (same_layout_trans a b c Hl Kl) | repeat split; congruence].
Qed.

(** X17: [render] assigns only the two countdowns and the two cached
    samples: over any run of frames, every other attribute keeps the value
    the constructor gave it: the font and its height, the line spacing of
    1.01, the framebuffer size, the bottom line at the display height less
    the font height, the middle at half the width, and the two margins. *)
Theorem geometry_is_constant (e0 : env) (fnt : font) (size : Z * Z)
  (start : SystemInfo.t) (es : list env) :
  outcome_of (SystemInfo.__init__ e0 fnt size tt) = Returns start ->
  let self := snd (run_frames SystemInfo.render es start) in
  same_geometry start self /\
  SystemInfo.__font__ self = fnt /\
  SystemInfo.font_height self = get_height fnt /\
  SystemInfo.__text_y_pos__ self + get_height fnt = snd size /\
  SystemInfo.__center_x__ self = fst size / 2 /\
  SystemInfo.__framebuffer_size__ self = size /\
  SystemInfo.__line_spacing__ self = (101 # 100)%Q.
Proof.
  intros Hinit self.
  assert (Hsame : same_geometry start self).
  { subst self. clear Hinit. revert start.
    induction es as [ | e es IH]; intros start.
    - repeat split.
    - rewrite run_frames_cons. cbn [snd].
      eapply same_geometry_trans; [apply render_keeps_geometry | apply IH]. }
  split; [exact Hsame | ].
  destruct Hsame as ((Hf & Hh & Hy & Hs & Hl) & _ & _ & Hc).
  rewrite <- Hf, <- Hh, <- Hy, <- Hs, <- Hl, <- Hc.
  destruct (get_ip_address_run e0 tt) as (tri & ip & Hip & _).
  unfold SystemInfo.__init__, bind in Hinit. rewrite Hip in Hinit.
  unfold ret, outcome_of in Hinit. cbn [snd] in Hinit.
  injection Hinit as <-.
  cbn [SystemInfo.__font__ SystemInfo.font_height SystemInfo.__text_y_pos__
       SystemInfo.__center_x__ SystemInfo.__framebuffer_size__
       SystemInfo.__line_spacing__].
  repeat split; try lia.
  rewrite Z.shiftr_div_pow2 by lia. reflexivity.
Qed.

Lemma draw_lines_only_draws (self0 : SystemInfo.t) (lines : list row) :
  forall (y : Q) (self : SystemInfo.t),
    blits (trace_of (SystemInfo.draw_lines self0 lines y self)) =
    trace_of (SystemInfo.draw_lines self0 lines y self).
Proof.
  induction lines as [ | [label [[text c] | ]] rest IH]; intros y self.
  - reflexivity.
  - rewrite draw_lines_value. cbv zeta.
    set (r := SystemInfo.draw_lines self0 rest _ self).
    cbn [trace_of fst]. unfold blits. cbn [filter is_blit].
    do 2 f_equal. apply IH.
  - reflexivity.
Qed.

(** X18: what a frame draws.  All texts of a frame come from the rows:
    the countdowns and the sensor query draw nothing.  A frame that returns
    draws two texts per row, 2 * (8 + number of spaces in the cached
    address text) in all, starting at the bottom line with the label
    "VERSION     : " in BLUE and the version in YELLOW right of it. *)
Theorem render_draws_the_rows (e : env) (self : SystemInfo.t) :
  ready self ->
  let r := SystemInfo.render e self in
  let self1 := state_of r in
  exists lines,
    outcome_of (SystemInfo.info_lines e self1) = Returns lines /\
    blits (trace_of r) =
      trace_of (SystemInfo.draw_lines self1 lines
                  (inject_Z (SystemInfo.__text_y_pos__ self1)) self1) /\
    List.length (blits (trace_of r)) =
      (2 * (8 + count_spaces (fst (SystemInfo.__ip_address__ self1))))%nat /\
    nth_error (blits (trace_of r)) 0 =
      Some (Blit "VERSION     : " (Named BLUE) (Named BLACK) 0
                 (inject_Z (SystemInfo.__text_y_pos__ self1))) /\
    nth_error (blits (trace_of r)) 1 =
      Some (Blit (VERSION e) (Named YELLOW) (Named BLACK)
                 (render_width (SystemInfo.__font__ self1) "VERSION     : ")
                 (inject_Z (SystemInfo.__text_y_pos__ self1))).
Proof.
  intros Hready. cbv zeta. rewrite render_state.
  pose proof (render_unfold e self) as Hrender. cbv zeta in Hrender.
  destruct Hrender as (tr & aithre & Hrow & Hrender).
  set (self1 := state_of (SystemInfo.refresh e self)) in *.
  destruct (info_lines_run e self1) as (tr' & aithre' & Hrow' & Hlines & _ & Hquiet).
  rewrite Hrow in Hrow'. injection Hrow' as <- <-.
  pose proof (refresh_run e self) as (_ & Hquiet0 & _).
  eexists. split; [rewrite Hlines; reflexivity | ].
  assert (Hblits : blits (trace_of (SystemInfo.render e self)) =
            trace_of (SystemInfo.draw_lines self1
              (rows_before e ++
               map (SystemInfo.ip_row (snd (SystemInfo.__ip_address__ self1)))
                   (split_space (fst (SystemInfo.__ip_address__ self1))) ++
               rows_after e self1 aithre)
              (inject_Z (SystemInfo.__text_y_pos__ self1)) self1)).
  { rewrite Hrender. cbn [trace_of fst]. unfold blits.
    rewrite !filter_app, Hquiet0, Hquiet. cbn [app].
    apply draw_lines_only_draws. }
  split; [exact Hblits | ].
  rewrite Hblits.
  assert (Hcached : SystemInfo.__cpu_temp__ self1 <> None)
    by now apply refresh_caches_temperature.
  split; [ | split; unfold rows_before; cbn [app];
             rewrite draw_lines_value; reflexivity].
  match goal with
  | |- List.length (trace_of (SystemInfo.draw_lines _ ?l ?y _)) = _ =>
      rewrite (draw_lines_length self1 l y self1)
  end.
  - rewrite !length_app, length_map, split_space_length.
    unfold rows_before, rows_after. cbn [List.length]. lia.
  - repeat rewrite Forall_app. repeat split.
    + unfold rows_before. repeat constructor; discriminate.
    + apply Forall_forall. intros line Hin. apply in_map_iff in Hin.
      destruct Hin as (a & <- & _). discriminate.
    + unfold rows_after. repeat constructor; try discriminate. exact Hcached.
Qed.

End GeometryMore.

(* ----------------------------------------------------------------- *)
(** *** From the output of the shell to the rows *)











Section ShellToRows.
Context `{Imports}.


End ShellToRows.

(* ----------------------------------------------------------------- *)
(** *** The rows on the screen *)

Section RowsOnScreen.
Context `{Imports}.

(** Where line i is drawn, when the lines up to it have values. *)
Lemma draw_lines_row_at (self0 : SystemInfo.t) (lines : list row) :
  forall (y : Q) (self : SystemInfo.t) (i : nat) (label text : string)
         (c : color),
    (forall j line, (j <= i)%nat -> nth_error lines j = Some line ->
                    snd line <> None) ->
    nth_error lines i = Some (label, Some (text, c)) ->
    let tr := trace_of (SystemInfo.draw_lines self0 lines y self) in
    exists yi : Q,
      (yi == y - inject_Z (Z.of_nat i) *
                 (inject_Z (SystemInfo.font_height self0) *
                  SystemInfo.__line_spacing__ self0))%Q /\
      nth_error tr (2 * i) =
        Some (Blit label (Named BLUE) (Named BLACK) 0 yi) /\
      nth_error tr (2 * i + 1) =
        Some (Blit text c (Named BLACK)
                   (render_width (SystemInfo.__font__ self0) label) yi).
Proof.
  induction lines as [ | [label0 [[text0 c0] | ]] rest IH];
    intros y self i label text c Hvalues Hnth; cbv zeta.
  - destruct i; discriminate.
  - rewrite draw_lines_value. cbv zeta.
    set (r := SystemInfo.draw_lines self0 rest _ self).
    cbn [trace_of fst]. subst r.
    destruct i as [ | i].
    + cbn in Hnth. injection Hnth as <- <- <-.
      exists y. split; [cbn; ring | split; reflexivity].
    + cbn [nth_error] in Hnth.
      destruct (IH (y - inject_Z (SystemInfo.font_height self0) *
                        SystemInfo.__line_spacing__ self0)%Q self
                   i label text c) as (yi & Hyi & Hl & Hv).
      * intros j line Hj Hline. apply (Hvalues (Datatypes.S j) line); [lia | ].
        exact Hline.
      * exact Hnth.
      * exists yi. split; [ | split].
        -- rewrite Hyi, Nat2Z.inj_succ. unfold Z.succ. rewrite inject_Z_plus.
           ring.
        -- replace (2 * Datatypes.S i)%nat
             with (Datatypes.S (Datatypes.S (2 * i))) by lia. exact Hl.
        -- replace (2 * Datatypes.S i + 1)%nat
             with (Datatypes.S (Datatypes.S (2 * i + 1))) by lia. exact Hv.
  - exfalso. destruct i as [ | i].
    + discriminate.
    + apply (Hvalues 0%nat (label0, None)); [lia | reflexivity | reflexivity].
Qed.

(** The texts of a frame are those of its rows, built from the page as the
    countdowns leave it; the rows of the address are rows 3, 4, ... *)
Lemma render_rows (e : env) (self : SystemInfo.t) :
  let self1 := state_of (SystemInfo.render e self) in
  exists aithre,
    let fields := split_space (fst (SystemInfo.__ip_address__ self1)) in
    let lines :=
      (rows_before e ++
       map (fun addr => ("IP          : ",
                         Some (addr, snd (SystemInfo.__ip_address__ self1))))
           fields ++
       rows_after e self1 aithre)%list in
    outcome_of (SystemInfo.info_lines e self1) = Returns lines /\
    blits (trace_of (SystemInfo.render e self)) =
      trace_of (SystemInfo.draw_lines self1 lines
                  (inject_Z (SystemInfo.__text_y_pos__ self1)) self1) /\
    forall (i : nat) (addr : string),
      nth_error fields i = Some addr ->
      exists yi : Q,
        (yi == inject_Z (SystemInfo.__text_y_pos__ self1) -
               inject_Z (Z.of_nat (3 + i)) *
               (inject_Z (SystemInfo.font_height self1) *
                SystemInfo.__line_spacing__ self1))%Q /\
        nth_error (blits (trace_of (SystemInfo.render e self))) (2 * (3 + i)) =
          Some (Blit "IP          : " (Named BLUE) (Named BLACK) 0 yi) /\
        nth_error (blits (trace_of (SystemInfo.render e self)))
                  (2 * (3 + i) + 1) =
          Some (Blit addr (snd (SystemInfo.__ip_address__ self1))
                     (Named BLACK)
                     (render_width (SystemInfo.__font__ self1)
                                   "IP          : ") yi).
Proof.
  cbv zeta. rewrite render_state.
  pose proof (render_unfold e self) as Hrender. cbv zeta in Hrender.
  destruct Hrender as (tr & aithre & Hrow & Hrender).
  set (self1 := state_of (SystemInfo.refresh e self)) in *.
  destruct (info_lines_run e self1)
    as (tr' & aithre' & Hrow' & Hlines & _ & Hquiet).
  rewrite Hrow in Hrow'. injection Hrow' as <- <-.
  pose proof (refresh_run e self) as (_ & Hquiet0 & _).
  exists aithre.
  set (lines := (rows_before e ++
                 map (fun addr => ("IP          : ",
                        Some (addr, snd (SystemInfo.__ip_address__ self1))))
                     (split_space (fst (SystemInfo.__ip_address__ self1))) ++
                 rows_after e self1 aithre)%list) in *.
  assert (Hblits : blits (trace_of (SystemInfo.render e self)) =
            trace_of (SystemInfo.draw_lines self1 lines
                        (inject_Z (SystemInfo.__text_y_pos__ self1)) self1)).
  { rewrite Hrender. cbn [trace_of fst]. unfold blits.
    rewrite !filter_app, Hquiet0, Hquiet. cbn [app].
    apply draw_lines_only_draws. }
  split; [now rewrite Hlines | ]. split; [exact Hblits | ].
  intros i addr Hfield. rewrite Hblits.
  assert (Hi : (i < List.length
                      (split_space (fst (SystemInfo.__ip_address__ self1))))%nat)
    by (apply nth_error_Some; rewrite Hfield; discriminate).
  apply draw_lines_row_at.
  - intros j line Hj Hline.
    assert (Hin : In line (rows_before e ++
                 map (fun addr => ("IP          : ",
                        Some (addr, snd (SystemInfo.__ip_address__ self1))))
                     (split_space (fst (SystemInfo.__ip_address__ self1))))).
    { apply nth_error_In with (n := j). rewrite <- Hline. unfold lines.
      rewrite app_assoc. symmetry. apply nth_error_app1.
      rewrite length_app, length_map. unfold rows_before.
      cbn [List.length]. lia. }
    apply in_app_iff in Hin. destruct Hin as [Hin | Hin].
    + unfold rows_before in Hin. cbn in Hin.
      destruct Hin as [<- | [<- | [<- | []]]]; discriminate.
    + apply in_map_iff in Hin. destruct Hin as (a & <- & _). discriminate.
  - unfold lines, rows_before. cbn [app Nat.add nth_error].
    rewrite nth_error_app1 by now rewrite length_map.
    now rewrite nth_error_map, Hfield.
Qed.

(** C7: when the address text that [render] has cached as it builds the
    rows is k addresses joined by single spaces (k at least 1), the rows
    hold, next to each other and in order, exactly one row per address,
    each with the label "IP          : " and the colour of the cached
    sample, after the three fixed rows and before the Aithre row; the texts
    [render] draws are those of these rows, and address i is drawn as row
    3 + i: its label in BLUE at the left edge and the address right of it
    in the colour of the sample. *)
Theorem ip_rows_one_per_address (e : env) (self : SystemInfo.t)
  (addrs : list string) (c : color) :
  addrs <> [] ->
  Forall (fun a => has_space a = false) addrs ->
  let self1 := state_of (SystemInfo.render e self) in
  SystemInfo.__ip_address__ self1 = (join_space addrs, c) ->
  exists aithre,
    let lines :=
      (rows_before e ++
       map (fun addr => ("IP          : ", Some (addr, c))) addrs ++
       rows_after e self1 aithre)%list in
    outcome_of (SystemInfo.info_lines e self1) = Returns lines /\
    List.length (map (fun addr : string =>
                        ("IP          : ", Some (addr, c))) addrs) =
      List.length addrs /\
    Forall (fun line : row => fst line <> "IP          : ")
           (rows_before e ++ rows_after e self1 aithre) /\
    blits (trace_of (SystemInfo.render e self)) =
      trace_of (SystemInfo.draw_lines self1 lines
                  (inject_Z (SystemInfo.__text_y_pos__ self1)) self1) /\
    (forall (i : nat) (addr : string),
       nth_error addrs i = Some addr ->
       exists yi : Q,
         (yi == inject_Z (SystemInfo.__text_y_pos__ self1) -
                inject_Z (Z.of_nat (3 + i)) *
                (inject_Z (SystemInfo.font_height self1) *
                 SystemInfo.__line_spacing__ self1))%Q /\
         nth_error (blits (trace_of (SystemInfo.render e self)))
                   (2 * (3 + i)) =
           Some (Blit "IP          : " (Named BLUE) (Named BLACK) 0 yi) /\
         nth_error (blits (trace_of (SystemInfo.render e self)))
                   (2 * (3 + i) + 1) =
           Some (Blit addr c (Named BLACK)
                      (render_width (SystemInfo.__font__ self1)
                                    "IP          : ") yi)) /\
    (1 < SystemInfo.__update_ip_timer__ self ->
     SystemInfo.__ip_address__ self = (join_space addrs, c) /\
     calls GetIpAddress (trace_of (SystemInfo.render e self)) = 0%nat).
Proof.
  intros Hne Hall self1 Hcache.
  pose proof (render_rows e self) as Hrows. cbv zeta in Hrows.
  fold self1 in Hrows. rewrite Hcache in Hrows. cbn [fst snd] in Hrows.
  rewrite (split_space_join_space addrs Hne Hall) in Hrows.
  destruct Hrows as (aithre & Hlines & Hblits & Hdrawn).
  exists aithre. cbv zeta.
  split; [exact Hlines | ]. split; [apply length_map | ].
  split; [ | split; [exact Hblits | split; [exact Hdrawn | ]]].
  - unfold rows_before, rows_after. cbn [app].
    repeat constructor; cbn [fst]; discriminate.
  - intros Htimer.
    pose proof (refresh_run e self) as (_ & _ & _ & _ & Hrest & _).
    destruct (Hrest Htimer) as (Hcalls & _ & Hsame).
    split.
    + rewrite <- Hsame, <- Hcache. subst self1. now rewrite render_state.
    + now rewrite render_calls.
Qed.

(** X8: whatever text [render] has cached for the address as it builds
    the rows, also an empty one, it builds one row per field between
    spaces: one more row than the text has spaces, so at least one, and
    8 rows and more in all; no field holds a space, and the fields joined
    by spaces are the cached text again.  The texts [render] draws are
    those of the rows, and field i is drawn as row 3 + i, with the label of
    the address in BLUE and the field in the colour of the cached
    sample. *)
Theorem ip_rows_for_any_text (e : env) (self : SystemInfo.t) :
  let self1 := state_of (SystemInfo.render e self) in
  let fields := split_space (fst (SystemInfo.__ip_address__ self1)) in
  exists aithre lines,
    outcome_of (SystemInfo.info_lines e self1) = Returns lines /\
    lines =
      (rows_before e ++
       map (fun addr => ("IP          : ",
                         Some (addr, snd (SystemInfo.__ip_address__ self1))))
           fields ++
       rows_after e self1 aithre)%list /\
    List.length fields =
      Datatypes.S (count_spaces (fst (SystemInfo.__ip_address__ self1))) /\
    List.length lines =
      (8 + count_spaces (fst (SystemInfo.__ip_address__ self1)))%nat /\
    Forall (fun addr => has_space addr = false) fields /\
    join_space fields = fst (SystemInfo.__ip_address__ self1) /\
    blits (trace_of (SystemInfo.render e self)) =
      trace_of (SystemInfo.draw_lines self1 lines
                  (inject_Z (SystemInfo.__text_y_pos__ self1)) self1) /\
    forall (i : nat) (addr : string),
      nth_error fields i = Some addr ->
      exists yi : Q,
        (yi == inject_Z (SystemInfo.__text_y_pos__ self1) -
               inject_Z (Z.of_nat (3 + i)) *
               (inject_Z (SystemInfo.font_height self1) *
                SystemInfo.__line_spacing__ self1))%Q /\
        nth_error (blits (trace_of (SystemInfo.render e self))) (2 * (3 + i)) =
          Some (Blit "IP          : " (Named BLUE) (Named BLACK) 0 yi) /\
        nth_error (blits (trace_of (SystemInfo.render e self)))
                  (2 * (3 + i) + 1) =
          Some (Blit addr (snd (SystemInfo.__ip_address__ self1))
                     (Named BLACK)
                     (render_width (SystemInfo.__font__ self1)
                                   "IP          : ") yi).
Proof.
  intros self1 fields.
  pose proof (render_rows e self) as Hrows. cbv zeta in Hrows.
  fold self1 in Hrows. fold fields in Hrows.
  destruct Hrows as (aithre & Hlines & Hblits & Hdrawn).
  exists aithre. eexists. split; [exact Hlines | ].
  split; [reflexivity | ].
  split; [apply split_space_length | ].
  split; [ | split; [apply split_space_fields | ]].
  - rewrite !length_app, length_map. unfold fields.
    rewrite split_space_length.
    unfold rows_before, rows_after. cbn [List.length]. lia.
  - split; [apply join_space_split_space | ].
    split; [exact Hblits | exact Hdrawn].
Qed.

End RowsOnScreen.

Section FirstFrame.
Context `{Imports}.

(** When both countdowns let their probes run, the countdowns do just
    that: the address probe, then the temperature probe. *)
Lemma refresh_first (e : env) (self : SystemInfo.t) :
  SystemInfo.__update_ip_timer__ self <= 1 ->
  SystemInfo.__update_temp_timer__ self <= 1 ->
  trace_of (SystemInfo.refresh e self) =
  (trace_of (get_ip_address e tt) ++ trace_of (get_cpu_temp e tt))%list.
Proof.
  intros Hip Htemp.
  destruct (get_ip_address_run e tt) as (tri & ip & Hrun_ip & _).
  destruct (get_cpu_temp_run e tt) as (trt & temp & Hrun_temp & _).
  destruct self as [fnt fh ty rhs lx cx ipt tpt ipa cpu fb ls].
  cbn [SystemInfo.__update_ip_timer__ SystemInfo.__update_temp_timer__]
    in Hip, Htemp.
  unfold SystemInfo.refresh, SystemInfo.refresh_ip, SystemInfo.refresh_temp,
    bind, modify, get, ret, SystemInfo.set_update_ip_timer,
    SystemInfo.set_update_temp_timer.
  cbn [SystemInfo.__update_ip_timer__ SystemInfo.__update_temp_timer__].
  destruct (Z.leb_spec (ipt - 1) 0) as [_ | Hno]; [ | lia].
  rewrite (get_ip_address_uniform e (SystemInfo.mk _ _ _ _ _ _ _ _ _ _ _ _)).
  rewrite Hrun_ip. cbn [trace_of outcome_of fst snd].
  unfold SystemInfo.set_ip_address, SystemInfo.set_update_ip_timer.
  cbn [SystemInfo.__update_temp_timer__].
  destruct (Z.leb_spec (tpt - 1) 0) as [_ | Hno]; [ | lia].
  rewrite (get_cpu_temp_uniform e (SystemInfo.mk _ _ _ _ _ _ _ _ _ _ _ _)).
  rewrite Hrun_temp. cbn [trace_of outcome_of fst snd app].
  now rewrite !app_nil_r.
Qed.

(** Every line of a list in which every line has a value is drawn. *)
Lemma draw_lines_shows (self0 self : SystemInfo.t) (lines : list row)
  (y : Q) (label text : string) (c : color) :
  Forall (fun line => snd line <> None) lines ->
  In (label, Some (text, c)) lines ->
  exists yi : Q,
    In (Blit text c (Named BLACK)
             (render_width (SystemInfo.__font__ self0) label) yi)
       (trace_of (SystemInfo.draw_lines self0 lines y self)).
Proof.
  intros Hall Hin. apply In_nth_error in Hin. destruct Hin as (i & Hnth).
  destruct (draw_lines_row_at self0 lines y self i label text c)
    as (yi & _ & _ & Hvalue); [ | exact Hnth | ].
  - intros j line _ Hline. apply nth_error_In in Hline.
    rewrite Forall_forall in Hall. now apply Hall.
  - exists yi. eapply nth_error_In. exact Hvalue.
Qed.

(** C6, as the code has it: the constructor invokes [get_ip_address] and
    nothing else, caches the sample it returns (the marker UNKNOWN in RED
    when the lookup failed), leaves the temperature cache at [None] without
    invoking [get_cpu_temp], and sets both countdowns to 0.  The first
    [render] therefore begins with [get_ip_address] and then
    [get_cpu_temp]; only after them it asks the sensor, builds the rows
    from the two samples just returned and draws them: no text is drawn
    before both probes have run.  The address rows and the CPU row of that
    frame carry these samples, and the frame returns. *)
Theorem first_frame_has_samples (e : env) (fnt : font) (size : Z * Z) :
  exists tr self ip,
    SystemInfo.__init__ e fnt size tt = (tr, tt, Returns self) /\
    get_ip_address e tt = (tr, tt, Returns ip) /\
    outcome_of (get_ip_address e tt) = Returns ip /\
    SystemInfo.__ip_address__ self = ip /\
    calls GetIpAddress tr = 1%nat /\
    calls GetCpuTemp tr = 0%nat /\
    SystemInfo.__cpu_temp__ self = None /\
    SystemInfo.__update_ip_timer__ self = 0 /\
    SystemInfo.__update_temp_timer__ self = 0 /\
    forall e' : env,
      let r := SystemInfo.render e' self in
      let self1 := state_of r in
      calls GetIpAddress (trace_of r) = 1%nat /\
      calls GetCpuTemp (trace_of r) = 1%nat /\
      outcome_of r = Returns tt /\
      outcome_of (get_ip_address e' tt) =
        Returns (SystemInfo.__ip_address__ self1) /\
      exists temp tr_sensor aithre,
        outcome_of (get_cpu_temp e' tt) = Returns temp /\
        SystemInfo.__cpu_temp__ self1 = Some temp /\
        let lines :=
          (rows_before e' ++
           map (fun addr =>
                  ("IP          : ",
                   Some (addr, snd (SystemInfo.__ip_address__ self1))))
               (split_space (fst (SystemInfo.__ip_address__ self1))) ++
           [ ("AITHRE      : ", Some aithre);
             ("HUD CPU     : ", Some temp);
             ("OWNSHIP     : ",
              Some ((ownship_mode_s e' ++ "/" ++ ownship_icao e')%string,
                    Named BLUE));
             ("DISPLAY RES : ",
              Some ((string_of_Z (fst size) ++ " x " ++
                     string_of_Z (snd size))%string, Named BLUE)) ])%list in
        let drawn :=
          SystemInfo.draw_lines self1 lines
            (inject_Z (SystemInfo.__text_y_pos__ self1)) self1 in
        outcome_of (SystemInfo.info_lines e' self1) = Returns lines /\
        r = (((trace_of (get_ip_address e' tt) ++
               trace_of (get_cpu_temp e' tt)) ++
              tr_sensor ++ trace_of drawn)%list, self1, Returns tt) /\
        blits (trace_of (get_ip_address e' tt) ++
               trace_of (get_cpu_temp e' tt)) = [] /\
        blits tr_sensor = [] /\
        (forall p, calls p (tr_sensor ++ trace_of drawn) = 0%nat) /\
        blits (trace_of drawn) = trace_of drawn /\
        exists yi : Q,
          In (Blit (fst temp) (snd temp) (Named BLACK)
                   (render_width fnt "HUD CPU     : ") yi)
             (trace_of drawn).
Proof.
  destruct (get_ip_address_run e tt) as (tri & ip & Hip & Hci & _).
  exists (Called GetIpAddress :: tri).
  unfold SystemInfo.__init__, bind. rewrite Hip. unfold ret. cbn [app].
  rewrite app_nil_r.
  eexists; exists ip.
  split; [reflexivity | ]. split; [reflexivity | ].
  split; [reflexivity | ]. split; [reflexivity | ].
  split; [ | split; [ | repeat (split; [reflexivity | ])]].
  - unfold calls in *. cbn [filter is_call List.length].
    specialize (Hci GetIpAddress). now rewrite Hci.
  - unfold calls in *. cbn [filter is_call List.length].
    specialize (Hci GetCpuTemp). now rewrite Hci.
  - intros e'.
    match goal with |- context [SystemInfo.render e' ?st] =>
      set (self := st) end.
    cbv zeta. rewrite render_state.
    pose proof (render_unfold e' self) as Hrender. cbv zeta in Hrender.
    destruct Hrender as (tr_sensor & aithre & Hrow & Hrender).
    pose proof (refresh_run e' self)
      as (_ & Hquiet & Hlayout & Hfire_ip & _ & Hfire_temp & _).
    destruct Hfire_ip as (Hone_ip & _ & Hcache_ip); [cbn; lia | ].
    destruct Hfire_temp as (Hone_temp & _ & temp & Htemp & Hcache_temp);
      [cbn; lia | ].
    pose proof (refresh_first e' self) as Hfirst.
    rewrite Hfirst in Hrender, Hquiet by (cbn; lia).
    set (self1 := state_of (SystemInfo.refresh e' self)) in *.
    destruct (info_lines_run e' self1)
      as (tr' & aithre' & Hrow' & Hlines & Hcalls_sensor & Hquiet_sensor).
    rewrite Hrow in Hrow'. injection Hrow' as <- <-.
    assert (Hafter : rows_after e' self1 aithre =
              [ ("AITHRE      : ", Some aithre);
                ("HUD CPU     : ", Some temp);
                ("OWNSHIP     : ",
                 Some (ownship_mode_s e' ++ "/" ++ ownship_icao e',
                       Named BLUE));
                ("DISPLAY RES : ",
                 Some (string_of_Z (fst size) ++ " x " ++
                       string_of_Z (snd size), Named BLUE)) ]).
    { unfold rows_after. rewrite Hcache_temp.
      destruct Hlayout as (_ & _ & _ & <- & _). reflexivity. }
    assert (Hfont : SystemInfo.__font__ self1 = fnt).
    { destruct Hlayout as (<- & _). reflexivity. }
    unfold SystemInfo.ip_row in Hrender, Hlines.
    rewrite Hafter in Hrender, Hlines.
    match type of Hlines with
    | _ = (_, _, Returns ?l) => set (lines := l) in *
    end.
    assert (Hall : Forall (fun line : row => snd line <> None) lines).
    { unfold lines. repeat rewrite Forall_app. repeat split.
      - unfold rows_before. repeat constructor; discriminate.
      - apply Forall_forall. intros line Hin. apply in_map_iff in Hin.
        destruct Hin as (a & <- & _). discriminate.
      - repeat constructor; discriminate. }
    destruct (draw_lines_run self1 lines
                (inject_Z (SystemInfo.__text_y_pos__ self1)) self1)
      as (tr3 & o & Hdraw & Hcalls_draw & Hok).
    specialize (Hok Hall). subst o.
    assert (Hout : outcome_of (SystemInfo.draw_lines self1 lines
                     (inject_Z (SystemInfo.__text_y_pos__ self1)) self1) =
                   Returns tt) by now rewrite Hdraw.
    rewrite Hout in Hrender.
    assert (Hcalls : forall p,
              calls p (tr_sensor ++
                       trace_of (SystemInfo.draw_lines self1 lines
                         (inject_Z (SystemInfo.__text_y_pos__ self1)) self1)) =
              0%nat).
    { intros p. rewrite calls_app, Hcalls_sensor, Hdraw. cbn [trace_of fst].
      now rewrite Hcalls_draw. }
    rewrite Hrender. cbn [trace_of outcome_of fst snd].
    rewrite <- Hfirst by (cbn; lia).
    split; [now rewrite calls_app, Hcalls, Hone_ip | ].
    split; [now rewrite calls_app, Hcalls, Hone_temp | ].
    split; [reflexivity | ]. split; [exact Hcache_ip | ].
    exists temp, tr_sensor, aithre.
    split; [exact Htemp | ]. split; [exact Hcache_temp | ].
    split; [now rewrite Hlines | ]. split; [reflexivity | ].
    rewrite Hfirst by (cbn; lia).
    split; [exact Hquiet | ]. split; [exact Hquiet_sensor | ].
    split; [exact Hcalls | ]. split; [apply draw_lines_only_draws | ].
    rewrite <- Hfont.
    apply (draw_lines_shows self1 self1 lines _ "HUD CPU     : "
             (fst temp) (snd temp) Hall).
    unfold lines. apply in_or_app. right. apply in_or_app. right.
    right. left. now destruct temp.
Qed.

End FirstFrame.

(* ================================================================= *)
(** ** The further properties on the sample collaborators *)

Lemma co_color_bands_witness :
  (500 <= 800) /\
  (level (@get_aithre_co_color Sample.imports (PInt 500)) <=
   level (@get_aithre_co_color Sample.imports (PInt 800)))%nat /\
  @get_aithre_co_color Sample.imports (PInt 800) = Named RED.
Proof.
  assert (Hle : 500 <= 800) by lia.
  destruct (@co_color_bands Sample.imports 500 800) as (_ & _ & _ & _ & Hmono).
  destruct (@co_color_bands Sample.imports 800 800) as (Hred & _).
  split; [exact Hle | split; [exact (Hmono Hle) | ]].
  apply Hred. reflexivity.
Defined.

Lemma battery_color_bands_witness :
  (20 <= 80) /\
  (level (@get_aithre_battery_color Sample.imports (PInt 80)) <=
   level (@get_aithre_battery_color Sample.imports (PInt 20)))%nat /\
  @get_aithre_battery_color Sample.imports (PInt 80) = Named GREEN.
Proof.
  assert (Hle : 20 <= 80) by lia.
  destruct (@battery_color_bands Sample.imports 20 80) as (_ & _ & _ & _ & Hmono).
  destruct (@battery_color_bands Sample.imports 80 80) as (Hgreen & _).
  split; [exact Hle | split; [exact (Hmono Hle) | ]].
  apply Hgreen. discriminate.
Defined.

Lemma aithre_row_textual_reading_witness :
  (exists bat_text,
     outcome_of (@SystemInfo.__get_aithre_text_and_color__ Sample.imports unit
                   (MoreSamples.with_sensor (Some MoreSamples.texts)) tt) =
       Returns (("co:" ++ "OFFLINE" ++ "ppm") ++ " " ++ bat_text, Named RED)) /\
  @get_aithre_battery_color Sample.imports (PStr "LOW") = Named GREEN.
Proof.
  destruct (@aithre_row_textual_reading Sample.imports unit
              (MoreSamples.with_sensor (Some MoreSamples.texts))
              MoreSamples.texts tt "OFFLINE" eq_refl) as (Hco & _).
  destruct (@aithre_row_textual_reading Sample.imports unit
              (MoreSamples.with_sensor (Some MoreSamples.texts))
              MoreSamples.texts tt "LOW" eq_refl) as (_ & Hbat).
  split; [exact (Hco eq_refl) | ].
  destruct (Hbat eq_refl) as (Hgreen & _). exact Hgreen.
Defined.

Lemma aithre_co_unknown_is_red_witness :
  exists co_text bat_text,
    (get_co_level MoreSamples.no_co = Returns None -> co_text = "UNK") /\
    (forall x, get_co_level MoreSamples.no_co = Raises x -> co_text = "ERR") /\
    outcome_of (@SystemInfo.__get_aithre_text_and_color__ Sample.imports unit
                  (MoreSamples.with_sensor (Some MoreSamples.no_co)) tt) =
      Returns (co_text ++ " " ++ bat_text, Named RED).
Proof.
  exact (@aithre_co_unknown_is_red Sample.imports unit
           (MoreSamples.with_sensor (Some MoreSamples.no_co))
           MoreSamples.no_co tt eq_refl (or_introl eq_refl)).
Defined.

Lemma cpu_temp_sample_cases_witness :
  @get_cpu_temp Sample.imports unit Sample.pi tt =
    ([Called GetCpuTemp; ReadThermal], tt,
     Returns (string_of_Z (Qfloor (65000 / 1000)) ++ "C",
              @get_cpu_temp_text_color Sample.imports (65000 / 1000))) /\
  outcome_of (@get_cpu_temp Sample.imports unit Sample.failing tt) =
    Returns ("---", Named GRAY) /\
  @get_cpu_temp Sample.imports unit (MoreSamples.with_thermal "inf") tt =
    ([Called GetCpuTemp; ReadThermal], tt, Returns ("---", Named GRAY)).
Proof.
  destruct (@cpu_temp_sample_cases Sample.imports unit Sample.pi tt)
    as (_ & _ & Hgood).
  destruct (Hgood _ 65000%Q eq_refl eq_refl eq_refl) as (Hrun & _).
  destruct (@cpu_temp_sample_cases Sample.imports unit Sample.failing tt)
    as ((_ & Hbad) & _).
  destruct (@cpu_temp_sample_cases Sample.imports unit
              (MoreSamples.with_thermal "inf") tt) as (_ & Hinf & _).
  destruct (Hinf "inf" false eq_refl eq_refl (or_introl eq_refl))
    as (_ & Hrun_inf).
  split; [exact Hrun | split; [ | exact Hrun_inf]].
  apply Hbad. right. right. exists "n/a". split; [reflexivity | ].
  intros m. discriminate.
Defined.

Lemma ip_address_sample_cases_witness :
  @get_ip_address unit Sample.pi tt =
    ([Called GetIpAddress; HostnameI], tt,
     Returns (strip "192.168.10.1 10.0.0.7 ", Named GREEN)) /\
  @get_ip_address unit (Sample.desktop false) tt =
    ([Called GetIpAddress; GetHostName; GetHostByName "desk"], tt,
     Returns ("192.168.1.20", Named GREEN)).
Proof.
  destruct (@ip_address_sample_cases unit Sample.pi tt) as (Hpi & _).
  destruct (Hpi eq_refl _ eq_refl) as (Hrun & _).
  destruct (@ip_address_sample_cases unit (Sample.desktop false) tt)
    as (_ & Hdesk & _).
  destruct (Hdesk eq_refl) as (_ & Hrun').
  split; [exact Hrun | exact (Hrun' _ _ eq_refl eq_refl)].
Defined.

Lemma draw_lines_layout_witness :
  List.length
    (trace_of (@SystemInfo.draw_lines Sample.running
                 [("A : ", Some ("a", Named RED)); ("B : ", Some ("b", Named GREEN))]
                 100 Sample.running)) = 4%nat.
Proof.
  assert (Hall : Forall (fun line : row => snd line <> None)
                   [("A : ", Some ("a", Named RED));
                    ("B : ", Some ("b", Named GREEN))])
    by (repeat constructor; discriminate).
  destruct (draw_lines_layout Sample.running _ 100 Sample.running Hall)
    as (Hlen & _).
  exact Hlen.
Defined.

Lemma render_raises_without_temperature_witness :
  ~ ready (MoreSamples.page 7 7 None) /\
  outcome_of (@SystemInfo.render Sample.imports Sample.pi
                (MoreSamples.page 7 7 None)) = Raises TypeError /\
  outcome_of (@SystemInfo.render Sample.imports Sample.pi
                (MoreSamples.page 7 1 None)) = Returns tt.
Proof.
  assert (Hnot : ~ ready (MoreSamples.page 7 7 None)).
  { intros [Hcpu | Htimer]; [now elim Hcpu | cbn in Htimer; lia]. }
  assert (Hready : ready (MoreSamples.page 7 1 None)).
  { right. cbn. lia. }
  split; [exact Hnot | ].
  destruct (@render_raises_without_temperature Sample.imports Sample.pi
              (MoreSamples.page 7 7 None)) as (_ & Hraise).
  destruct (@render_raises_without_temperature Sample.imports Sample.pi
              (MoreSamples.page 7 1 None)) as ((_ & Hreturn) & _).
  destruct (Hraise Hnot) as (Hout & _).
  split; [exact Hout | exact (Hreturn Hready)].
Defined.

Lemma frames_after_construction_return_witness :
  outcome_of (@SystemInfo.render Sample.imports Sample.failing
                (snd (run_frames (@SystemInfo.render Sample.imports)
                        [Sample.pi; Sample.failing; Sample.desktop true]
                        (MoreSamples.page 0 0 None)))) = Returns tt.
Proof.
  destruct (@frames_after_construction_return Sample.imports Sample.pi
              Sample.a_font (800, 480) (MoreSamples.page 0 0 None)
              [Sample.pi; Sample.failing; Sample.desktop true] Sample.failing
              eq_refl) as (Hout & _).
  exact Hout.
Defined.

Lemma probe_invocations_in_frames_witness :
  Z.of_nat (calls GetIpAddress
              (fst (run_frames (@SystemInfo.render Sample.imports)
                      (repeat Sample.pi 200) (MoreSamples.page 0 0 None)))) =
    1 + (Z.of_nat (List.length (repeat Sample.pi 200)) - 1) / 120 /\
  Z.of_nat (calls GetCpuTemp
              (fst (run_frames (@SystemInfo.render Sample.imports)
                      (repeat Sample.pi 200) (MoreSamples.page 0 0 None)))) =
    1 + (Z.of_nat (List.length (repeat Sample.pi 200)) - 1) / 60.
Proof.
  destruct (@probe_invocations_in_frames Sample.imports
              (repeat Sample.pi 200) (MoreSamples.page 0 0 None))
    as (_ & _ & Hfresh).
  apply (Hfresh Sample.pi Sample.a_font (800, 480) eq_refl).
  discriminate.
Defined.

Lemma cached_sample_is_reused_witness :
  SystemInfo.__ip_address__
    (snd (run_frames (@SystemInfo.render Sample.imports)
            (repeat Sample.failing 10) Sample.running)) =
    ("192.168.10.1 10.0.0.7", Named GREEN) /\
  SystemInfo.__cpu_temp__
    (snd (run_frames (@SystemInfo.render Sample.imports)
            (repeat Sample.failing 10) Sample.running)) =
    Some ("65C", Named GREEN).
Proof.
  destruct (@cached_sample_is_reused Sample.imports
              (repeat Sample.failing 10) Sample.running) as (Hip & Htemp).
  destruct (Hip eq_refl) as (Hcache & _).
  destruct (Htemp eq_refl) as (Hcache' & _).
  split; [exact Hcache | exact Hcache'].
Defined.


Lemma aithre_render_inactive_or_raising_witness :
  @Aithre.render Sample.imports (Sample.desktop true)
    (Aithre.__init__ Sample.a_font (800, 480)) =
    ([], Aithre.__init__ Sample.a_font (800, 480), Returns tt) /\
  @Aithre.render Sample.imports
    (MoreSamples.with_sensor (Some MoreSamples.broken))
    (Aithre.__init__ Sample.a_font (800, 480)) =
    ([GetCoLevel], Aithre.__init__ Sample.a_font (800, 480),
     Raises SensorError).
Proof.
  destruct (@aithre_render_inactive_or_raising Sample.imports
              (Sample.desktop true) (Aithre.__init__ Sample.a_font (800, 480)))
    as (Hquiet & _).
  destruct (@aithre_render_inactive_or_raising Sample.imports
              (MoreSamples.with_sensor (Some MoreSamples.broken))
              (Aithre.__init__ Sample.a_font (800, 480)))
    as (_ & Hraise).
  split; [exact (Hquiet (or_introl eq_refl)) | ].
  destruct (Hraise MoreSamples.broken SensorError eq_refl eq_refl eq_refl)
    as (Hrun & _).
  exact Hrun.
Defined.

Lemma aithre_text_once_connected_witness :
  trace_of (@Aithre.render Sample.imports Sample.failing
              (snd (run_frames (@Aithre.render Sample.imports)
                      [Sample.pi; Sample.desktop true]
                      (Aithre.__init__ Sample.a_font (800, 480))))) =
    [GetCoLevel;
     Blit "OFFLINE" (Named RED) (Named BLACK) 0
          (inject_Z (Z.shiftr 480 2 - Z.shiftr 20 1))].
Proof.
  pose proof (@aithre_text_once_connected Sample.imports Sample.a_font
                (800, 480) [Sample.pi; Sample.desktop true] Sample.failing)
    as Hthm.
  cbv zeta in Hthm. destruct Hthm as (_ & _ & Hoffline).
  assert (Hex : Exists (fun e0 => numeric_co_reading e0 <> None)
                  [Sample.pi; Sample.desktop true])
    by (apply Exists_cons_hd; discriminate).
  exact (Hoffline Hex
           {| get_battery := Returns None;
              get_co_level := Returns (Some (PStr "OFFLINE")) |}
           (Some (PStr "OFFLINE")) eq_refl eq_refl eq_refl eq_refl).
Defined.

Lemma geometry_is_constant_witness :
  SystemInfo.__text_y_pos__
    (snd (run_frames (@SystemInfo.render Sample.imports)
            [Sample.pi; Sample.failing] (MoreSamples.page 0 0 None))) + 20 =
    480.
Proof.
  destruct (@geometry_is_constant Sample.imports Sample.pi Sample.a_font
              (800, 480) (MoreSamples.page 0 0 None)
              [Sample.pi; Sample.failing] eq_refl)
    as (_ & _ & _ & Hbottom & _).
  exact Hbottom.
Defined.

Lemma render_draws_the_rows_witness :
  List.length
    (blits (trace_of (@SystemInfo.render Sample.imports Sample.pi
                        Sample.running))) =
    (2 * (8 + count_spaces
                (fst (SystemInfo.__ip_address__
                        (state_of (@SystemInfo.render Sample.imports Sample.pi
                                     Sample.running))))))%nat.
Proof.
  assert (Hready : ready Sample.running) by (left; discriminate).
  pose proof (@render_draws_the_rows Sample.imports Sample.pi Sample.running
                Hready) as Hthm.
  cbv zeta in Hthm. destruct Hthm as (lines & _ & _ & Hlen & _).
  exact Hlen.
Defined.


Lemma ip_rows_one_per_address_witness :
  let self1 :=
    state_of (@SystemInfo.render Sample.imports Sample.pi Sample.running) in
  SystemInfo.__ip_address__ self1 =
    (join_space ["192.168.10.1"; "10.0.0.7"], Named GREEN) /\
  exists aithre,
    outcome_of (@SystemInfo.info_lines Sample.imports Sample.pi self1) =
      Returns (rows_before Sample.pi ++
               [("IP          : ", Some ("192.168.10.1", Named GREEN));
                ("IP          : ", Some ("10.0.0.7", Named GREEN))] ++
               rows_after Sample.pi self1 aithre)%list /\
    exists yi : Q,
      nth_error
        (blits (trace_of (@SystemInfo.render Sample.imports Sample.pi
                            Sample.running)))
        (2 * (3 + 1) + 1) =
      Some (Blit "10.0.0.7" (Named GREEN) (Named BLACK)
                 (render_width (SystemInfo.__font__ self1) "IP          : ")
                 yi).
Proof.
  intros self1.
  assert (Hne : ["192.168.10.1"; "10.0.0.7"] <> @nil string) by discriminate.
  assert (Hall : Forall (fun a => has_space a = false)
                   ["192.168.10.1"; "10.0.0.7"]).
  { repeat constructor. }
  assert (Hcache : SystemInfo.__ip_address__ self1 =
                   (join_space ["192.168.10.1"; "10.0.0.7"], Named GREEN)).
  { vm_compute. reflexivity. }
  split; [exact Hcache | ].
  pose proof (@ip_rows_one_per_address Sample.imports Sample.pi Sample.running
                ["192.168.10.1"; "10.0.0.7"] (Named GREEN) Hne Hall Hcache)
    as Hthm.
  cbv zeta in Hthm. fold self1 in Hthm.
  destruct Hthm as (aithre & Hrows & _ & _ & _ & Hdrawn & _).
  exists aithre. split; [exact Hrows | ].
  destruct (Hdrawn 1%nat "10.0.0.7" eq_refl) as (yi & _ & _ & Hvalue).
  exists yi. exact Hvalue.
Defined.

Lemma ip_rows_for_any_text_witness :
  let self1 :=
    state_of (@SystemInfo.render Sample.imports Sample.failing
                (MoreSamples.page 1 1 None)) in
  nth_error (split_space (fst (SystemInfo.__ip_address__ self1))) 0 =
    Some "UNKNOWN" /\
  exists yi : Q,
    nth_error
      (blits (trace_of (@SystemInfo.render Sample.imports Sample.failing
                          (MoreSamples.page 1 1 None))))
      (2 * (3 + 0) + 1) =
    Some (Blit "UNKNOWN" (snd (SystemInfo.__ip_address__ self1))
               (Named BLACK)
               (render_width (SystemInfo.__font__ self1) "IP          : ")
               yi).
Proof.
  intros self1.
  assert (Hfield : nth_error
                     (split_space (fst (SystemInfo.__ip_address__ self1))) 0 =
                   Some "UNKNOWN").
  { vm_compute. reflexivity. }
  split; [exact Hfield | ].
  pose proof (@ip_rows_for_any_text Sample.imports Sample.failing
                (MoreSamples.page 1 1 None)) as Hthm.
  cbv zeta in Hthm. fold self1 in Hthm.
  destruct Hthm as (aithre & lines & _ & _ & _ & _ & _ & _ & _ & Hdrawn).
  destruct (Hdrawn 0%nat "UNKNOWN" Hfield) as (yi & _ & _ & Hvalue).
  exists yi. exact Hvalue.
Defined.
